(** * vsyspy.contract: the data-entry codec, the contract envelope and the
      opcode-frame builder, embedded from [src/vsyspy/contract.py] (with
      [serialize_array] and the string lambdas taken from [src/contract.py]). *)

From Stdlib.Strings Require Import String Byte.
From Stdlib Require Import ZArith NArith List Bool Lia.
Import ListNotations.

Local Open Scope Z_scope.

(** ** Python primitives used by the module *)

(** The exceptions that can leave the modelled functions.  [StructError] is
    [struct.error]; [UnicodeEncodeError] is a subclass of [ValueError]. *)
Inductive exn : Type :=
| StructError
| ValueError
| UnicodeEncodeError
| TypeError
| AttributeError
| InvalidContractException.

(** [isinstance(e, ValueError)]. *)
Definition is_ValueError (e : exn) : bool :=
  match e with
  | ValueError | UnicodeEncodeError => true
  | _ => false
  end.

(** A call either returns a value or raises. *)
Inductive result (A : Type) : Type :=
| Return (a : A)
| Raise (e : exn).
Arguments Return {A} a.
Arguments Raise {A} e.

Definition bind {A B : Type} (m : result A) (k : A -> result B) : result B :=
  match m with
  | Return a => k a
  | Raise e => Raise e
  end.

Declare Scope py_scope.
Delimit Scope py_scope with py.
Notation "x <- m ;; k" := (bind m (fun x => k))
  (at level 61, m at next level, right associativity) : py_scope.
Notation "' pat <- m ;; k" := (bind m (fun x => match x with pat => k end))
  (at level 61, pat pattern, m at next level, right associativity) : py_scope.
Local Open Scope py_scope.

(** [bytes] objects, [str] objects (code points) and the two kinds of value
    that callers hand to [DataEntry]. *)
Definition pybytes : Type := list byte.
Definition pystr : Type := list N.

Inductive pyval : Type :=
| PInt (n : Z)
| PStr (s : pystr).

Definition byte_of_Z (z : Z) : byte :=
  match Byte.of_N (Z.to_N z) with
  | Some b => b
  | None => x00
  end.

Definition Z_of_byte (b : byte) : Z := Z.of_N (Byte.to_N b).

(** [b[i:j]] for non-negative [i], [j]: out-of-range bounds are clamped. *)
Definition slice {A : Type} (b : list A) (i j : nat) : list A :=
  firstn (j - i) (skipn i b).

(** Big-endian digits, most significant first. *)
Fixpoint be_bytes (w : nat) (n : Z) : pybytes :=
  match w with
  | O => []
  | S w' => byte_of_Z ((n / 256 ^ Z.of_nat w') mod 256) :: be_bytes w' n
  end.

Definition be_int (b : pybytes) : Z :=
  fold_left (fun acc x => acc * 256 + Z_of_byte x) b 0.

(** [struct.pack(">H" | ">I" | ">Q", n)] for widths 2, 4, 8: an integer out
    of the unsigned range raises [struct.error]. *)
Definition pack (w : nat) (n : Z) : result pybytes :=
  if (0 <=? n) && (n <? 256 ^ Z.of_nat w)
  then Return (be_bytes w n)
  else Raise StructError.

(** The same on a Python value: a [str] argument raises [struct.error]. *)
Definition pack_val (w : nat) (v : pyval) : result pybytes :=
  match v with
  | PInt n => pack w n
  | PStr _ => Raise StructError
  end.

(** [struct.unpack(fmt, b)[0]]: the buffer must have exactly the width. *)
Definition unpack (w : nat) (b : pybytes) : result Z :=
  if Nat.eqb (length b) w then Return (be_int b) else Raise StructError.

Definition len {A : Type} (l : list A) : Z := Z.of_nat (length l).

(** [bytes2str = lambda b: ''.join(map(chr, b))] *)
Definition bytes2str (b : pybytes) : pystr := map Byte.to_N b.

(** [list2bytes = lambda s: b''.join(s)] *)
Definition list2bytes (s : list pybytes) : pybytes := concat s.

Fixpoint encode_latin1 (s : pystr) : result pybytes :=
  match s with
  | [] => Return []
  | c :: s' =>
      match Byte.of_N c with
      | Some b => r <- encode_latin1 s' ;; Return (b :: r)
      | None => Raise UnicodeEncodeError
      end
  end.

(** [str2bytes = lambda s: s.encode('latin-1')]; an [int] has no [encode]. *)
Definition str2bytes (s : pyval) : result pybytes :=
  match s with
  | PStr s => encode_latin1 s
  | PInt _ => Raise AttributeError
  end.

(** The argument of [serialize_array]: a [bytes] object or a [list] of them. *)
Inductive array_arg : Type :=
| ABytes (b : pybytes)
| AList (l : list pybytes).

Module Deser.

(** [serialize_array] of [src/contract.py]; [Deser.serialize_array] of
    [src/vsyspy/contract.py] is called on the same two kinds of argument. *)
Definition serialize_array (b : array_arg) : result pybytes :=
  match b with
  | AList l =>
      let b_bytes := list2bytes l in
      h <- pack 2 (len l) ;; Return (h ++ b_bytes)
  | ABytes b =>
      h <- pack 2 (len b) ;; Return (h ++ b)
  end.

(** Modelled from the spec: the element loop of [Deser.serialize_arrays],
    whose module [vsyspy/deser.py] is not among the sources.  Each blob is
    "independently framed", that is, passed through [serialize_array]. *)
Fixpoint serialize_each (bs : list pybytes) : result pybytes :=
  match bs with
  | [] => Return []
  | b :: bs' =>
      x <- serialize_array (ABytes b) ;;
      r <- serialize_each bs' ;;
      Return (x ++ r)
  end.

(** Modelled from the spec: [Deser.serialize_arrays], absent as above.  The
    data model has a framed list as "a list of blobs each independently
    framed and concatenated (u16 count ++ concatenated framed elements)",
    and the callers in [contract.py] hand it unframed elements (function
    bodies, names, two-byte state variables) that [parse_arrays] is to give
    back.  Joining the elements as they are, as the component description
    has it, is what [serialize_array] does on a list. *)
Definition serialize_arrays (bs : list pybytes) : result pybytes :=
  h <- pack 2 (len bs) ;;
  body <- serialize_each bs ;;
  Return (h ++ body).

(** Modelled from the spec: the failure of the readers of [vsyspy/deser.py],
    absent as above: "TruncatedInput if the declared length/count would read
    past the end of the buffer".  The envelope reports "any parse failure" as
    InvalidContract, and the handler of [Contract.from_bytes] replaces the
    instances of [ValueError] only, so the failure is an instance of
    [ValueError]. *)
Definition TruncatedInput : exn := ValueError.

(** Modelled from the spec: the read of the two-byte length or count at an
    offset, absent as above.  Fewer than two bytes there is a read past the
    end of the buffer. *)
Definition read_size (bytes_object : pybytes) (position : nat) : result Z :=
  match unpack 2 (slice bytes_object position (position + 2)) with
  | Return n => Return n
  | Raise _ => Raise TruncatedInput
  end.

(** Modelled from the spec: [Deser.parse_array_size], absent as above.
    "Reads the 2-byte length, returns the following slice and the offset
    just past it"; fails with [TruncatedInput] "if the declared length/count
    would read past the end of the buffer". *)
Definition parse_array_size (bytes_object : pybytes) (start_position : nat)
  : result (pybytes * nat) :=
  length_ <- read_size bytes_object start_position ;;
  let stop := (start_position + 2 + Z.to_nat length_)%nat in
  if (stop <=? length bytes_object)%nat
  then Return (slice bytes_object (start_position + 2) stop, stop)
  else Raise TruncatedInput.

(** Modelled from the spec: the loop of [Deser.parse_arrays], absent as
    above: it "repeatedly advances by consuming each element as itself a
    framed blob whose own length prefix determines how far to advance". *)
Fixpoint parse_arrays_loop (n : nat) (bytes_object : pybytes) (pos_drift : nat)
  : result (list pybytes) :=
  match n with
  | O => Return []
  | S n' =>
      ' (array_info, pos_drift') <- parse_array_size bytes_object pos_drift ;;
      rest <- parse_arrays_loop n' bytes_object pos_drift' ;;
      Return (array_info :: rest)
  end.

(** Modelled from the spec: [Deser.parse_arrays], absent as above: it
    "reads the 2-byte count", then runs the loop from offset 2, as
    [data_entries_from_bytes] does for entries. *)
Definition parse_arrays (bytes_object : pybytes) : result (list pybytes) :=
  length_ <- read_size bytes_object 0 ;;
  parse_arrays_loop (Z.to_nat length_) bytes_object 2.

End Deser.

(** ** The type registry: [class Type] *)
Module Type_.
Definition public_key : pybytes := be_bytes 1 1.
Definition key_length : nat := 32.
Definition address : pybytes := be_bytes 1 2.
Definition address_length : nat := 26.
Definition amount : pybytes := be_bytes 1 3.
Definition amount_length : nat := 8.
Definition int32 : pybytes := be_bytes 1 4.
Definition int32_length : nat := 4.
Definition short_text : pybytes := be_bytes 1 5.
Definition max_short_text_size : nat := 140.
Definition contract_account : pybytes := be_bytes 1 6.
Definition contract_account_length : nat := 26.
Definition account : pybytes := be_bytes 1 7.
Definition token_id : pybytes := be_bytes 1 8.
Definition token_address_length : nat := 30.
Definition timestamp : pybytes := be_bytes 1 9.
Definition boolean : pybytes := be_bytes 1 10.
Definition balance : pybytes := be_bytes 1 11.
End Type_.

(** [==] on [bytes] objects. *)
Definition bytes_eqb (a b : pybytes) : bool :=
  if list_eq_dec Byte.byte_eq_dec a b then true else false.
Infix "==" := bytes_eqb (at level 70, no associativity) : py_scope.

(** The [base58] package is outside the repository: the codec is taken
    through its two entry points.  [b58decode] is applied to whatever the
    caller passed as data and may raise. *)
Class Base58 : Type := {
  b58encode : pybytes -> pybytes;
  b58decode : pyval -> result pybytes
}.

(** ** [class DataEntry] *)
Record DataEntry : Type := {
  data : pyval;
  data_type : string;
  data_bytes : pybytes;
  bytes : pybytes
}.

Section DataEntryCodec.

Context {base58 : Base58}.

Definition check_data_type (data : pyval) (data_type : pybytes) : result bool :=
  if data_type == Type_.public_key then
    data_bytes <- b58decode data ;;
    Return (length data_bytes =? Type_.key_length)%nat
  else if data_type == Type_.address then
    data_bytes <- b58decode data ;;
    Return (length data_bytes =? Type_.address_length)%nat
  else if data_type == Type_.amount then
    data_bytes <- pack_val 8 data ;;
    if (length data_bytes =? Type_.amount_length)%nat
    then v <- unpack 8 data_bytes ;; Return (0 <? v)
    else Return false
  else if data_type == Type_.int32 then
    data_bytes <- pack_val 4 data ;;
    if (length data_bytes =? Type_.int32_length)%nat
    then v <- unpack 4 data_bytes ;; Return (0 <? v)
    else Return false
  else if data_type == Type_.short_text then
    s <- str2bytes data ;;
    data_bytes <- Deser.serialize_array (ABytes s) ;;
    h <- unpack 2 (slice data_bytes 0 2) ;;
    Return ((h + 2 =? len data_bytes)
            && (length data_bytes <=? Type_.max_short_text_size + 2)%nat)
  else
    Return true.

(** [DataEntry.__init__]: the branches set [data_bytes] and the name; when
    none applies the last line reads an attribute that was never set. *)
Definition DataEntry_init (data : pyval) (data_type : pybytes) : result DataEntry :=
  ok <- check_data_type data data_type ;;
  if negb ok then Raise ValueError else
  attrs <-
    (if data_type == Type_.public_key then
       b <- b58decode data ;; Return (Some (b, "public_key"%string))
     else if data_type == Type_.address then
       b <- b58decode data ;; Return (Some (b, "address"%string))
     else if data_type == Type_.amount then
       b <- pack_val 8 data ;; Return (Some (b, "amount"%string))
     else if data_type == Type_.int32 then
       b <- pack_val 4 data ;; Return (Some (b, "int32"%string))
     else if data_type == Type_.short_text then
       s <- str2bytes data ;;
       b <- Deser.serialize_array (ABytes s) ;;
       Return (Some (b, "short_text"%string))
     else if data_type == Type_.contract_account then
       b <- b58decode data ;; Return (Some (b, "contract_account"%string))
     else if data_type == Type_.token_id then
       b <- b58decode data ;; Return (Some (b, "token_id"%string))
     else if data_type == Type_.timestamp then
       b <- pack_val 8 data ;; Return (Some (b, "timestamp"%string))
     else Return None) ;;
  match attrs with
  | Some (b, name) =>
      Return {| data := data; data_type := name; data_bytes := b;
                bytes := data_type ++ b |}
  | None => Raise AttributeError
  end.

(** [data_entry_from_bytes]: falls off the end ([None]) on any other tag. *)
Definition data_entry_from_bytes (bytes_object : pybytes) : result (option DataEntry) :=
  let tag := slice bytes_object 0 1 in
  if (length bytes_object =? 0)%nat then Raise ValueError
  else if tag == Type_.public_key then
    e <- DataEntry_init (PStr (bytes2str (b58encode (skipn 1 bytes_object)))) tag ;;
    Return (Some e)
  else if tag == Type_.address then
    e <- DataEntry_init (PStr (bytes2str (b58encode (skipn 1 bytes_object)))) tag ;;
    Return (Some e)
  else if tag == Type_.amount then
    v <- unpack 8 (skipn 1 bytes_object) ;;
    e <- DataEntry_init (PInt v) tag ;; Return (Some e)
  else if tag == Type_.int32 then
    v <- unpack 4 (skipn 1 bytes_object) ;;
    e <- DataEntry_init (PInt v) tag ;; Return (Some e)
  else if tag == Type_.short_text then
    e <- DataEntry_init (PStr (bytes2str (skipn 3 bytes_object))) tag ;;
    Return (Some e)
  else if tag == Type_.contract_account then
    e <- DataEntry_init (PStr (bytes2str (b58encode (skipn 1 bytes_object)))) tag ;;
    Return (Some e)
  else if tag == Type_.token_id then
    e <- DataEntry_init (PStr (bytes2str (b58encode (skipn 1 bytes_object)))) tag ;;
    Return (Some e)
  else if tag == Type_.timestamp then
    v <- unpack 8 (skipn 1 bytes_object) ;;
    e <- DataEntry_init (PInt v) tag ;; Return (Some e)
  else Return None.

(** One fixed-width branch of [parse_data_entry_array_size]. *)
Definition fixed_branch (bytes_object : pybytes) (start_position n : nat)
  : result (option (option DataEntry * nat)) :=
  e <- data_entry_from_bytes (slice bytes_object start_position (start_position + n + 1)) ;;
  Return (Some (e, (start_position + n + 1)%nat)).

(** [parse_data_entry_array_size]: no [else] branch, so an unhandled tag
    makes the function return [None]. *)
Definition parse_data_entry_array_size (bytes_object : pybytes) (start_position : nat)
  : result (option (option DataEntry * nat)) :=
  let tag := slice bytes_object start_position (start_position + 1) in
  if tag == Type_.public_key then
    fixed_branch bytes_object start_position Type_.key_length
  else if tag == Type_.address then
    fixed_branch bytes_object start_position Type_.address_length
  else if tag == Type_.amount then
    fixed_branch bytes_object start_position Type_.amount_length
  else if tag == Type_.int32 then
    fixed_branch bytes_object start_position Type_.int32_length
  else if tag == Type_.short_text then
    n <- unpack 2 (slice bytes_object (start_position + 1) (start_position + 3)) ;;
    e <- data_entry_from_bytes
           (slice bytes_object start_position (start_position + Z.to_nat n + 3)) ;;
    n' <- unpack 2 (slice bytes_object (start_position + 1) (start_position + 3)) ;;
    Return (Some (e, (start_position + Z.to_nat n' + 3)%nat))
  else if tag == Type_.contract_account then
    fixed_branch bytes_object start_position Type_.address_length
  else if tag == Type_.token_id then
    fixed_branch bytes_object start_position Type_.token_address_length
  else if tag == Type_.timestamp then
    fixed_branch bytes_object start_position Type_.amount_length
  else Return None.

(** The loop of [data_entries_from_bytes]: unpacking the pair raises
    [TypeError] when the dispatcher returned [None]. *)
Fixpoint data_entries_loop (n : nat) (bytes_object : pybytes) (pos_drift : nat)
  : result (list (option DataEntry)) :=
  match n with
  | O => Return []
  | S n' =>
      r <- parse_data_entry_array_size bytes_object pos_drift ;;
      match r with
      | None => Raise TypeError
      | Some (array_info, pos_drift') =>
          rest <- data_entries_loop n' bytes_object pos_drift' ;;
          Return (array_info :: rest)
      end
  end.

Definition data_entries_from_bytes (bytes_object : pybytes)
  : result (list (option DataEntry)) :=
  length_ <- unpack 2 (slice bytes_object 0 2) ;;
  data_entries_loop (Z.to_nat length_) bytes_object 2.

End DataEntryCodec.

(** [serialize_data]: a single entry is first wrapped in a list. *)
Inductive data_arg : Type :=
| OneEntry (e : DataEntry)
| EntryList (l : list DataEntry).

Definition serialize_data (data_entry_list : data_arg) : result pybytes :=
  let data_entry_list :=
    match data_entry_list with
    | EntryList l => l
    | OneEntry e => [e]
    end in
  let custom_data_stack := map bytes data_entry_list in
  Deser.serialize_array (AList custom_data_stack).

(** ** An executable [Base58] instance

    The Bitcoin-alphabet codec, used to evaluate the codec on concrete
    entries. *)
Module Base58Bitcoin.

Definition alphabet : pybytes :=
  list_byte_of_string "123456789ABCDEFGHJKLMNPQRSTUVWXYZabcdefghijkmnopqrstuvwxyz".

(** Digits of [n] in [base], least significant first. *)
Fixpoint digits_rev (fuel : nat) (base n : Z) : list Z :=
  match fuel with
  | O => []
  | S fuel' =>
      if n =? 0 then [] else n mod base :: digits_rev fuel' base (n / base)
  end.

Definition digits (base n : Z) : list Z :=
  rev (digits_rev (S (Z.to_nat (Z.log2 n))) base n).

Fixpoint count_leading {A : Type} (p : A -> bool) (l : list A) : nat :=
  match l with
  | x :: l' => if p x then S (count_leading p l') else O
  | [] => O
  end.

Definition encode (v : pybytes) : pybytes :=
  let nPad := count_leading (Byte.eqb x00) v in
  let acc := be_int (skipn nPad v) in
  repeat (nth 0 alphabet x00) nPad
    ++ map (fun d => nth (Z.to_nat d) alphabet x00) (digits 58 acc).

Fixpoint index (c : byte) (l : pybytes) : option Z :=
  match l with
  | [] => None
  | x :: l' => if Byte.eqb c x then Some 0 else option_map Z.succ (index c l')
  end.

Fixpoint decode_int (v : pybytes) (decimal : Z) : result Z :=
  match v with
  | [] => Return decimal
  | c :: v' =>
      match index c alphabet with
      | Some i => decode_int v' (decimal * 58 + i)
      | None => Raise ValueError
      end
  end.

Fixpoint scrub (s : pystr) : result pybytes :=
  match s with
  | [] => Return []
  | c :: s' =>
      if (c <? 128)%N
      then r <- scrub s' ;; Return (byte_of_Z (Z.of_N c) :: r)
      else Raise UnicodeEncodeError
  end.

Definition decode (v : pyval) : result pybytes :=
  match v with
  | PInt _ => Raise TypeError
  | PStr s =>
      v <- scrub s ;;
      let nPad := count_leading (Byte.eqb (nth 0 alphabet x00)) v in
      acc <- decode_int (skipn nPad v) 0 ;;
      Return (repeat x00 nPad ++ map byte_of_Z (digits 256 acc))
  end.

Definition codec : Base58 := {| b58encode := encode; b58decode := decode |}.

End Base58Bitcoin.

(** ** Validity of entries and lists *)
Section Validity.

Context {base58 : Base58}.

(** An entry that some call of the constructor returned. *)
Definition constructed (e : DataEntry) : Prop :=
  exists d t, DataEntry_init d t = Return e.

(** The payload widths by which [parse_data_entry_array_size] advances. *)
Definition fixed_length (tag : pybytes) : option nat :=
  if tag == Type_.public_key then Some Type_.key_length
  else if tag == Type_.address then Some Type_.address_length
  else if tag == Type_.amount then Some Type_.amount_length
  else if tag == Type_.int32 then Some Type_.int32_length
  else if tag == Type_.contract_account then Some Type_.address_length
  else if tag == Type_.token_id then Some Type_.token_address_length
  else if tag == Type_.timestamp then Some Type_.amount_length
  else None.

Definition is_base58_tag (tag : pybytes) : bool :=
  (tag == Type_.public_key) || (tag == Type_.address)
  || (tag == Type_.contract_account) || (tag == Type_.token_id).

Definition pyval_eqb (a b : pyval) : bool :=
  match a, b with
  | PInt x, PInt y => x =? y
  | PStr s, PStr s' => if list_eq_dec N.eq_dec s s' then true else false
  | _, _ => false
  end.

(** The invariant of a data entry: the payload has the width fixed for its
    tag, and the text of a key, address or token id is the one the codec
    prints for the payload. *)
Definition wire_invariant (e : DataEntry) : bool :=
  let tag := slice (bytes e) 0 1 in
  match fixed_length tag with
  | Some n => (length (data_bytes e) =? n)%nat
  | None => true
  end
  && (if is_base58_tag tag
      then pyval_eqb (data e) (PStr (bytes2str (b58encode (data_bytes e))))
      else true).

Definition valid_entry (e : DataEntry) : Prop :=
  constructed e /\ wire_invariant e = true.



End Validity.

(** The entry that [DataEntry.__init__] assembles from the data, the tag,
    the name and the payload. *)
Definition entry (d : pyval) (t : pybytes) (name : string) (b : pybytes) : DataEntry :=
  {| data := d; data_type := name; data_bytes := b; bytes := t ++ b |}.

Section Shapes.

Context {base58 : Base58}.

(** The successful runs of the constructor, one per branch that sets
    [data_bytes]: data [d], tag, name and payload. *)
Inductive shape (d : pyval) : pybytes -> string -> pybytes -> Prop :=
| shape_public_key b :
    b58decode d = Return b -> length b = Type_.key_length ->
    shape d Type_.public_key "public_key" b
| shape_address b :
    b58decode d = Return b -> length b = Type_.address_length ->
    shape d Type_.address "address" b
| shape_amount n :
    d = PInt n -> 0 < n < 2 ^ 64 ->
    shape d Type_.amount "amount" (be_bytes 8 n)
| shape_int32 n :
    d = PInt n -> 0 < n < 2 ^ 32 ->
    shape d Type_.int32 "int32" (be_bytes 4 n)
| shape_short_text s body :
    d = PStr s -> encode_latin1 s = Return body ->
    (length body <= Type_.max_short_text_size)%nat ->
    shape d Type_.short_text "short_text" (be_bytes 2 (len body) ++ body)
| shape_contract_account b :
    b58decode d = Return b ->
    shape d Type_.contract_account "contract_account" b
| shape_token_id b :
    b58decode d = Return b ->
    shape d Type_.token_id "token_id" b
| shape_timestamp n :
    d = PInt n -> 0 <= n < 2 ^ 64 ->
    shape d Type_.timestamp "timestamp" (be_bytes 8 n).

End Shapes.

(** ** [class Contract] *)

(** [bytes([a, b, ...])] for small constants. *)
Definition bytes_of (l : list Z) : pybytes := map byte_of_Z l.

(** A prototype argument of [proto_type_gen]: a [bytes] object, or a list
    whose elements come from [dict.get] and may be [None]. *)
Inductive proto_arg : Type :=
| PBytes (b : pybytes)
| PList (l : list (option pybytes)).

(** [ContractMeta] lives in [vsyspy/setting.py], which is not among the
    sources.  Its constants are the fields of [ContractMeta.t]; with them go
    [no_return_bytes], which reaches [contract.py] through a star import, and
    the two module-level dictionaries [data_type_list] and
    [function_type_map] built from its tables, seen through their [get]. *)
Module ContractMeta.

(** Modelled from the spec: the width of the language code, "langCode:4". *)
Definition language_code_byte_length : nat := 4.

(** Modelled from the spec: the width of the language version,
    "langVersion:4". *)
Definition language_version_byte_length : nat := 4.

Record t : Type := {
  assert_opc : pybytes;
  balance_of_input_account_index : pybytes;
  balance_tdbar : pybytes;
  caller_load : pybytes;
  cdbv_opc : pybytes;
  cdbvr_opc : pybytes;
  deposit_input_amount_index : pybytes;
  deposit_input_sender_index : pybytes;
  deposit_input_smart_contract_index : pybytes;
  deposit_tdba : pybytes;
  destroy_input_destroy_amount_index : pybytes;
  destroy_input_issuer_get_index : pybytes;
  get_cdbvr : pybytes;
  get_tdbr : pybytes;
  init_input_issuer_load_index : pybytes;
  init_input_max_index : pybytes;
  init_input_short_text_index : pybytes;
  init_input_unity_index : pybytes;
  is_caller_origin_assert : pybytes;
  is_signer_origin_assert : pybytes;
  issue_input_amount_index : pybytes;
  issue_input_issuer_get_index : pybytes;
  load_opc : pybytes;
  new_token_tdb : pybytes;
  return_opc : pybytes;
  send_input_amount_index : pybytes;
  send_input_recipient_index : pybytes;
  send_input_sender_index : pybytes;
  set_cdbv : pybytes;
  signer_load : pybytes;
  split_input_issuer_get_index : pybytes;
  split_input_new_unity_index : pybytes;
  split_tdb : pybytes;
  state_var_issuer : pybytes;
  state_var_maker : pybytes;
  supersede_input_maker : pybytes;
  supersede_input_new_issuer_index : pybytes;
  tdb_opc : pybytes;
  tdba_opc : pybytes;
  tdbar_opc : pybytes;
  tdbr_opc : pybytes;
  total_tdbr : pybytes;
  transfer_input_amount_index : pybytes;
  transfer_input_recipient_index : pybytes;
  transfer_input_sender_index : pybytes;
  transfer_tdba : pybytes;
  withdraw_input_amount_index : pybytes;
  withdraw_input_recipient_index : pybytes;
  withdraw_input_smart_contract_index : pybytes;
  withdraw_tdba : pybytes;
  balance_of : Z;
  balance_of_without_split : Z;
  deposit : Z;
  deposit_without_split : Z;
  destroy : Z;
  destroy_without_split : Z;
  get_issuer : Z;
  get_issuer_without_split : Z;
  init : Z;
  issue : Z;
  issue_without_split : Z;
  max_supply : Z;
  max_supply_without_split : Z;
  send : Z;
  send_without_split : Z;
  split : Z;
  supersede : Z;
  supersede_without_split : Z;
  total_supply : Z;
  total_supply_without_split : Z;
  transfer : Z;
  transfer_without_split : Z;
  withdraw : Z;
  withdraw_without_split : Z;
  non_return_type : proto_arg;
  no_return_bytes : proto_arg;
  data_type_list : string -> option pybytes;
  function_type_map : string -> option pybytes
}.

End ContractMeta.

(** A contract object whose attributes have all been set. *)
Record Contract : Type := {
  language_code : pybytes;
  language_version : pybytes;
  trigger : list pybytes;
  descriptor : list pybytes;
  state_variable : list pybytes;
  state_map : list pybytes;
  textual : list pybytes
}.

(** [bytes_builder_from_list]'s body, as it is spelled out at each use in
    [Contract.bytes]: [Deser.serialize_array(Deser.serialize_arrays(l))]. *)
Definition section_frame (l : list pybytes) : result pybytes :=
  x <- Deser.serialize_arrays l ;;
  Deser.serialize_array (ABytes x).

(** The property [Contract.bytes]. *)
Definition Contract_bytes (self : Contract) : result pybytes :=
  v1 <- pack 4 1 ;;
  if language_version self == v1 then
    t <- section_frame (trigger self) ;;
    d <- section_frame (descriptor self) ;;
    sv <- section_frame (state_variable self) ;;
    tx <- Deser.serialize_arrays (textual self) ;;
    Return (language_code self ++ language_version self ++ t ++ d ++ sv ++ tx)
  else
    t <- section_frame (trigger self) ;;
    d <- section_frame (descriptor self) ;;
    sv <- section_frame (state_variable self) ;;
    sm <- section_frame (state_map self) ;;
    tx <- Deser.serialize_arrays (textual self) ;;
    Return (language_code self ++ language_version self ++ t ++ d ++ sv ++ sm ++ tx).

(** [try: body except cls: raise exc]: an exception that is an instance of
    the class named in the clause is replaced, any other one propagates. *)
Definition try_except {A : Type} (body : result A) (catches : exn -> bool) (exc : exn)
  : result A :=
  match body with
  | Return a => Return a
  | Raise e => if catches e then Raise exc else Raise e
  end.

(** The clause is [except ValueError or TypeError]: the operand of [except]
    is the value of [ValueError or TypeError], which is [ValueError]. *)
Definition from_bytes_catches : exn -> bool := is_ValueError.

(** [Contract.from_bytes]: the attributes the method leaves on the object
    when it returns. *)
Definition from_bytes (contract_bytes : pybytes) : result Contract :=
  let code_len := ContractMeta.language_code_byte_length in
  let version_len := ContractMeta.language_version_byte_length in
  try_except
    (let language_code := slice contract_bytes 0 code_len in
     let language_version := slice contract_bytes code_len (code_len + version_len) in
     ' (trigger_bytes, trigger_end) <-
         Deser.parse_array_size contract_bytes (code_len + version_len) ;;
     trigger <- Deser.parse_arrays trigger_bytes ;;
     ' (descriptor_bytes, descriptor_end) <-
         Deser.parse_array_size contract_bytes trigger_end ;;
     descriptor <- Deser.parse_arrays descriptor_bytes ;;
     ' (state_variable_bytes, state_variable_end) <-
         Deser.parse_array_size contract_bytes descriptor_end ;;
     state_variable <- Deser.parse_arrays state_variable_bytes ;;
     v1 <- pack 4 1 ;;
     ' (state_map_bytes, state_map_end) <-
         (if language_version == v1
          then Return (state_variable_bytes, state_variable_end)
          else Deser.parse_array_size contract_bytes state_variable_end) ;;
     v1' <- pack 4 1 ;;
     state_map <-
         (if language_version == v1'
          then z <- pack 2 0 ;; Deser.parse_arrays z
          else Deser.parse_arrays state_map_bytes) ;;
     textual <-
         Deser.parse_arrays (slice contract_bytes state_map_end (length contract_bytes)) ;;
     Return {| language_code := language_code;
               language_version := language_version;
               trigger := trigger;
               descriptor := descriptor;
               state_variable := state_variable;
               state_map := state_map;
               textual := textual |})
    from_bytes_catches InvalidContractException.

(** What the wire form can carry: a count and element lengths that fit the
    two-byte prefixes. *)
Definition framable (l : list pybytes) : Prop :=
  len l < 65536 /\ Forall (fun e => len e < 65536) l.

(** The framed list: count, then each element behind its length. *)
Definition framed_size (l : list pybytes) : Z :=
  2 + fold_right (fun e acc => 2 + len e + acc) 0 l.

(** A section that is wrapped once more must itself fit a two-byte length. *)
Definition section_ok (l : list pybytes) : Prop :=
  framable l /\ framed_size l < 65536.

(** A valid contract: four-byte code, four-byte version, sections that the
    prefixes can describe, and no state map under version 1. *)
Definition valid_contract (c : Contract) : Prop :=
  length (language_code c) = ContractMeta.language_code_byte_length
  /\ (exists v, pack 4 v = Return (language_version c))
  /\ section_ok (trigger c)
  /\ section_ok (descriptor c)
  /\ section_ok (state_variable c)
  /\ section_ok (state_map c)
  /\ framable (textual c)
  /\ (language_version c = be_bytes 4 1 -> state_map c = []).

(** ** The function and opcode builder *)

Fixpoint all_bytes (l : list (option pybytes)) : result (list pybytes) :=
  match l with
  | [] => Return []
  | Some b :: l' => r <- all_bytes l' ;; Return (b :: r)
  | None :: _ => Raise TypeError
  end.

(** Joining a list that holds [None] raises [TypeError]. *)
Definition to_array_arg (a : proto_arg) : result array_arg :=
  match a with
  | PBytes b => Return (ABytes b)
  | PList l => l' <- all_bytes l ;; Return (AList l')
  end.

Definition proto_type_gen (return_type list_para_types : proto_arg) : result pybytes :=
  r <- (a <- to_array_arg return_type ;; Deser.serialize_array a) ;;
  p <- (a <- to_array_arg list_para_types ;; Deser.serialize_array a) ;;
  Return (r ++ p).

(** [sum(map(lambda x: len(x[0] + x[1]) + 2, zip(ids, index_input)))] *)
Definition opc_sum (ids index_input : list pybytes) : Z :=
  fold_right Z.add 0
    (map (fun x => len (fst x ++ snd x) + 2) (combine ids index_input)).

Fixpoint sequence {A : Type} (l : list (result A)) : result (list A) :=
  match l with
  | [] => Return []
  | m :: l' => a <- m ;; r <- sequence l' ;; Return (a :: r)
  end.

Definition list_opc_gen (ids index_input : list pybytes) : result pybytes :=
  length_ <- pack 2 (opc_sum ids index_input + 2) ;;
  num_opc <- pack 2 (len ids) ;;
  list_opc <-
    sequence (map (fun x => h <- pack 2 (len (fst x ++ snd x)) ;;
                            Return (h ++ fst x ++ snd x))
                  (combine ids index_input)) ;;
  let len_list_opc := length_ ++ num_opc ++ concat list_opc in
  Return len_list_opc.

(** [fun_idx + fun_type + proto_type + list_opc], where [fun_type] is the
    result of a [get]. *)
Definition func_gen (fun_idx : pybytes) (fun_type : option pybytes)
    (proto_type list_opc : pybytes) : result pybytes :=
  match fun_type with
  | Some fun_type => Return (fun_idx ++ fun_type ++ proto_type ++ list_opc)
  | None => Raise TypeError
  end.

Section Builder.

Variable M : ContractMeta.t.

Definition opc_assert_is_caller_origin : pybytes :=
  ContractMeta.assert_opc M ++ ContractMeta.is_caller_origin_assert M.

Definition opc_assert_is_signer_origin : pybytes :=
  ContractMeta.assert_opc M ++ ContractMeta.is_signer_origin_assert M.

Definition opc_load_signer : pybytes :=
  ContractMeta.load_opc M ++ ContractMeta.signer_load M.

Definition opc_load_caller : pybytes :=
  ContractMeta.load_opc M ++ ContractMeta.caller_load M.

Definition opc_cdbv_set : pybytes :=
  ContractMeta.cdbv_opc M ++ ContractMeta.set_cdbv M.

Definition opc_cdbvr_get : pybytes :=
  ContractMeta.cdbvr_opc M ++ ContractMeta.get_cdbvr M.

Definition opc_tdb_new_token : pybytes :=
  ContractMeta.tdb_opc M ++ ContractMeta.new_token_tdb M.

Definition opc_tdb_split : pybytes :=
  ContractMeta.tdb_opc M ++ ContractMeta.split_tdb M.

Definition opc_tdbr_opc_max : pybytes :=
  ContractMeta.tdbr_opc M ++ ContractMeta.get_tdbr M.

Definition opc_tdbr_opc_total : pybytes :=
  ContractMeta.tdbr_opc M ++ ContractMeta.total_tdbr M.

Definition opc_tdba_deposit : pybytes :=
  ContractMeta.tdba_opc M ++ ContractMeta.deposit_tdba M.

Definition opc_tdba_withdraw : pybytes :=
  ContractMeta.tdba_opc M ++ ContractMeta.withdraw_tdba M.

Definition opc_tdba_transfer : pybytes :=
  ContractMeta.tdba_opc M ++ ContractMeta.transfer_tdba M.

Definition opc_tdbar_balance : pybytes :=
  ContractMeta.tdbar_opc M ++ ContractMeta.balance_tdbar M.

Definition opc_return_value : pybytes :=
  ContractMeta.return_opc M ++ bytes_of [1].

Definition init_fun_id_gen : result pybytes :=
  pack 2 (ContractMeta.init M).

Definition supersede_fun_id_gen : result pybytes :=
  pack 2 (ContractMeta.supersede M).

Definition supersede_fun_id_without_split_gen : result pybytes :=
  pack 2 (ContractMeta.supersede_without_split M).

Definition issue_fun_id_gen : result pybytes :=
  pack 2 (ContractMeta.issue M).

Definition issue_fun_id_without_split_gen : result pybytes :=
  pack 2 (ContractMeta.issue_without_split M).

Definition destroy_fun_id_gen : result pybytes :=
  pack 2 (ContractMeta.destroy M).

Definition destroy_fun_id_without_split_gen : result pybytes :=
  pack 2 (ContractMeta.destroy_without_split M).

Definition split_fun_id_gen : result pybytes :=
  pack 2 (ContractMeta.split M).

Definition send_fun_id_gen : result pybytes :=
  pack 2 (ContractMeta.send M).

Definition send_fun_id_without_split_gen : result pybytes :=
  pack 2 (ContractMeta.send_without_split M).

Definition transfer_fun_id_gen : result pybytes :=
  pack 2 (ContractMeta.transfer M).

Definition transfer_fun_id_without_split_gen : result pybytes :=
  pack 2 (ContractMeta.transfer_without_split M).

Definition deposit_fun_id_gen : result pybytes :=
  pack 2 (ContractMeta.deposit M).

Definition deposit_fun_id_without_split_gen : result pybytes :=
  pack 2 (ContractMeta.deposit_without_split M).

Definition withdraw_fun_id_gen : result pybytes :=
  pack 2 (ContractMeta.withdraw M).

Definition withdraw_fun_id_without_split_gen : result pybytes :=
  pack 2 (ContractMeta.withdraw_without_split M).

Definition total_supply_fun_id_gen : result pybytes :=
  pack 2 (ContractMeta.total_supply M).

Definition total_supply_fun_id_without_split_gen : result pybytes :=
  pack 2 (ContractMeta.total_supply_without_split M).

Definition max_supply_fun_id_gen : result pybytes :=
  pack 2 (ContractMeta.max_supply M).

Definition max_supply_fun_id_without_split_gen : result pybytes :=
  pack 2 (ContractMeta.max_supply_without_split M).

Definition balance_of_fun_id_gen : result pybytes :=
  pack 2 (ContractMeta.balance_of M).

Definition balance_of_fun_id_without_split_gen : result pybytes :=
  pack 2 (ContractMeta.balance_of_without_split M).

Definition get_issuer_fun_id_gen : result pybytes :=
  pack 2 (ContractMeta.get_issuer M).

Definition get_issuer_fun_id_without_split_gen : result pybytes :=
  pack 2 (ContractMeta.get_issuer_without_split M).

Definition init_para_type_wrong : proto_arg :=
  PList [ContractMeta.data_type_list M "Amount"; ContractMeta.data_type_list M "Amount"].

Definition init_para_type : proto_arg :=
  PList [ContractMeta.data_type_list M "Amount"; ContractMeta.data_type_list M "Amount"; ContractMeta.data_type_list M "ShortText"].

Definition supersede_para_type : proto_arg :=
  PList [ContractMeta.data_type_list M "Account"].

Definition issue_para_type : proto_arg :=
  PList [ContractMeta.data_type_list M "Amount"].

Definition destroy_para_type : proto_arg :=
  PList [ContractMeta.data_type_list M "Amount"].

Definition split_para_type : proto_arg :=
  PList [ContractMeta.data_type_list M "Amount"].

Definition send_para_type : proto_arg :=
  PList [ContractMeta.data_type_list M "Account"; ContractMeta.data_type_list M "Amount"].

Definition transfer_para_type : proto_arg :=
  PList [ContractMeta.data_type_list M "Account"; ContractMeta.data_type_list M "Account"; ContractMeta.data_type_list M "Amount"].

Definition deposit_para_type : proto_arg :=
  PList [ContractMeta.data_type_list M "Account"; ContractMeta.data_type_list M "ContractAccount"; ContractMeta.data_type_list M "Amount"].

Definition withdraw_para_type : proto_arg :=
  PList [ContractMeta.data_type_list M "ContractAccount"; ContractMeta.data_type_list M "Account"; ContractMeta.data_type_list M "Amount"].

Definition total_supply_para_type : proto_arg :=
  ContractMeta.no_return_bytes M.

Definition max_supply_para_type : proto_arg :=
  ContractMeta.no_return_bytes M.

Definition balance_of_para_type : proto_arg :=
  PList [ContractMeta.data_type_list M "Account"].

Definition get_issuer_para_type : proto_arg :=
  ContractMeta.no_return_bytes M.

Definition opc_load_signer_index : pybytes :=
  bytes_of [3].

Definition opc_load_caller_index : pybytes :=
  bytes_of [2].

Definition init_opc_cdbv_set_signer_index : pybytes :=
  ContractMeta.state_var_issuer M ++ ContractMeta.init_input_issuer_load_index M.

Definition init_opc_cdbv_set_maker_index : pybytes :=
  ContractMeta.state_var_maker M ++ ContractMeta.init_input_issuer_load_index M.

Definition init_opc_tdb_new_token_index : pybytes :=
  ContractMeta.init_input_max_index M ++ ContractMeta.init_input_unity_index M ++ ContractMeta.init_input_short_text_index M.

Definition init_wrong_tdb_opc : list pybytes :=
  [opc_load_signer; opc_cdbv_set; opc_cdbv_set; bytes_of [5]; bytes_of [3]].

Definition init_opc : list pybytes :=
  [opc_load_signer; opc_cdbv_set; opc_cdbv_set; opc_tdb_new_token].

Definition init_opc_index : list pybytes :=
  [opc_load_signer_index; init_opc_cdbv_set_signer_index; init_opc_cdbv_set_maker_index; init_opc_tdb_new_token_index].

Definition supersede_opc_cdbvr_get_index : pybytes :=
  ContractMeta.state_var_maker M ++ bytes_of [1].

Definition supersede_assert_is_signer_origin_index : pybytes :=
  ContractMeta.supersede_input_maker M.

Definition supersede_opc_cdbv_set_index : pybytes :=
  ContractMeta.state_var_issuer M ++ ContractMeta.supersede_input_new_issuer_index M.

Definition supersede_opc : list pybytes :=
  [opc_cdbvr_get; opc_assert_is_signer_origin; opc_cdbv_set].

Definition supersede_opc_index : list pybytes :=
  [supersede_opc_cdbvr_get_index; supersede_assert_is_signer_origin_index; supersede_opc_cdbv_set_index].

Definition issue_opc_cdbvr_get_index : pybytes :=
  ContractMeta.state_var_issuer M ++ bytes_of [1].

Definition issue_opc_assert_is_caller_origin_index : pybytes :=
  ContractMeta.issue_input_issuer_get_index M.

Definition issue_opc_tdba_deposit_index : pybytes :=
  ContractMeta.issue_input_issuer_get_index M ++ ContractMeta.issue_input_amount_index M.

Definition issue_opc : list pybytes :=
  [opc_cdbvr_get; opc_assert_is_caller_origin; opc_tdba_deposit].

Definition issue_opc_index : list pybytes :=
  [issue_opc_cdbvr_get_index; issue_opc_assert_is_caller_origin_index; issue_opc_tdba_deposit_index].

Definition destroy_opc_cdbvr_get_index : pybytes :=
  ContractMeta.state_var_issuer M ++ bytes_of [1].

Definition destroy_opc_assert_is_caller_origin_index : pybytes :=
  ContractMeta.destroy_input_issuer_get_index M.

Definition destroy_opc_tdba_withdraw_index : pybytes :=
  ContractMeta.destroy_input_issuer_get_index M ++ ContractMeta.destroy_input_destroy_amount_index M.

Definition destroy_opc : list pybytes :=
  [opc_cdbvr_get; opc_assert_is_caller_origin; opc_tdba_withdraw].

Definition destroy_opc_index : list pybytes :=
  [destroy_opc_cdbvr_get_index; destroy_opc_assert_is_caller_origin_index; destroy_opc_tdba_withdraw_index].

Definition split_opc_cdbvr_get_index : pybytes :=
  ContractMeta.state_var_issuer M ++ bytes_of [1].

Definition split_opc_assert_is_caller_origin_index : pybytes :=
  ContractMeta.split_input_issuer_get_index M.

Definition split_opc_tdb_split_index : pybytes :=
  ContractMeta.split_input_new_unity_index M.

Definition split_opc : list pybytes :=
  [opc_cdbvr_get; opc_assert_is_caller_origin; opc_tdb_split].

Definition split_opc_index : list pybytes :=
  [split_opc_cdbvr_get_index; split_opc_assert_is_caller_origin_index; split_opc_tdb_split_index].

Definition send_opc_tdba_transfer_index : pybytes :=
  ContractMeta.send_input_sender_index M ++ ContractMeta.send_input_recipient_index M ++ ContractMeta.send_input_amount_index M.

Definition send_opc : list pybytes :=
  [opc_load_caller; opc_tdba_transfer].

Definition send_opc_index : list pybytes :=
  [opc_load_caller_index; send_opc_tdba_transfer_index].

Definition transfer_opc_assert_is_caller_origin_index : pybytes :=
  ContractMeta.transfer_input_sender_index M.

Definition transfer_opc_tdba_transfer_index : pybytes :=
  ContractMeta.transfer_input_sender_index M ++ ContractMeta.transfer_input_recipient_index M ++ ContractMeta.transfer_input_amount_index M.

Definition transfer_opc : list pybytes :=
  [opc_assert_is_caller_origin; opc_tdba_transfer].

Definition transfer_opc_index : list pybytes :=
  [transfer_opc_assert_is_caller_origin_index; transfer_opc_tdba_transfer_index].

Definition deposit_opc_assert_is_caller_origin_index : pybytes :=
  ContractMeta.deposit_input_sender_index M.

Definition deposit_opc_tdba_transfer_index : pybytes :=
  ContractMeta.deposit_input_sender_index M ++ ContractMeta.deposit_input_smart_contract_index M ++ ContractMeta.deposit_input_amount_index M.

Definition deposit_opc : list pybytes :=
  [opc_assert_is_caller_origin; opc_tdba_transfer].

Definition deposit_opc_index : list pybytes :=
  [deposit_opc_assert_is_caller_origin_index; deposit_opc_tdba_transfer_index].

Definition withdraw_opc_assert_is_caller_origin_index : pybytes :=
  ContractMeta.withdraw_input_recipient_index M.

Definition withdraw_opc_tdba_transfer_index : pybytes :=
  ContractMeta.withdraw_input_smart_contract_index M ++ ContractMeta.withdraw_input_recipient_index M ++ ContractMeta.withdraw_input_amount_index M.

Definition withdraw_opc : list pybytes :=
  [opc_assert_is_caller_origin; opc_tdba_transfer].

Definition withdraw_opc_index : list pybytes :=
  [withdraw_opc_assert_is_caller_origin_index; withdraw_opc_tdba_transfer_index].

Definition total_supply_opc_tdbr_total_index : pybytes :=
  bytes_of [0].

Definition total_supply_opc : list pybytes :=
  [opc_tdbr_opc_total; opc_return_value].

Definition total_supply_opc_index : list pybytes :=
  [total_supply_opc_tdbr_total_index; bytes_of [0]].

Definition max_supply_opc_tdbr_max_index : pybytes :=
  bytes_of [0].

Definition max_supply_opc : list pybytes :=
  [opc_tdbr_opc_max; opc_return_value].

Definition max_supply_opc_index : list pybytes :=
  [max_supply_opc_tdbr_max_index; bytes_of [0]].

Definition balance_of_opc_tdbar_balance_index : pybytes :=
  ContractMeta.balance_of_input_account_index M ++ bytes_of [1].

Definition balance_of_opc : list pybytes :=
  [opc_tdbar_balance; opc_return_value].

Definition balance_of_opc_index : list pybytes :=
  [balance_of_opc_tdbar_balance_index; bytes_of [1]].

Definition get_issuer_opc_cdbvr_get_index : pybytes :=
  ContractMeta.state_var_issuer M ++ bytes_of [0].

Definition get_issuer_opc : list pybytes :=
  [opc_cdbvr_get; opc_return_value].

Definition get_issuer_opc_index : list pybytes :=
  [get_issuer_opc_cdbvr_get_index; bytes_of [0]].

Definition init_fun_gen : result pybytes :=
  fun_idx <- pack 2 (ContractMeta.init M) ;;
  proto_type <- proto_type_gen (ContractMeta.non_return_type M) (PList [ContractMeta.data_type_list M "Amount"; ContractMeta.data_type_list M "Amount"; ContractMeta.data_type_list M "ShortText"]) ;;
  list_opc <- list_opc_gen ([opc_load_signer; opc_cdbv_set; opc_cdbv_set; opc_tdb_new_token]) ([opc_load_signer_index; init_opc_cdbv_set_signer_index; init_opc_cdbv_set_maker_index; init_opc_tdb_new_token_index]) ;;
  func_gen fun_idx (ContractMeta.function_type_map M "onInit") proto_type list_opc.

Definition supersede_fun_gen : result pybytes :=
  fun_idx <- pack 2 (ContractMeta.supersede M) ;;
  proto_type <- proto_type_gen (ContractMeta.non_return_type M) (supersede_para_type) ;;
  list_opc <- list_opc_gen (supersede_opc) (supersede_opc_index) ;;
  func_gen fun_idx (ContractMeta.function_type_map M "public") proto_type list_opc.

Definition supersede_fun_without_split_gen : result pybytes :=
  fun_idx <- supersede_fun_id_without_split_gen ;;
  proto_type <- proto_type_gen (ContractMeta.non_return_type M) (supersede_para_type) ;;
  list_opc <- list_opc_gen (supersede_opc) (supersede_opc_index) ;;
  func_gen fun_idx (ContractMeta.function_type_map M "public") proto_type list_opc.

Definition issue_fun_gen : result pybytes :=
  fun_idx <- issue_fun_id_gen ;;
  proto_type <- proto_type_gen (ContractMeta.non_return_type M) (issue_para_type) ;;
  list_opc <- list_opc_gen (issue_opc) (issue_opc_index) ;;
  func_gen fun_idx (ContractMeta.function_type_map M "public") proto_type list_opc.

Definition issue_fun_without_split_gen : result pybytes :=
  fun_idx <- issue_fun_id_without_split_gen ;;
  proto_type <- proto_type_gen (ContractMeta.non_return_type M) (issue_para_type) ;;
  list_opc <- list_opc_gen (issue_opc) (issue_opc_index) ;;
  func_gen fun_idx (ContractMeta.function_type_map M "public") proto_type list_opc.

Definition destroy_fun_gen : result pybytes :=
  fun_idx <- destroy_fun_id_gen ;;
  proto_type <- proto_type_gen (ContractMeta.non_return_type M) (destroy_para_type) ;;
  list_opc <- list_opc_gen (destroy_opc) (destroy_opc_index) ;;
  func_gen fun_idx (ContractMeta.function_type_map M "public") proto_type list_opc.

Definition destroy_fun_without_split_gen : result pybytes :=
  fun_idx <- destroy_fun_id_without_split_gen ;;
  proto_type <- proto_type_gen (ContractMeta.non_return_type M) (destroy_para_type) ;;
  list_opc <- list_opc_gen (destroy_opc) (destroy_opc_index) ;;
  func_gen fun_idx (ContractMeta.function_type_map M "public") proto_type list_opc.

Definition split_fun_gen : result pybytes :=
  fun_idx <- split_fun_id_gen ;;
  proto_type <- proto_type_gen (ContractMeta.non_return_type M) (split_para_type) ;;
  list_opc <- list_opc_gen (split_opc) (split_opc_index) ;;
  func_gen fun_idx (ContractMeta.function_type_map M "public") proto_type list_opc.

Definition send_fun_gen : result pybytes :=
  fun_idx <- send_fun_id_gen ;;
  proto_type <- proto_type_gen (ContractMeta.non_return_type M) (send_para_type) ;;
  list_opc <- list_opc_gen (send_opc) (send_opc_index) ;;
  func_gen fun_idx (ContractMeta.function_type_map M "public") proto_type list_opc.

Definition send_fun_without_split_gen : result pybytes :=
  fun_idx <- send_fun_id_without_split_gen ;;
  proto_type <- proto_type_gen (ContractMeta.non_return_type M) (send_para_type) ;;
  list_opc <- list_opc_gen (send_opc) (send_opc_index) ;;
  func_gen fun_idx (ContractMeta.function_type_map M "public") proto_type list_opc.

Definition transfer_fun_gen : result pybytes :=
  fun_idx <- transfer_fun_id_gen ;;
  proto_type <- proto_type_gen (ContractMeta.non_return_type M) (transfer_para_type) ;;
  list_opc <- list_opc_gen (transfer_opc) (transfer_opc_index) ;;
  func_gen fun_idx (ContractMeta.function_type_map M "public") proto_type list_opc.

Definition transfer_fun_without_split_gen : result pybytes :=
  fun_idx <- transfer_fun_id_without_split_gen ;;
  proto_type <- proto_type_gen (ContractMeta.non_return_type M) (transfer_para_type) ;;
  list_opc <- list_opc_gen (transfer_opc) (transfer_opc_index) ;;
  func_gen fun_idx (ContractMeta.function_type_map M "public") proto_type list_opc.

Definition deposit_fun_gen : result pybytes :=
  fun_idx <- deposit_fun_id_gen ;;
  proto_type <- proto_type_gen (ContractMeta.non_return_type M) (deposit_para_type) ;;
  list_opc <- list_opc_gen (deposit_opc) (deposit_opc_index) ;;
  func_gen fun_idx (ContractMeta.function_type_map M "public") proto_type list_opc.

Definition deposit_fun_without_split_gen : result pybytes :=
  fun_idx <- deposit_fun_id_without_split_gen ;;
  proto_type <- proto_type_gen (ContractMeta.non_return_type M) (deposit_para_type) ;;
  list_opc <- list_opc_gen (deposit_opc) (deposit_opc_index) ;;
  func_gen fun_idx (ContractMeta.function_type_map M "public") proto_type list_opc.

Definition withdraw_fun_gen : result pybytes :=
  fun_idx <- withdraw_fun_id_gen ;;
  proto_type <- proto_type_gen (ContractMeta.non_return_type M) (withdraw_para_type) ;;
  list_opc <- list_opc_gen (withdraw_opc) (withdraw_opc_index) ;;
  func_gen fun_idx (ContractMeta.function_type_map M "public") proto_type list_opc.

Definition withdraw_fun_without_split_gen : result pybytes :=
  fun_idx <- withdraw_fun_id_without_split_gen ;;
  proto_type <- proto_type_gen (ContractMeta.non_return_type M) (withdraw_para_type) ;;
  list_opc <- list_opc_gen (withdraw_opc) (withdraw_opc_index) ;;
  func_gen fun_idx (ContractMeta.function_type_map M "public") proto_type list_opc.

Definition total_supply_fun_gen : result pybytes :=
  fun_idx <- total_supply_fun_id_gen ;;
  proto_type <- proto_type_gen (PList [ContractMeta.data_type_list M "Amount"]) (total_supply_para_type) ;;
  list_opc <- list_opc_gen (total_supply_opc) (total_supply_opc_index) ;;
  func_gen fun_idx (ContractMeta.function_type_map M "public") proto_type list_opc.

Definition total_supply_fun_without_split_gen : result pybytes :=
  fun_idx <- total_supply_fun_id_without_split_gen ;;
  proto_type <- proto_type_gen (PList [ContractMeta.data_type_list M "Amount"]) (total_supply_para_type) ;;
  list_opc <- list_opc_gen (total_supply_opc) (total_supply_opc_index) ;;
  func_gen fun_idx (ContractMeta.function_type_map M "public") proto_type list_opc.

Definition max_supply_fun_gen : result pybytes :=
  fun_idx <- max_supply_fun_id_gen ;;
  proto_type <- proto_type_gen (PList [ContractMeta.data_type_list M "Amount"]) (max_supply_para_type) ;;
  list_opc <- list_opc_gen (max_supply_opc) (max_supply_opc_index) ;;
  func_gen fun_idx (ContractMeta.function_type_map M "public") proto_type list_opc.

Definition max_supply_fun_without_split_gen : result pybytes :=
  fun_idx <- max_supply_fun_id_without_split_gen ;;
  proto_type <- proto_type_gen (PList [ContractMeta.data_type_list M "Amount"]) (max_supply_para_type) ;;
  list_opc <- list_opc_gen (max_supply_opc) (max_supply_opc_index) ;;
  func_gen fun_idx (ContractMeta.function_type_map M "public") proto_type list_opc.

Definition balance_of_fun_gen : result pybytes :=
  fun_idx <- balance_of_fun_id_gen ;;
  proto_type <- proto_type_gen (PList [ContractMeta.data_type_list M "Amount"]) (balance_of_para_type) ;;
  list_opc <- list_opc_gen (balance_of_opc) (balance_of_opc_index) ;;
  func_gen fun_idx (ContractMeta.function_type_map M "public") proto_type list_opc.

Definition balance_of_fun_without_split_gen : result pybytes :=
  fun_idx <- balance_of_fun_id_without_split_gen ;;
  proto_type <- proto_type_gen (PList [ContractMeta.data_type_list M "Amount"]) (balance_of_para_type) ;;
  list_opc <- list_opc_gen (balance_of_opc) (balance_of_opc_index) ;;
  func_gen fun_idx (ContractMeta.function_type_map M "public") proto_type list_opc.

Definition get_issuer_fun_gen : result pybytes :=
  fun_idx <- get_issuer_fun_id_gen ;;
  proto_type <- proto_type_gen (PList [ContractMeta.data_type_list M "Account"]) (get_issuer_para_type) ;;
  list_opc <- list_opc_gen (get_issuer_opc) (get_issuer_opc_index) ;;
  func_gen fun_idx (ContractMeta.function_type_map M "public") proto_type list_opc.

Definition get_issuer_fun_without_split_gen : result pybytes :=
  fun_idx <- get_issuer_fun_id_without_split_gen ;;
  proto_type <- proto_type_gen (PList [ContractMeta.data_type_list M "Account"]) (get_issuer_para_type) ;;
  list_opc <- list_opc_gen (get_issuer_opc) (get_issuer_opc_index) ;;
  func_gen fun_idx (ContractMeta.function_type_map M "public") proto_type list_opc.

End Builder.

(** [class ContractDefaults]: the three lists of generated functions. *)
Module ContractDefaults.

Definition trigger (M : ContractMeta.t) : result (list pybytes) :=
  sequence [init_fun_gen M].

Definition descriptor_without_split (M : ContractMeta.t) : result (list pybytes) :=
  sequence [supersede_fun_without_split_gen M; issue_fun_without_split_gen M;
            destroy_fun_without_split_gen M; send_fun_without_split_gen M;
            transfer_fun_without_split_gen M; deposit_fun_without_split_gen M;
            withdraw_fun_without_split_gen M; total_supply_fun_without_split_gen M;
            max_supply_fun_without_split_gen M; balance_of_fun_without_split_gen M;
            get_issuer_fun_without_split_gen M].

Definition descriptor_with_split (M : ContractMeta.t) : result (list pybytes) :=
  sequence [supersede_fun_gen M; issue_fun_gen M; destroy_fun_gen M; split_fun_gen M;
            send_fun_gen M; transfer_fun_gen M; deposit_fun_gen M; withdraw_fun_gen M;
            total_supply_fun_gen M; max_supply_fun_gen M; balance_of_fun_gen M;
            get_issuer_fun_gen M].

End ContractDefaults.

(** ** Auxiliary notions used by the statements *)

(** The tags that [parse_data_entry_array_size] dispatches on. *)
Definition handled_tag (tag : pybytes) : bool :=
  (tag == Type_.public_key) || (tag == Type_.address) || (tag == Type_.amount)
  || (tag == Type_.int32) || (tag == Type_.short_text)
  || (tag == Type_.contract_account) || (tag == Type_.token_id)
  || (tag == Type_.timestamp).

(** A blob behind its two-byte length. *)
Definition frame (e : pybytes) : pybytes := be_bytes 2 (len e) ++ e.

(** A list on the wire: the count, then every element framed. *)
Definition wire_list (l : list pybytes) : pybytes :=
  be_bytes 2 (len l) ++ concat (map frame l).

(** The contract with another state map. *)
Definition with_state_map (c : Contract) (sm : list pybytes) : Contract :=
  {| language_code := language_code c;
     language_version := language_version c;
     trigger := trigger c;
     descriptor := descriptor c;
     state_variable := state_variable c;
     state_map := sm;
     textual := textual c |}.

(** One instruction of the opcode list: its length, the opcode, the operand
    indexes. *)
Definition instruction (x : pybytes * pybytes) : pybytes :=
  be_bytes 2 (len (fst x ++ snd x)) ++ fst x ++ snd x.

(** The length an opcode frame should declare: for each instruction two
    bytes of prefix, the opcode and the operand indexes; two more for the
    count. *)
Definition claimed_length (ids index_input : list pybytes) : Z :=
  fold_right (fun x acc => 2 + len (fst x) + len (snd x) + acc) 0
    (combine ids index_input) + 2.

(** The frame declares [claimed_length] in its first two bytes, and that many
    bytes follow them. *)
Definition frame_declares (f : pybytes) (ids index_input : list pybytes) : Prop :=
  exists L, unpack 2 (slice f 0 2) = Return L
            /\ L = claimed_length ids index_input
            /\ L = len (skipn 2 f).

(** A function descriptor: a two-byte id, the function type and the
    prototype, closed by the frame that [list_opc_gen] returned. *)
Definition generated_descriptor (d : pybytes) : Prop :=
  exists fun_idx fun_type proto_type ids index_input f,
    d = fun_idx ++ fun_type ++ proto_type ++ f
    /\ length fun_idx = 2%nat
    /\ list_opc_gen ids index_input = Return f
    /\ frame_declares f ids index_input.

(** ** Sample data for running the model *)

(** A sample table: one-byte opcodes and operand indexes, consecutive
    function ids. *)
Definition sample_meta : ContractMeta.t :=
  {|
    ContractMeta.assert_opc := bytes_of [1];
    ContractMeta.balance_of_input_account_index := bytes_of [2];
    ContractMeta.balance_tdbar := bytes_of [3];
    ContractMeta.caller_load := bytes_of [4];
    ContractMeta.cdbv_opc := bytes_of [5];
    ContractMeta.cdbvr_opc := bytes_of [6];
    ContractMeta.deposit_input_amount_index := bytes_of [7];
    ContractMeta.deposit_input_sender_index := bytes_of [8];
    ContractMeta.deposit_input_smart_contract_index := bytes_of [9];
    ContractMeta.deposit_tdba := bytes_of [10];
    ContractMeta.destroy_input_destroy_amount_index := bytes_of [11];
    ContractMeta.destroy_input_issuer_get_index := bytes_of [12];
    ContractMeta.get_cdbvr := bytes_of [13];
    ContractMeta.get_tdbr := bytes_of [14];
    ContractMeta.init_input_issuer_load_index := bytes_of [15];
    ContractMeta.init_input_max_index := bytes_of [16];
    ContractMeta.init_input_short_text_index := bytes_of [17];
    ContractMeta.init_input_unity_index := bytes_of [18];
    ContractMeta.is_caller_origin_assert := bytes_of [19];
    ContractMeta.is_signer_origin_assert := bytes_of [20];
    ContractMeta.issue_input_amount_index := bytes_of [21];
    ContractMeta.issue_input_issuer_get_index := bytes_of [22];
    ContractMeta.load_opc := bytes_of [23];
    ContractMeta.new_token_tdb := bytes_of [24];
    ContractMeta.return_opc := bytes_of [25];
    ContractMeta.send_input_amount_index := bytes_of [26];
    ContractMeta.send_input_recipient_index := bytes_of [27];
    ContractMeta.send_input_sender_index := bytes_of [28];
    ContractMeta.set_cdbv := bytes_of [29];
    ContractMeta.signer_load := bytes_of [30];
    ContractMeta.split_input_issuer_get_index := bytes_of [31];
    ContractMeta.split_input_new_unity_index := bytes_of [32];
    ContractMeta.split_tdb := bytes_of [33];
    ContractMeta.state_var_issuer := bytes_of [34];
    ContractMeta.state_var_maker := bytes_of [35];
    ContractMeta.supersede_input_maker := bytes_of [36];
    ContractMeta.supersede_input_new_issuer_index := bytes_of [37];
    ContractMeta.tdb_opc := bytes_of [38];
    ContractMeta.tdba_opc := bytes_of [39];
    ContractMeta.tdbar_opc := bytes_of [40];
    ContractMeta.tdbr_opc := bytes_of [41];
    ContractMeta.total_tdbr := bytes_of [42];
    ContractMeta.transfer_input_amount_index := bytes_of [43];
    ContractMeta.transfer_input_recipient_index := bytes_of [44];
    ContractMeta.transfer_input_sender_index := bytes_of [45];
    ContractMeta.transfer_tdba := bytes_of [46];
    ContractMeta.withdraw_input_amount_index := bytes_of [47];
    ContractMeta.withdraw_input_recipient_index := bytes_of [48];
    ContractMeta.withdraw_input_smart_contract_index := bytes_of [49];
    ContractMeta.withdraw_tdba := bytes_of [50];
    ContractMeta.balance_of := 0;
    ContractMeta.balance_of_without_split := 1;
    ContractMeta.deposit := 2;
    ContractMeta.deposit_without_split := 3;
    ContractMeta.destroy := 4;
    ContractMeta.destroy_without_split := 5;
    ContractMeta.get_issuer := 6;
    ContractMeta.get_issuer_without_split := 7;
    ContractMeta.init := 8;
    ContractMeta.issue := 9;
    ContractMeta.issue_without_split := 10;
    ContractMeta.max_supply := 11;
    ContractMeta.max_supply_without_split := 12;
    ContractMeta.send := 13;
    ContractMeta.send_without_split := 14;
    ContractMeta.split := 15;
    ContractMeta.supersede := 16;
    ContractMeta.supersede_without_split := 17;
    ContractMeta.total_supply := 18;
    ContractMeta.total_supply_without_split := 19;
    ContractMeta.transfer := 20;
    ContractMeta.transfer_without_split := 21;
    ContractMeta.withdraw := 22;
    ContractMeta.withdraw_without_split := 23;
    ContractMeta.non_return_type := PBytes [];
    ContractMeta.no_return_bytes := PBytes [];
    ContractMeta.data_type_list := fun key =>
      if String.eqb key "Address"%string then Some (bytes_of [2])
      else if String.eqb key "Amount"%string then Some (bytes_of [3])
      else if String.eqb key "ShortText"%string then Some (bytes_of [5])
      else if String.eqb key "ContractAccount"%string then Some (bytes_of [6])
      else if String.eqb key "Account"%string then Some (bytes_of [7])
      else None;
    ContractMeta.function_type_map := fun key =>
      if String.eqb key "onInit"%string then Some (bytes_of [0])
      else if String.eqb key "public"%string then Some (bytes_of [1])
      else None
  |}.

(** Entries built with the Bitcoin-alphabet codec: an amount, the text "hi",
    an address and a token id. *)
Definition sample_amount : DataEntry :=
  entry (PInt 100) Type_.amount "amount"%string (be_bytes 8 100).

Definition sample_text : DataEntry :=
  entry (PStr [104%N; 105%N]) Type_.short_text "short_text"%string
    (be_bytes 2 2 ++ [x68; x69]).

Definition sample_address : DataEntry :=
  let payload := be_bytes 26 123456789123456789 in
  entry (PStr (bytes2str (Base58Bitcoin.encode payload))) Type_.address "address"%string payload.

Definition sample_token_id : DataEntry :=
  let payload := be_bytes 30 987654321987654321 in
  entry (PStr (bytes2str (Base58Bitcoin.encode payload))) Type_.token_id "token_id"%string payload.

Definition sample_entries : list DataEntry :=
  [sample_amount; sample_text; sample_address; sample_token_id].

(** A text of 140 characters, and one of 141. *)
Definition text140 : pystr := repeat 97%N 140.
Definition text141 : pystr := repeat 97%N 141.

(** Two small contracts, of version 1 and of version 2. *)
Definition sample_contract_v1 : Contract :=
  {| language_code := [x76; x64; x64; x73];
     language_version := be_bytes 4 1;
     trigger := [[x01; x02; x03]];
     descriptor := [[x04]; []; [x05; x06]];
     state_variable := [[x00; x02]; [x01; x02]];
     state_map := [];
     textual := [[x61]; [x62; x63]; []] |}.

Definition sample_contract_v2 : Contract :=
  {| language_code := [x76; x64; x64; x73];
     language_version := be_bytes 4 2;
     trigger := [[x01; x02; x03]];
     descriptor := [[x04]; []; [x05; x06]];
     state_variable := [[x00; x02]; [x01; x02]];
     state_map := [[x07; x08]];
     textual := [[x61]; [x62; x63]; []; [x64]] |}.

(** ** Further functions of [vsyspy/contract.py] *)

Section Base58Strings.
Context {base58 : Base58}.

(** [data_entry_from_base58_str] *)
Definition data_entry_from_base58_str (str_object : pyval)
  : result (list (option DataEntry)) :=
  base58_str <- b58decode str_object ;;
  data_entries_from_bytes base58_str.

(** The property [Contract.base58_string]. *)
Definition Contract_base58_string (self : Contract) : result pystr :=
  b <- Contract_bytes self ;;
  Return (bytes2str (b58encode b)).

(** [Contract.from_base58_string] *)
Definition from_base58_string (contract_bytes_string : pyval) : result Contract :=
  contract_bytes <- b58decode contract_bytes_string ;;
  from_bytes contract_bytes.

End Base58Strings.

(** What a function leaves behind besides its result: a line on standard
    output, or a record handed to [logging.error]. *)
Inductive effect : Type :=
| Print (line : string)
| LogError (msg : string).

(** [language_version_builder], as in effect after import: the definition at
    the end of the opcode helpers replaces the earlier one of the same name.
    The bare [except] catches the failure of [struct.pack] as well as the
    [Exception] of the [else] branch; after the [print] the function falls
    off its end and returns [None]. *)
Definition language_version_builder (version : pyval) : option pybytes * list effect :=
  match pack_val 4 version with
  | Return b =>
      if (length b =? ContractMeta.language_version_byte_length)%nat
      then match pack_val 4 version with
           | Return b' => (Some b', [])
           | Raise _ => (None, [Print "Wrong language version length"])
           end
      else (None, [LogError "Wrong language version length";
                   Print "Wrong language version length"])
  | Raise _ => (None, [Print "Wrong language version length"])
  end.

(** [bytes_builder_from_list]: anything that is not a list is reported to
    the log and the function returns [None]. *)
Definition bytes_builder_from_list (input_list : array_arg)
  : result (option pybytes * list effect) :=
  match input_list with
  | AList l =>
      x <- Deser.serialize_arrays l ;;
      r <- Deser.serialize_array (ABytes x) ;;
      Return (Some r, [])
  | ABytes _ => Return (None, [LogError "The input should be a list"])
  end.

(** [zip(ids, index_input)] with each pair joined, [x[0] + x[1]]. *)
Definition joined (ids index_input : list pybytes) : list pybytes :=
  map (fun x => fst x ++ snd x) (combine ids index_input).

(** The sum that [list_opc_gen] takes over the zipped pairs. *)
Definition opc_terms (l : list (pybytes * pybytes)) : Z :=
  fold_right Z.add 0 (map (fun x => len (fst x ++ snd x) + 2) l).

(** The function ids in the order of [descriptor_with_split] and of
    [descriptor_without_split]. *)
Definition ids_with_split (M : ContractMeta.t) : list Z :=
  [ContractMeta.supersede M; ContractMeta.issue M; ContractMeta.destroy M;
   ContractMeta.split M; ContractMeta.send M; ContractMeta.transfer M;
   ContractMeta.deposit M; ContractMeta.withdraw M; ContractMeta.total_supply M;
   ContractMeta.max_supply M; ContractMeta.balance_of M; ContractMeta.get_issuer M].

Definition ids_without_split (M : ContractMeta.t) : list Z :=
  [ContractMeta.supersede_without_split M; ContractMeta.issue_without_split M;
   ContractMeta.destroy_without_split M; ContractMeta.send_without_split M;
   ContractMeta.transfer_without_split M; ContractMeta.deposit_without_split M;
   ContractMeta.withdraw_without_split M; ContractMeta.total_supply_without_split M;
   ContractMeta.max_supply_without_split M; ContractMeta.balance_of_without_split M;
   ContractMeta.get_issuer_without_split M].

(** The function id at the head of a descriptor. *)
Definition descriptor_id (d : pybytes) : Z := be_int (firstn 2 d).

(** ** The data-entry functions of [src/contract.py]

    The older module has the codec for six tags; its [Type] constants have
    the values of [Type_]. *)
Module Legacy.

Section Codec.
Context {base58 : Base58}.

Definition check_data_type (data : pyval) (data_type : pybytes) : result bool :=
  if data_type == Type_.public_key then
    data_bytes <- b58decode data ;;
    Return (length data_bytes =? Type_.key_length)%nat
  else if data_type == Type_.address then
    data_bytes <- b58decode data ;;
    Return (length data_bytes =? Type_.address_length)%nat
  else if data_type == Type_.amount then
    data_bytes <- pack_val 8 data ;;
    if (length data_bytes =? Type_.amount_length)%nat
    then v <- unpack 8 data_bytes ;; Return (0 <? v)
    else Return false
  else if data_type == Type_.int32 then
    data_bytes <- pack_val 4 data ;;
    if (length data_bytes =? Type_.amount_length)%nat
    then v <- unpack 4 data_bytes ;; Return (0 <? v)
    else Return false
  else if data_type == Type_.short_text then
    s <- str2bytes data ;;
    data_bytes <- Deser.serialize_array (ABytes s) ;;
    h <- unpack 2 (slice data_bytes 0 2) ;;
    Return ((h + 2 =? len data_bytes)
            && (length data_bytes <=? Type_.max_short_text_size + 2)%nat)
  else
    Return true.

Definition DataEntry_init (data : pyval) (data_type : pybytes) : result DataEntry :=
  ok <- check_data_type data data_type ;;
  if negb ok then Raise ValueError else
  attrs <-
    (if data_type == Type_.public_key then
       b <- b58decode data ;; Return (Some (b, "public_key"%string))
     else if data_type == Type_.address then
       b <- b58decode data ;; Return (Some (b, "address"%string))
     else if data_type == Type_.amount then
       b <- pack_val 8 data ;; Return (Some (b, "amount"%string))
     else if data_type == Type_.int32 then
       b <- pack_val 4 data ;; Return (Some (b, "int32"%string))
     else if data_type == Type_.short_text then
       s <- str2bytes data ;;
       b <- Deser.serialize_array (ABytes s) ;;
       Return (Some (b, "short_text"%string))
     else if data_type == Type_.contract_account then
       b <- b58decode data ;; Return (Some (b, "contract_account"%string))
     else Return None) ;;
  match attrs with
  | Some (b, name) =>
      Return {| data := data; data_type := name; data_bytes := b;
                bytes := data_type ++ b |}
  | None => Raise AttributeError
  end.

Definition data_entry_from_bytes (bytes_object : pybytes) : result (option DataEntry) :=
  let tag := slice bytes_object 0 1 in
  if (length bytes_object =? 0)%nat then Raise ValueError
  else if tag == Type_.public_key then
    e <- DataEntry_init (PStr (bytes2str (b58encode (skipn 1 bytes_object)))) tag ;;
    Return (Some e)
  else if tag == Type_.address then
    e <- DataEntry_init (PStr (bytes2str (b58encode (skipn 1 bytes_object)))) tag ;;
    Return (Some e)
  else if tag == Type_.amount then
    v <- unpack 8 (skipn 1 bytes_object) ;;
    e <- DataEntry_init (PInt v) tag ;; Return (Some e)
  else if tag == Type_.int32 then
    v <- unpack 4 (skipn 1 bytes_object) ;;
    e <- DataEntry_init (PInt v) tag ;; Return (Some e)
  else if tag == Type_.short_text then
    e <- DataEntry_init (PStr (bytes2str (skipn 3 bytes_object))) tag ;;
    Return (Some e)
  else if tag == Type_.contract_account then
    e <- DataEntry_init (PStr (bytes2str (b58encode (skipn 1 bytes_object)))) tag ;;
    Return (Some e)
  else Return None.

Definition fixed_branch (bytes_object : pybytes) (start_position n : nat)
  : result (option (option DataEntry * nat)) :=
  e <- data_entry_from_bytes (slice bytes_object start_position (start_position + n + 1)) ;;
  Return (Some (e, (start_position + n + 1)%nat)).

Definition parse_data_entry_array_size (bytes_object : pybytes) (start_position : nat)
  : result (option (option DataEntry * nat)) :=
  let tag := slice bytes_object start_position (start_position + 1) in
  if tag == Type_.public_key then
    fixed_branch bytes_object start_position Type_.key_length
  else if tag == Type_.address then
    fixed_branch bytes_object start_position Type_.address_length
  else if tag == Type_.amount then
    fixed_branch bytes_object start_position Type_.amount_length
  else if tag == Type_.int32 then
    fixed_branch bytes_object start_position Type_.int32_length
  else if tag == Type_.short_text then
    n <- unpack 2 (slice bytes_object (start_position + 1) (start_position + 3)) ;;
    e <- data_entry_from_bytes
           (slice bytes_object start_position (start_position + Z.to_nat n + 3)) ;;
    n' <- unpack 2 (slice bytes_object (start_position + 1) (start_position + 3)) ;;
    Return (Some (e, (start_position + Z.to_nat n' + 3)%nat))
  else if tag == Type_.contract_account then
    fixed_branch bytes_object start_position Type_.address_length
  else Return None.

Fixpoint data_entries_loop (n : nat) (bytes_object : pybytes) (pos_drift : nat)
  : result (list (option DataEntry)) :=
  match n with
  | O => Return []
  | S n' =>
      r <- parse_data_entry_array_size bytes_object pos_drift ;;
      match r with
      | None => Raise TypeError
      | Some (array_info, pos_drift') =>
          rest <- data_entries_loop n' bytes_object pos_drift' ;;
          Return (array_info :: rest)
      end
  end.

Definition data_entries_from_bytes (bytes_object : pybytes)
  : result (list (option DataEntry)) :=
  length_ <- unpack 2 (slice bytes_object 0 2) ;;
  data_entries_loop (Z.to_nat length_) bytes_object 2.

End Codec.

End Legacy.

(** * Properties *)

(** ** Bytes and integers *)

Lemma Z_of_byte_range (b : byte) : 0 <= Z_of_byte b < 256.
Proof.
  unfold Z_of_byte. pose proof (Byte.to_N_bounded b). lia.
Qed.

Lemma Z_of_byte_of_Z (z : Z) : 0 <= z < 256 -> Z_of_byte (byte_of_Z z) = z.
Proof.
  intros Hz. unfold Z_of_byte, byte_of_Z.
  destruct (Byte.of_N (Z.to_N z)) as [b|] eqn:E.
  - apply Byte.to_of_N in E. rewrite E. lia.
  - apply Byte.of_N_None_iff in E. lia.
Qed.

Lemma length_be_bytes (w : nat) (n : Z) : length (be_bytes w n) = w.
Proof. induction w; simpl; congruence. Qed.

Lemma be_int_acc (b : pybytes) (acc : Z) :
  fold_left (fun a x => a * 256 + Z_of_byte x) b acc
  = acc * 256 ^ Z.of_nat (length b) + be_int b.
Proof.
  unfold be_int. revert acc.
  induction b as [|x b IH]; intros acc.
  - simpl. lia.
  - cbn [fold_left length]. rewrite IH. rewrite (IH (0 * 256 + Z_of_byte x)).
    rewrite Nat2Z.inj_succ, Z.pow_succ_r by lia. ring.
Qed.

Lemma be_int_cons (x : byte) (b : pybytes) :
  be_int (x :: b) = Z_of_byte x * 256 ^ Z.of_nat (length b) + be_int b.
Proof.
  unfold be_int at 1. cbn [fold_left]. rewrite be_int_acc. ring.
Qed.

Lemma be_int_be_bytes_mod (w : nat) (n : Z) :
  0 <= n -> be_int (be_bytes w n) = n mod 256 ^ Z.of_nat w.
Proof.
  intros Hn. induction w as [|w IH].
  - simpl. rewrite Z.mod_1_r. reflexivity.
  - cbn [be_bytes]. rewrite be_int_cons, length_be_bytes, IH.
    assert (Hp : 0 < 256 ^ Z.of_nat w) by (apply Z.pow_pos_nonneg; lia).
    rewrite Z_of_byte_of_Z by (apply Z.mod_pos_bound; lia).
    rewrite Nat2Z.inj_succ, Z.pow_succ_r by lia.
    rewrite (Z.mul_comm 256), Z.rem_mul_r by lia. ring.
Qed.

Lemma be_int_be_bytes (w : nat) (n : Z) :
  0 <= n < 256 ^ Z.of_nat w -> be_int (be_bytes w n) = n.
Proof.
  intros Hn. rewrite be_int_be_bytes_mod by lia. apply Z.mod_small. lia.
Qed.

Lemma pack_Return (w : nat) (n : Z) (b : pybytes) :
  pack w n = Return b <-> 0 <= n < 256 ^ Z.of_nat w /\ b = be_bytes w n.
Proof.
  unfold pack.
  destruct (Z.leb_spec 0 n), (Z.ltb_spec n (256 ^ Z.of_nat w)); simpl;
    split; intros Hx; try discriminate; try lia.
  - inversion Hx. split; [lia | reflexivity].
  - destruct Hx as [_ ->]. reflexivity.
Qed.

Lemma pack_ok (w : nat) (n : Z) :
  0 <= n < 256 ^ Z.of_nat w -> pack w n = Return (be_bytes w n).
Proof. intros H. apply pack_Return. auto. Qed.

Lemma pack_Raise (w : nat) (n : Z) (e : exn) :
  pack w n = Raise e -> e = StructError /\ ~ (0 <= n < 256 ^ Z.of_nat w).
Proof.
  unfold pack.
  destruct (Z.leb_spec 0 n), (Z.ltb_spec n (256 ^ Z.of_nat w)); simpl;
    intros Hx; inversion Hx; split; auto; lia.
Qed.

Lemma unpack_be_bytes (w : nat) (n : Z) :
  0 <= n < 256 ^ Z.of_nat w -> unpack w (be_bytes w n) = Return n.
Proof.
  intros H. unfold unpack.
  rewrite length_be_bytes, Nat.eqb_refl, be_int_be_bytes by lia. reflexivity.
Qed.

Lemma bytes_eqb_eq (a b : pybytes) : (a == b) = true <-> a = b.
Proof.
  unfold bytes_eqb. destruct (list_eq_dec Byte.byte_eq_dec a b); split;
    intros; congruence.
Qed.

Lemma bytes_eqb_refl (a : pybytes) : (a == a) = true.
Proof. apply bytes_eqb_eq. reflexivity. Qed.

(** ** Slices *)

Lemma slice_prefix {A : Type} (x post : list A) (n : nat) :
  n = length x -> slice (x ++ post) 0 n = x.
Proof.
  intros ->. unfold slice. rewrite Nat.sub_0_r. simpl.
  rewrite firstn_app, firstn_all, Nat.sub_diag. simpl. apply app_nil_r.
Qed.

Lemma slice_mid {A : Type} (pre x post : list A) (i j : nat) :
  i = length pre -> j = (length pre + length x)%nat ->
  slice (pre ++ x ++ post) i j = x.
Proof.
  intros -> ->. unfold slice.
  rewrite skipn_app, skipn_all, Nat.sub_diag. simpl.
  replace (length pre + length x - length pre)%nat with (length x) by lia.
  rewrite firstn_app, firstn_all, Nat.sub_diag. simpl. apply app_nil_r.
Qed.

Lemma skipn_app_exact {A : Type} (x post : list A) (n : nat) :
  n = length x -> skipn n (x ++ post) = post.
Proof.
  intros ->. rewrite skipn_app, skipn_all, Nat.sub_diag. reflexivity.
Qed.

Lemma len_nat {A : Type} (l : list A) : Z.to_nat (len l) = length l.
Proof. unfold len. lia. Qed.

(** ** Text *)

Lemma bytes2str_encode_latin1 (s : pystr) (b : pybytes) :
  encode_latin1 s = Return b -> bytes2str b = s.
Proof.
  revert b. induction s as [|c s IH]; intros b H; simpl in H.
  - inversion H. reflexivity.
  - destruct (Byte.of_N c) as [x|] eqn:E; [|discriminate].
    destruct (encode_latin1 s) as [r|]; simpl in H; [|discriminate].
    inversion H. simpl. rewrite (IH r eq_refl).
    apply Byte.to_of_N in E. congruence.
Qed.

Lemma length_encode_latin1 (s : pystr) (b : pybytes) :
  encode_latin1 s = Return b -> length b = length s.
Proof.
  revert b. induction s as [|c s IH]; intros b H; simpl in H.
  - inversion H. reflexivity.
  - destruct (Byte.of_N c) as [x|] eqn:E; [|discriminate].
    destruct (encode_latin1 s) as [r|]; simpl in H; [|discriminate].
    inversion H. simpl. rewrite (IH r eq_refl). reflexivity.
Qed.

(** ** The constructor and the single-entry decoders *)

(** Decide the comparisons of two closed tags in the goal. *)
Ltac run_tags :=
  repeat match goal with
    | |- context [bytes_eqb ?a ?b] =>
        let v := eval vm_compute in (bytes_eqb a b) in
        match v with
        | true => idtac
        | false => idtac
        end;
        change (bytes_eqb a b) with v
    end.

(** A sequence that returned: its first call returned. *)
Ltac bind_inv H :=
  match type of H with
  | bind ?m _ = Return _ =>
      let E := fresh "E" in
      destruct m eqn:E; cbn [bind] in H; [|discriminate H]
  end.

Lemma Return_inj {A : Type} (a b : A) : Return a = Return b -> a = b.
Proof. congruence. Qed.

Ltac ret_inj H := apply Return_inj in H; subst.

(** Side conditions of the slice lemmas: reassociation, and lengths. *)
Ltac lists := repeat rewrite <- app_assoc; reflexivity.
Ltac lens :=
  repeat rewrite length_app; repeat rewrite length_be_bytes;
  unfold Type_.key_length, Type_.address_length, Type_.amount_length,
    Type_.int32_length, Type_.token_address_length in *;
  simpl length; lia.

Section EntryCodec.
Context {base58 : Base58}.

Lemma pack_val_Return w d b :
  pack_val w d = Return b ->
  exists n, d = PInt n /\ 0 <= n < 256 ^ Z.of_nat w /\ b = be_bytes w n.
Proof.
  destruct d as [n|s]; simpl; [|discriminate].
  intros H. apply pack_Return in H. exists n. tauto.
Qed.

(** Inversion of the constructor: a call that returned went through one of
    the eight branches. *)
Lemma DataEntry_init_inv d t e :
  DataEntry_init d t = Return e ->
  exists name b, shape d t name b /\ e = entry d t name b.
Proof.
  unfold DataEntry_init, check_data_type. intros H.
  destruct (t == Type_.public_key) eqn:T1.
  { apply bytes_eqb_eq in T1. subst t.
    bind_inv H. bind_inv E. ret_inj E.
    destruct (length a0 =? Type_.key_length)%nat eqn:L; simpl in H; [|discriminate].
    ret_inj H. do 2 eexists. split; [|reflexivity].
    apply Nat.eqb_eq in L. constructor; assumption. }
  destruct (t == Type_.address) eqn:T2.
  { apply bytes_eqb_eq in T2. subst t.
    bind_inv H. bind_inv E. ret_inj E.
    destruct (length a0 =? Type_.address_length)%nat eqn:L; simpl in H; [|discriminate].
    ret_inj H. do 2 eexists. split; [|reflexivity].
    apply Nat.eqb_eq in L. constructor; assumption. }
  destruct (t == Type_.amount) eqn:T3.
  { apply bytes_eqb_eq in T3. subst t.
    bind_inv H. bind_inv E.
    apply pack_val_Return in E0. destruct E0 as (n & -> & Hn & ->).
    rewrite length_be_bytes in E.
    change (8 =? Type_.amount_length)%nat with true in E. cbv iota in E.
    rewrite unpack_be_bytes in E by assumption. cbn [bind] in E.
    ret_inj E.
    destruct (Z.ltb_spec 0 n); cbn [negb] in H; [|discriminate].
    cbn [bind] in H.
    ret_inj H. do 2 eexists. split; [|reflexivity].
    apply shape_amount; [reflexivity | change (2 ^ 64) with (256 ^ Z.of_nat 8); lia]. }
  destruct (t == Type_.int32) eqn:T4.
  { apply bytes_eqb_eq in T4. subst t.
    bind_inv H. bind_inv E.
    apply pack_val_Return in E0. destruct E0 as (n & -> & Hn & ->).
    rewrite length_be_bytes in E.
    change (4 =? Type_.int32_length)%nat with true in E. cbv iota in E.
    rewrite unpack_be_bytes in E by assumption. cbn [bind] in E.
    ret_inj E.
    destruct (Z.ltb_spec 0 n); cbn [negb] in H; [|discriminate].
    cbn [bind] in H.
    ret_inj H. do 2 eexists. split; [|reflexivity].
    apply shape_int32; [reflexivity | change (2 ^ 32) with (256 ^ Z.of_nat 4); lia]. }
  destruct (t == Type_.short_text) eqn:T5.
  { apply bytes_eqb_eq in T5. subst t.
    bind_inv H. bind_inv E. bind_inv E.
    destruct d as [n|s]; [discriminate|]. cbn [str2bytes] in E0.
    unfold Deser.serialize_array in E1. bind_inv E1.
    apply pack_Return in E2. destruct E2 as (Hl & ->).
    ret_inj E1.
    rewrite slice_prefix in E by (rewrite length_be_bytes; reflexivity).
    rewrite unpack_be_bytes in E by assumption. cbn [bind] in E.
    ret_inj E.
    destruct (_ && _) eqn:C in H; cbn [negb] in H; [|discriminate].
    apply andb_true_iff in C. destruct C as [_ C]. apply Nat.leb_le in C.
    rewrite length_app, length_be_bytes in C.
    cbn [bind] in H. unfold Deser.serialize_array in H.
    rewrite pack_ok in H by assumption.
    cbn [bind] in H. ret_inj H. do 2 eexists. split; [|reflexivity].
    eapply shape_short_text; [reflexivity | eassumption | lia]. }
  destruct (t == Type_.contract_account) eqn:T6.
  { apply bytes_eqb_eq in T6. subst t. cbn [bind negb] in H.
    bind_inv H. bind_inv E. ret_inj E.
    ret_inj H. do 2 eexists. split; [|reflexivity].
    constructor; assumption. }
  destruct (t == Type_.token_id) eqn:T7.
  { apply bytes_eqb_eq in T7. subst t. cbn [bind negb] in H.
    bind_inv H. bind_inv E. ret_inj E.
    ret_inj H. do 2 eexists. split; [|reflexivity].
    constructor; assumption. }
  destruct (t == Type_.timestamp) eqn:T8.
  { apply bytes_eqb_eq in T8. subst t. cbn [bind negb] in H.
    bind_inv H. bind_inv E.
    apply pack_val_Return in E0. destruct E0 as (n & -> & Hn & ->).
    ret_inj E.
    ret_inj H. do 2 eexists. split; [|reflexivity].
    apply shape_timestamp; [reflexivity | change (2 ^ 64) with (256 ^ Z.of_nat 8); lia]. }
  cbn [bind negb] in H. discriminate.
Qed.

Lemma slice_decomp {A : Type} (l pre x post : list A) (i j : nat) :
  l = pre ++ x ++ post -> i = length pre -> j = (i + length x)%nat ->
  slice l i j = x.
Proof. intros -> -> ->. apply slice_mid; reflexivity. Qed.

Lemma skipn_decomp {A : Type} (l pre post : list A) (i : nat) :
  l = pre ++ post -> i = length pre -> skipn i l = post.
Proof. intros -> ->. apply skipn_app_exact. reflexivity. Qed.

Lemma pyval_eqb_eq a b : pyval_eqb a b = true -> a = b.
Proof.
  destruct a, b; simpl; try discriminate.
  - intros H. apply Z.eqb_eq in H. congruence.
  - destruct (list_eq_dec N.eq_dec s s0); congruence.
Qed.

Lemma tag_length d t name b : shape d t name b -> length t = 1%nat.
Proof. destruct 1; reflexivity. Qed.

(** [data_entry_from_bytes] on the bytes of an entry runs the constructor
    again on the same data and tag. *)
Lemma data_entry_from_bytes_entry d t name b e :
  shape d t name b ->
  DataEntry_init d t = Return e ->
  (is_base58_tag t = true -> d = PStr (bytes2str (b58encode b))) ->
  data_entry_from_bytes (t ++ b) = Return (Some e).
Proof.
  intros Hs Hi Hc. unfold data_entry_from_bytes.
  pose proof (tag_length _ _ _ _ Hs) as Ht.
  rewrite length_app, Ht. cbn [Nat.add Nat.eqb].
  rewrite (slice_prefix t b 1) by (symmetry; exact Ht).
  rewrite (skipn_decomp (t ++ b) t b 1) by (auto).
  destruct Hs; run_tags; cbv iota.
  - rewrite <- Hc by reflexivity. rewrite Hi. reflexivity.
  - rewrite <- Hc by reflexivity. rewrite Hi. reflexivity.
  - rewrite unpack_be_bytes by (change (256 ^ Z.of_nat 8) with (2 ^ 64); lia).
    cbn [bind]. subst d. rewrite Hi. reflexivity.
  - rewrite unpack_be_bytes by (change (256 ^ Z.of_nat 4) with (2 ^ 32); lia).
    cbn [bind]. subst d. rewrite Hi. reflexivity.
  - rewrite (skipn_decomp _ (Type_.short_text ++ be_bytes 2 (len body)) body 3)
      by (lists || lens).
    rewrite (bytes2str_encode_latin1 _ _ H0). subst d. rewrite Hi. reflexivity.
  - rewrite <- Hc by reflexivity. rewrite Hi. reflexivity.
  - rewrite <- Hc by reflexivity. rewrite Hi. reflexivity.
  - rewrite unpack_be_bytes by (change (256 ^ Z.of_nat 8) with (2 ^ 64); lia).
    cbn [bind]. subst d. rewrite Hi. reflexivity.
Qed.

(** The dispatcher, standing at the first byte of an entry inside a buffer,
    returns the entry and the offset just past it. *)
Lemma parse_entry pre post d t name b e :
  shape d t name b ->
  DataEntry_init d t = Return e ->
  (forall n, fixed_length t = Some n -> length b = n) ->
  (is_base58_tag t = true -> d = PStr (bytes2str (b58encode b))) ->
  parse_data_entry_array_size (pre ++ (t ++ b) ++ post) (length pre)
  = Return (Some (Some e, (length pre + length (t ++ b))%nat)).
Proof.
  intros Hs Hi Hl Hc. unfold parse_data_entry_array_size, fixed_branch.
  pose proof (tag_length _ _ _ _ Hs) as Ht.
  pose proof (data_entry_from_bytes_entry _ _ _ _ _ Hs Hi Hc) as Hd.
  rewrite (slice_decomp _ pre t (b ++ post)) by (lists || lia).
  destruct Hs; run_tags; cbv iota;
    try (match goal with
         | |- context [slice (pre ++ ?x ++ post) _ _] =>
             rewrite (slice_decomp _ pre x post) by
               (reflexivity || (rewrite length_app, Ht, (Hl _ eq_refl); lens))
         end;
         rewrite Hd; cbn [bind]; rewrite length_app, Ht, (Hl _ eq_refl);
         do 3 f_equal; lens).
  assert (Hb : 0 <= len body < 256 ^ Z.of_nat 2).
  { unfold len, Type_.max_short_text_size in *. change (256 ^ Z.of_nat 2) with 65536. lia. }
  rewrite (slice_decomp _ (pre ++ Type_.short_text) (be_bytes 2 (len body)) (body ++ post))
    by (lists || lens).
  rewrite unpack_be_bytes by exact Hb. cbn [bind].
  rewrite (slice_decomp _ pre (Type_.short_text ++ be_bytes 2 (len body) ++ body) post)
    by (lists || reflexivity || (rewrite len_nat; lens)).
  rewrite Hd. cbn [bind]. rewrite len_nat. do 3 f_equal. lens.
Qed.

End EntryCodec.

(** ** Lists of entries *)

Section ListCodec.
Context {base58 : Base58}.

Lemma valid_entry_shape e :
  valid_entry e ->
  exists d t name b,
    shape d t name b /\ DataEntry_init d t = Return e /\ e = entry d t name b
    /\ (forall n, fixed_length t = Some n -> length b = n)
    /\ (is_base58_tag t = true -> d = PStr (bytes2str (b58encode b))).
Proof.
  intros [(d & t & Hi) Hw].
  destruct (DataEntry_init_inv _ _ _ Hi) as (name & b & Hs & He).
  exists d, t, name, b. repeat split; try assumption.
  - subst e. unfold wire_invariant in Hw. cbn [bytes entry data_bytes data] in Hw.
    rewrite (slice_prefix t b 1) in Hw by (symmetry; eapply tag_length; eauto).
    apply andb_true_iff in Hw. destruct Hw as [Hw _].
    intros n Hn. rewrite Hn in Hw. apply Nat.eqb_eq. exact Hw.
  - subst e. unfold wire_invariant in Hw. cbn [bytes entry data_bytes data] in Hw.
    rewrite (slice_prefix t b 1) in Hw by (symmetry; eapply tag_length; eauto).
    apply andb_true_iff in Hw. destruct Hw as [_ Hw].
    intros Hb. rewrite Hb in Hw. apply pyval_eqb_eq. exact Hw.
Qed.

Lemma valid_entry_parse pre post e :
  valid_entry e ->
  parse_data_entry_array_size (pre ++ bytes e ++ post) (length pre)
  = Return (Some (Some e, (length pre + length (bytes e))%nat)).
Proof.
  intros Hv.
  destruct (valid_entry_shape e Hv) as (d & t & name & b & Hs & Hi & He & Hl & Hc).
  subst e. cbn [bytes entry]. eapply parse_entry; eauto.
Qed.

Lemma data_entries_loop_valid xs :
  Forall valid_entry xs ->
  forall pre post,
    data_entries_loop (length xs) (pre ++ concat (map bytes xs) ++ post) (length pre)
    = Return (map Some xs).
Proof.
  induction 1 as [|x xs Hx _ IH]; intros pre post.
  - reflexivity.
  - cbn [length map concat data_entries_loop].
    rewrite <- (app_assoc (bytes x)).
    rewrite (valid_entry_parse pre _ x Hx). cbn [bind].
    rewrite app_assoc, <- length_app. rewrite IH. reflexivity.
Qed.





Lemma pyval_eqb_refl a : pyval_eqb a a = true.
Proof.
  destruct a; simpl.
  - apply Z.eqb_refl.
  - destruct (list_eq_dec N.eq_dec s s); congruence.
Qed.

(** What validity adds to construction. *)
Lemma constructed_valid_iff d t e :
  DataEntry_init d t = Return e ->
  (valid_entry e <->
   (is_base58_tag t = true -> data e = PStr (bytes2str (b58encode (data_bytes e))))
   /\ (t = Type_.contract_account -> length (data_bytes e) = Type_.address_length)
   /\ (t = Type_.token_id -> length (data_bytes e) = Type_.token_address_length)).
Proof.
  intros Hi. destruct (DataEntry_init_inv _ _ _ Hi) as (name & b & Hs & ->).
  unfold valid_entry, wire_invariant. cbn [bytes entry data_bytes data].
  rewrite (slice_prefix t b 1) by (symmetry; eapply tag_length; eauto).
  split.
  - intros [_ Hw]. apply andb_true_iff in Hw. destruct Hw as [Hw Hc].
    split; [|split].
    + intros Hb. rewrite Hb in Hc. apply pyval_eqb_eq. exact Hc.
    + intros ->. apply Nat.eqb_eq. exact Hw.
    + intros ->. apply Nat.eqb_eq. exact Hw.
  - intros (Hc & Ha & Ht). split; [exists d, t; exact Hi|].
    apply andb_true_iff. split.
    + destruct Hs; unfold fixed_length; run_tags; cbv iota;
        first [ reflexivity
              | rewrite length_be_bytes; reflexivity
              | apply Nat.eqb_eq; assumption
              | apply Nat.eqb_eq; apply Ha; reflexivity
              | apply Nat.eqb_eq; apply Ht; reflexivity ].
    + destruct (is_base58_tag t); [|reflexivity].
      rewrite (Hc eq_refl) at 1. apply pyval_eqb_refl.
Qed.

Lemma serialize_data_Return xs b :
  serialize_data (EntryList xs) = Return b <->
  len xs < 65536 /\ b = be_bytes 2 (len xs) ++ concat (map bytes xs).
Proof.
  unfold serialize_data, Deser.serialize_array, list2bytes.
  unfold len at 1. rewrite length_map. fold (len xs).
  split.
  - intros H. bind_inv H. apply pack_Return in E. destruct E as [Hn ->].
    ret_inj H. split; [exact (proj2 Hn) | reflexivity].
  - intros [Hn ->]. rewrite pack_ok; [reflexivity|].
    unfold len in *. change (256 ^ Z.of_nat 2) with 65536. lia.
Qed.

(** Decoding what [serialize_data] writes for valid entries, with anything
    after it. *)
Lemma decode_serialized xs post :
  Forall valid_entry xs -> len xs < 65536 ->
  data_entries_from_bytes ((be_bytes 2 (len xs) ++ concat (map bytes xs)) ++ post)
  = Return (map Some xs).
Proof.
  intros Hv Hn. unfold data_entries_from_bytes.
  rewrite <- app_assoc.
  rewrite (slice_prefix (be_bytes 2 (len xs)) _ 2) by (rewrite length_be_bytes; reflexivity).
  rewrite unpack_be_bytes by (unfold len in *; change (256 ^ Z.of_nat 2) with 65536; lia).
  cbn [bind]. rewrite len_nat.
  rewrite <- (length_be_bytes 2 (len xs)) at 2.
  apply data_entries_loop_valid. exact Hv.
Qed.



(** The converse of the inversion: each shape is a successful run. *)
Lemma shape_init d t name b :
  shape d t name b -> DataEntry_init d t = Return (entry d t name b).
Proof.
  intros Hs. unfold DataEntry_init, check_data_type.
  destruct Hs; run_tags; cbv iota.
  - rewrite H. cbn [bind]. rewrite H0. reflexivity.
  - rewrite H. cbn [bind]. rewrite H0. reflexivity.
  - subst d. cbn [pack_val].
    rewrite pack_ok by (change (256 ^ Z.of_nat 8) with (2 ^ 64); lia).
    cbn [bind]. rewrite length_be_bytes.
    change (8 =? Type_.amount_length)%nat with true. cbv iota.
    rewrite unpack_be_bytes by (change (256 ^ Z.of_nat 8) with (2 ^ 64); lia).
    cbn [bind]. destruct (Z.ltb_spec 0 n); [reflexivity | lia].
  - subst d. cbn [pack_val].
    rewrite pack_ok by (change (256 ^ Z.of_nat 4) with (2 ^ 32); lia).
    cbn [bind]. rewrite length_be_bytes.
    change (4 =? Type_.int32_length)%nat with true. cbv iota.
    rewrite unpack_be_bytes by (change (256 ^ Z.of_nat 4) with (2 ^ 32); lia).
    cbn [bind]. destruct (Z.ltb_spec 0 n); [reflexivity | lia].
  - subst d. cbn [str2bytes]. rewrite H0. cbn [bind].
    assert (Hb : 0 <= len body < 256 ^ Z.of_nat 2).
    { unfold len, Type_.max_short_text_size in *. change (256 ^ Z.of_nat 2) with 65536. lia. }
    unfold Deser.serialize_array. rewrite pack_ok by exact Hb. cbn [bind].
    rewrite (slice_prefix (be_bytes 2 (len body)) body 2)
      by (rewrite length_be_bytes; reflexivity).
    rewrite unpack_be_bytes by exact Hb. cbn [bind].
    replace (len body + 2 =? len (be_bytes 2 (len body) ++ body)) with true
      by (symmetry; apply Z.eqb_eq; unfold len; rewrite length_app, length_be_bytes; lia).
    replace (length (be_bytes 2 (len body) ++ body) <=? Type_.max_short_text_size + 2)%nat
      with true
      by (symmetry; apply Nat.leb_le; rewrite length_app, length_be_bytes; lia).
    reflexivity.
  - cbn [bind negb]. rewrite H. reflexivity.
  - cbn [bind negb]. rewrite H. reflexivity.
  - subst d. cbn [bind negb pack_val].
    rewrite pack_ok by (change (256 ^ Z.of_nat 8) with (2 ^ 64); lia).
    reflexivity.
Qed.

Lemma shape_amount_inv d name b :
  shape d Type_.amount name b ->
  exists n, d = PInt n /\ 0 < n < 2 ^ 64 /\ name = "amount"%string /\ b = be_bytes 8 n.
Proof.
  intros Hs. inversion Hs; subst. eauto.
Qed.


Lemma parse_unhandled (b : pybytes) (pos : nat) :
  handled_tag (slice b pos (pos + 1)) = false ->
  parse_data_entry_array_size b pos = Return None.
Proof.
  unfold handled_tag, parse_data_entry_array_size. intros H.
  repeat (apply orb_false_iff in H; destruct H as [H ?]).
  repeat match goal with E : (_ == _) = false |- _ => rewrite E; clear E end.
  reflexivity.
Qed.

(** Wherever the loop stands, an unhandled tag ends it with [TypeError]. *)
Lemma data_entries_loop_unhandled (b : pybytes) (k pos : nat) :
  handled_tag (slice b pos (pos + 1)) = false ->
  data_entries_loop (S k) b pos = Raise TypeError.
Proof.
  intros H. cbn [data_entries_loop]. rewrite (parse_unhandled b pos H). reflexivity.
Qed.

End ListCodec.

(** ** Properties of data entries *)

Section DataEntryClaims.
Context {base58 : Base58}.




(** C8.  An Amount entry of value 0 is refused with [ValueError]; the
    values 1 and 2^64-1 are accepted; the accepted data are exactly the
    integers from 1 to 2^64-1, and the payload is the value as eight
    big-endian bytes. *)
Theorem amount_range :
  DataEntry_init (PInt 0) Type_.amount = Raise ValueError
  /\ DataEntry_init (PInt 1) Type_.amount
     = Return (entry (PInt 1) Type_.amount "amount" (be_bytes 8 1))
  /\ DataEntry_init (PInt (2 ^ 64 - 1)) Type_.amount
     = Return (entry (PInt (2 ^ 64 - 1)) Type_.amount "amount" (be_bytes 8 (2 ^ 64 - 1)))
  /\ (forall d, (exists e, DataEntry_init d Type_.amount = Return e)
                <-> (exists n, d = PInt n /\ 1 <= n <= 2 ^ 64 - 1))
  /\ (forall n e, DataEntry_init (PInt n) Type_.amount = Return e ->
                  data_bytes e = be_bytes 8 n
                  /\ length (data_bytes e) = 8%nat
                  /\ be_int (data_bytes e) = n
                  /\ bytes e = Type_.amount ++ be_bytes 8 n).
Proof.
  repeat apply conj.
  - reflexivity.
  - reflexivity.
  - reflexivity.
  - intros d. split.
    + intros [e He]. apply DataEntry_init_inv in He.
      destruct He as (name & b & Hs & _).
      apply shape_amount_inv in Hs. destruct Hs as (n & -> & Hn & _).
      exists n. split; [reflexivity | lia].
    + intros (n & -> & Hn). eexists. apply shape_init.
      apply shape_amount; [reflexivity | lia].
  - intros n e He. apply DataEntry_init_inv in He.
    destruct He as (name & b & Hs & ->).
    apply shape_amount_inv in Hs. destruct Hs as (n' & Hd & Hn & -> & ->).
    injection Hd as <-. cbn [entry data_bytes bytes].
    rewrite length_be_bytes, be_int_be_bytes
      by (change (256 ^ Z.of_nat 8) with (2 ^ 64); lia).
    repeat split.
Qed.


(** C9.  With the tags Account, Boolean and Balance the type check returns
    [True] but no branch sets the payload, so the constructor raises on its
    last line for every data value; a construction that succeeds used one of
    the eight other tags. *)
Theorem unsupported_tags (d : pyval) :
  DataEntry_init d Type_.account = Raise AttributeError
  /\ DataEntry_init d Type_.boolean = Raise AttributeError
  /\ DataEntry_init d Type_.balance = Raise AttributeError
  /\ (forall t e, DataEntry_init d t = Return e ->
                  In t [Type_.public_key; Type_.address; Type_.amount; Type_.int32;
                        Type_.short_text; Type_.contract_account; Type_.token_id;
                        Type_.timestamp])
  /\ check_data_type d Type_.account = Return true
  /\ check_data_type d Type_.boolean = Return true
  /\ check_data_type d Type_.balance = Return true.
Proof.
  repeat apply conj; try reflexivity.
  intros t e He. apply DataEntry_init_inv in He.
  destruct He as (name & b & Hs & _). destruct Hs; simpl; tauto.
Qed.

(** C7.  A ShortText whose encoded body has exactly 140 bytes is
    constructed, and its bytes decode back to it, alone and as a list of one;
    a body of 141 bytes is refused with [ValueError]. *)
Theorem short_text_boundary (s : pystr) (body : pybytes) :
  encode_latin1 s = Return body ->
  (length body = 140%nat ->
   exists e,
     DataEntry_init (PStr s) Type_.short_text = Return e
     /\ data e = PStr s
     /\ bytes e = Type_.short_text ++ be_bytes 2 140 ++ body
     /\ data_entry_from_bytes (bytes e) = Return (Some e)
     /\ (exists b, serialize_data (OneEntry e) = Return b
                   /\ data_entries_from_bytes b = Return [Some e]))
  /\ (length body = 141%nat ->
      DataEntry_init (PStr s) Type_.short_text = Raise ValueError).
Proof.
  intros Hs. split; intros Hl.
  - assert (Hsh : shape (PStr s) Type_.short_text "short_text"
                    (be_bytes 2 (len body) ++ body)).
    { eapply shape_short_text; [reflexivity | exact Hs |].
      unfold Type_.max_short_text_size. lia. }
    pose proof (shape_init _ _ _ _ Hsh) as Hi.
    eexists. split; [exact Hi|].
    assert (Hlen : len body = 140) by (unfold len; lia).
    cbn [entry data bytes]. rewrite Hlen. repeat split.
    + rewrite <- Hlen.
      apply (data_entry_from_bytes_entry _ _ _ _ _ Hsh Hi). discriminate.
    + assert (Hv : valid_entry (entry (PStr s) Type_.short_text "short_text"
                                 (be_bytes 2 (len body) ++ body))).
      { split; [do 2 eexists; exact Hi|]. reflexivity. }
      rewrite <- Hlen. eexists. split.
      * apply (serialize_data_Return [_]). split; reflexivity.
      * rewrite <- (app_nil_r (_ ++ _)).
        apply (decode_serialized [_] []); [|reflexivity].
        constructor; [exact Hv | constructor].
  - unfold DataEntry_init, check_data_type. run_tags. cbv iota.
    cbn [str2bytes]. rewrite Hs. cbn [bind].
    assert (Hb : 0 <= len body < 256 ^ Z.of_nat 2).
    { unfold len. change (256 ^ Z.of_nat 2) with 65536. lia. }
    unfold Deser.serialize_array. rewrite pack_ok by exact Hb. cbn [bind].
    rewrite (slice_prefix (be_bytes 2 (len body)) body 2)
      by (rewrite length_be_bytes; reflexivity).
    rewrite unpack_be_bytes by exact Hb. cbn [bind].
    replace (length (be_bytes 2 (len body) ++ body) <=? Type_.max_short_text_size + 2)%nat
      with false
      by (symmetry; apply Nat.leb_gt; rewrite length_app, length_be_bytes;
          unfold Type_.max_short_text_size; lia).
    rewrite andb_false_r. reflexivity.
Qed.


(** C4.  What list decoding does when the first element starts with a tag
    that the dispatcher does not handle: the dispatcher returns [None], and
    unpacking it makes [data_entries_from_bytes] raise [TypeError]; no error
    that names the unknown tag is raised. *)
Theorem unknown_tag_raises_TypeError (b : pybytes) (n : Z) :
  unpack 2 (slice b 0 2) = Return n ->
  1 <= n ->
  handled_tag (slice b 2 3) = false ->
  parse_data_entry_array_size b 2 = Return None
  /\ data_entries_from_bytes b = Raise TypeError.
Proof.
  intros Hn Hpos Htag. pose proof (parse_unhandled b 2 Htag) as Hp.
  split; [exact Hp|].
  unfold data_entries_from_bytes. rewrite Hn. cbn [bind].
  destruct (Z.to_nat n) as [|k] eqn:E; [lia|].
  cbn [data_entries_loop]. rewrite Hp. reflexivity.
Qed.


End DataEntryClaims.


Lemma unknown_tag_raises_TypeError_witness :
  @parse_data_entry_array_size Base58Bitcoin.codec [x00; x01; x0c] 2 = Return None
  /\ @data_entries_from_bytes Base58Bitcoin.codec [x00; x01; x0c] = Raise TypeError.
Proof.
  apply (@unknown_tag_raises_TypeError Base58Bitcoin.codec [x00; x01; x0c] 1);
    [reflexivity | lia | reflexivity].
Defined.


(** ** The contract envelope *)

Lemma small_range {A : Type} (l : list A) :
  len l < 65536 -> 0 <= len l < 256 ^ Z.of_nat 2.
Proof. unfold len. change (256 ^ Z.of_nat 2) with 65536. lia. Qed.

Lemma serialize_array_bytes (b : pybytes) :
  len b < 65536 -> Deser.serialize_array (ABytes b) = Return (frame b).
Proof.
  intros H. unfold Deser.serialize_array. rewrite pack_ok by (apply small_range; exact H).
  reflexivity.
Qed.

Lemma serialize_array_bytes_inv (b out : pybytes) :
  Deser.serialize_array (ABytes b) = Return out -> len b < 65536 /\ out = frame b.
Proof.
  unfold Deser.serialize_array. intros H. bind_inv H.
  apply pack_Return in E. destruct E as [Hn ->]. ret_inj H.
  split; [exact (proj2 Hn) | reflexivity].
Qed.

Lemma serialize_each_ok (l : list pybytes) :
  Forall (fun e => len e < 65536) l ->
  Deser.serialize_each l = Return (concat (map frame l)).
Proof.
  induction 1 as [|e l He _ IH]; [reflexivity|].
  cbn [Deser.serialize_each]. rewrite serialize_array_bytes by exact He.
  cbn [bind]. rewrite IH. reflexivity.
Qed.

Lemma serialize_arrays_ok (l : list pybytes) :
  framable l ->
  Deser.serialize_arrays l = Return (be_bytes 2 (len l) ++ concat (map frame l)).
Proof.
  intros [Hn Hl]. unfold Deser.serialize_arrays.
  rewrite pack_ok by (apply small_range; exact Hn). cbn [bind].
  rewrite serialize_each_ok by exact Hl. reflexivity.
Qed.

Lemma len_app {A : Type} (a b : list A) : len (a ++ b) = len a + len b.
Proof. unfold len. rewrite length_app. lia. Qed.

Lemma len_framed (l : list pybytes) :
  len (be_bytes 2 (len l) ++ concat (map frame l)) = framed_size l.
Proof.
  unfold framed_size. rewrite len_app. unfold len at 1. rewrite length_be_bytes.
  f_equal. induction l as [|e l IH]; [reflexivity|].
  cbn [map concat fold_right]. unfold frame at 1.
  rewrite !len_app, IH. unfold len at 1. rewrite length_be_bytes. lia.
Qed.

Lemma section_frame_ok (l : list pybytes) :
  section_ok l ->
  section_frame l = Return (frame (be_bytes 2 (len l) ++ concat (map frame l))).
Proof.
  intros [Hf Hs]. unfold section_frame. rewrite serialize_arrays_ok by exact Hf.
  cbn [bind]. apply serialize_array_bytes. rewrite len_framed. exact Hs.
Qed.

(** [parse_array_size] at the first byte of a framed blob. *)
Lemma parse_array_size_frame (cb pre x post : pybytes) (pos : nat) :
  cb = pre ++ frame x ++ post -> pos = length pre -> len x < 65536 ->
  Deser.parse_array_size cb pos = Return (x, (pos + 2 + length x)%nat).
Proof.
  intros -> -> Hx. unfold Deser.parse_array_size, Deser.read_size, frame.
  rewrite (slice_decomp _ pre (be_bytes 2 (len x)) (x ++ post))
    by (lists || reflexivity || (rewrite length_be_bytes; reflexivity)).
  rewrite unpack_be_bytes by (apply small_range; exact Hx). cbn [bind].
  rewrite len_nat.
  replace (length pre + 2 + length x <=? length (pre ++ (be_bytes 2 (len x) ++ x) ++ post))%nat
    with true
    by (symmetry; apply Nat.leb_le; rewrite !length_app, length_be_bytes; lia).
  rewrite (slice_decomp _ (pre ++ be_bytes 2 (len x)) x post)
    by (lists || lens).
  reflexivity.
Qed.

Lemma parse_arrays_loop_frames (l : list pybytes) :
  Forall (fun e => len e < 65536) l ->
  forall pre post,
    Deser.parse_arrays_loop (length l) (pre ++ concat (map frame l) ++ post) (length pre)
    = Return l.
Proof.
  induction 1 as [|e l He _ IH]; intros pre post; [reflexivity|].
  cbn [length map concat Deser.parse_arrays_loop].
  rewrite (parse_array_size_frame _ pre e (concat (map frame l) ++ post))
    by (lists || reflexivity || exact He).
  cbn [bind].
  replace (length pre + 2 + length e)%nat with (length (pre ++ frame e))
    by (unfold frame; lens).
  replace (pre ++ (frame e ++ concat (map frame l)) ++ post)
    with ((pre ++ frame e) ++ concat (map frame l) ++ post) by lists.
  rewrite IH. reflexivity.
Qed.

(** [parse_arrays] inverts [serialize_arrays], whatever follows the list. *)
Lemma parse_arrays_framed (l : list pybytes) (post : pybytes) :
  framable l ->
  Deser.parse_arrays ((be_bytes 2 (len l) ++ concat (map frame l)) ++ post) = Return l.
Proof.
  intros [Hn Hl]. unfold Deser.parse_arrays, Deser.read_size. rewrite <- app_assoc.
  rewrite (slice_prefix (be_bytes 2 (len l)) _ 2) by (rewrite length_be_bytes; reflexivity).
  rewrite unpack_be_bytes by (apply small_range; exact Hn). cbn [bind].
  rewrite len_nat. rewrite <- (length_be_bytes 2 (len l)) at 2.
  apply parse_arrays_loop_frames. exact Hl.
Qed.

Lemma parse_arrays_framed_exact (l : list pybytes) :
  framable l ->
  Deser.parse_arrays (be_bytes 2 (len l) ++ concat (map frame l)) = Return l.
Proof.
  intros H. rewrite <- (app_nil_r (_ ++ _)). apply parse_arrays_framed. exact H.
Qed.

Lemma skipn_slice_end {A : Type} (l pre x : list A) (i : nat) :
  l = pre ++ x -> i = length pre -> slice l i (length l) = x.
Proof.
  intros -> ->. unfold slice. rewrite skipn_app, skipn_all, Nat.sub_diag. simpl.
  apply firstn_all2. rewrite length_app. lia.
Qed.

Lemma section_ok_wire (l : list pybytes) :
  section_ok l -> len (wire_list l) < 65536.
Proof. intros [_ H]. unfold wire_list. rewrite len_framed. exact H. Qed.

Lemma pack_4_1 : pack 4 1 = Return (be_bytes 4 1).
Proof. reflexivity. Qed.

Lemma parse_arrays_empty : Deser.parse_arrays (be_bytes 2 0) = Return [].
Proof. reflexivity. Qed.

(** C2.  Round trip of the envelope: a valid contract serializes, and
    [from_bytes] of the result sets every attribute back to what it was, for
    version 1 and for any other version. *)
Theorem contract_roundtrip (c : Contract) :
  valid_contract c ->
  exists b, Contract_bytes c = Return b /\ from_bytes b = Return c.
Proof.
  destruct c as [code ver T D SV SM TX].
  unfold valid_contract. cbn [language_code language_version trigger descriptor
                              state_variable state_map textual].
  intros (Hcode & (v & Hver) & HT & HD & HSV & HSM & HTX & Hone).
  apply pack_Return in Hver. destruct Hver as [_ Hver].
  assert (Hvl : length ver = 4%nat) by (rewrite Hver; apply length_be_bytes).
  unfold ContractMeta.language_code_byte_length in Hcode.
  pose proof (section_ok_wire _ HT) as HT'.
  pose proof (section_ok_wire _ HD) as HD'.
  pose proof (section_ok_wire _ HSV) as HSV'.
  pose proof (section_ok_wire _ HSM) as HSM'.
  unfold Contract_bytes, from_bytes, try_except.
  cbn [language_code language_version trigger descriptor state_variable state_map textual].
  rewrite pack_4_1. cbn [bind].
  rewrite !section_frame_ok by assumption.
  rewrite (serialize_arrays_ok TX) by assumption.
  fold (wire_list T) (wire_list D) (wire_list SV) (wire_list SM) (wire_list TX) in *.
  unfold ContractMeta.language_code_byte_length, ContractMeta.language_version_byte_length.
  destruct (ver == be_bytes 4 1) eqn:Ev.
  - apply bytes_eqb_eq in Ev. specialize (Hone Ev). subst SM.
    cbn [bind]. eexists. split; [reflexivity|].
    rewrite (slice_prefix code _ 4) by (symmetry; exact Hcode).
    rewrite (slice_decomp _ code ver _ 4 (4 + 4)) by (reflexivity || lia).
    rewrite (parse_array_size_frame _ (code ++ ver) (wire_list T)
               (frame (wire_list D) ++ frame (wire_list SV) ++ wire_list TX))
      by (lists || lens || assumption).
    cbn [bind]. unfold wire_list at 1. rewrite parse_arrays_framed_exact by apply HT.
    cbn [bind].
    rewrite (parse_array_size_frame _ (code ++ ver ++ frame (wire_list T)) (wire_list D)
               (frame (wire_list SV) ++ wire_list TX))
      by (lists || (unfold frame; lens) || assumption).
    cbn [bind]. unfold wire_list at 1. rewrite parse_arrays_framed_exact by apply HD.
    cbn [bind].
    rewrite (parse_array_size_frame _
               (code ++ ver ++ frame (wire_list T) ++ frame (wire_list D))
               (wire_list SV) (wire_list TX))
      by (lists || (unfold frame; lens) || assumption).
    cbn [bind]. unfold wire_list at 1. rewrite parse_arrays_framed_exact by apply HSV.
    cbn [bind]. rewrite Ev. rewrite bytes_eqb_refl. cbn [bind].
    rewrite (skipn_slice_end _
               (code ++ be_bytes 4 1 ++ frame (wire_list T) ++ frame (wire_list D)
                ++ frame (wire_list SV)) (wire_list TX))
      by (lists || (unfold frame; lens)).
    change (pack 2 0) with (Return (be_bytes 2 0)). cbn [bind].
    rewrite parse_arrays_empty. cbn [bind].
    unfold wire_list at 1. rewrite parse_arrays_framed_exact by apply HTX.
    reflexivity.
  - cbn [bind]. eexists. split; [reflexivity|].
    rewrite (slice_prefix code _ 4) by (symmetry; exact Hcode).
    rewrite (slice_decomp _ code ver _ 4 (4 + 4)) by (reflexivity || lia).
    rewrite Ev.
    rewrite (parse_array_size_frame _ (code ++ ver) (wire_list T)
               (frame (wire_list D) ++ frame (wire_list SV) ++ frame (wire_list SM)
                ++ wire_list TX))
      by (lists || lens || assumption).
    cbn [bind]. unfold wire_list at 1. rewrite parse_arrays_framed_exact by apply HT.
    cbn [bind].
    rewrite (parse_array_size_frame _ (code ++ ver ++ frame (wire_list T)) (wire_list D)
               (frame (wire_list SV) ++ frame (wire_list SM) ++ wire_list TX))
      by (lists || (unfold frame; lens) || assumption).
    cbn [bind]. unfold wire_list at 1. rewrite parse_arrays_framed_exact by apply HD.
    cbn [bind].
    rewrite (parse_array_size_frame _
               (code ++ ver ++ frame (wire_list T) ++ frame (wire_list D))
               (wire_list SV) (frame (wire_list SM) ++ wire_list TX))
      by (lists || (unfold frame; lens) || assumption).
    cbn [bind]. unfold wire_list at 1. rewrite parse_arrays_framed_exact by apply HSV.
    cbn [bind].
    rewrite (parse_array_size_frame _
               (code ++ ver ++ frame (wire_list T) ++ frame (wire_list D)
                ++ frame (wire_list SV))
               (wire_list SM) (wire_list TX))
      by (lists || (unfold frame; lens) || assumption).
    cbn [bind]. unfold wire_list at 1. rewrite parse_arrays_framed_exact by apply HSM.
    cbn [bind].
    rewrite (skipn_slice_end _
               (code ++ ver ++ frame (wire_list T) ++ frame (wire_list D)
                ++ frame (wire_list SV) ++ frame (wire_list SM)) (wire_list TX))
      by (lists || (unfold frame; lens)).
    unfold wire_list at 1. rewrite parse_arrays_framed_exact by apply HTX.
    reflexivity.
Qed.

Lemma serialize_each_inv (l : list pybytes) (b : pybytes) :
  Deser.serialize_each l = Return b ->
  Forall (fun e => len e < 65536) l /\ b = concat (map frame l).
Proof.
  revert b. induction l as [|e l IH]; intros b H; cbn [Deser.serialize_each] in H.
  - ret_inj H. split; [constructor | reflexivity].
  - bind_inv H. apply serialize_array_bytes_inv in E. destruct E as [He ->].
    bind_inv H. ret_inj H. destruct (IH _ eq_refl) as [Hl ->].
    split; [constructor; assumption | reflexivity].
Qed.

Lemma serialize_arrays_inv (l : list pybytes) (b : pybytes) :
  Deser.serialize_arrays l = Return b -> framable l /\ b = wire_list l.
Proof.
  unfold Deser.serialize_arrays. intros H.
  bind_inv H. apply pack_Return in E. destruct E as [Hn ->].
  bind_inv H. apply serialize_each_inv in E. destruct E as [Hl ->]. ret_inj H.
  split; [split; [exact (proj2 Hn) | exact Hl] | reflexivity].
Qed.

Lemma section_frame_inv (l : list pybytes) (f : pybytes) :
  section_frame l = Return f -> section_ok l /\ f = frame (wire_list l).
Proof.
  unfold section_frame, Deser.serialize_arrays. intros H.
  bind_inv H. bind_inv E. apply pack_Return in E0. destruct E0 as [Hn ->].
  bind_inv E. apply serialize_each_inv in E0. destruct E0 as [Hl ->]. ret_inj E.
  apply serialize_array_bytes_inv in H. destruct H as [Hs ->].
  rewrite len_framed in Hs.
  split; [|reflexivity]. split; [split|]; [exact (proj2 Hn) | exact Hl | exact Hs].
Qed.

(** C3.  Version gating of the state map.  Under version 1 the bytes do not
    depend on the state map and are the header, the three framed sections
    and the textual list, with nothing in between.  Under any other version
    the bytes are the same with one more frame between the state variables
    and the textual list; that frame is the state map on the wire (its
    length, its count, every element behind its own length), and for an
    empty state map it is the wrapped zero count [00 02 00 00].  In both
    cases the bytes are returned as soon as the sections fit their
    prefixes. *)
Theorem state_map_frame_gating (c : Contract) :
  (language_version c = be_bytes 4 1 ->
   (forall sm, Contract_bytes (with_state_map c sm) = Contract_bytes c)
   /\ (forall out, Contract_bytes c = Return out ->
         out = language_code c ++ language_version c
               ++ frame (wire_list (trigger c))
               ++ frame (wire_list (descriptor c))
               ++ frame (wire_list (state_variable c))
               ++ wire_list (textual c))
   /\ (section_ok (trigger c) -> section_ok (descriptor c) ->
       section_ok (state_variable c) -> framable (textual c) ->
       exists out, Contract_bytes c = Return out))
  /\ (language_version c <> be_bytes 4 1 ->
      (forall out, Contract_bytes c = Return out ->
         out = language_code c ++ language_version c
               ++ frame (wire_list (trigger c))
               ++ frame (wire_list (descriptor c))
               ++ frame (wire_list (state_variable c))
               ++ frame (wire_list (state_map c))
               ++ wire_list (textual c))
      /\ (section_ok (trigger c) -> section_ok (descriptor c) ->
          section_ok (state_variable c) -> section_ok (state_map c) ->
          framable (textual c) ->
          exists out, Contract_bytes c = Return out))
  /\ frame (wire_list (state_map c))
     = be_bytes 2 (framed_size (state_map c))
       ++ be_bytes 2 (len (state_map c))
       ++ concat (map (fun e => be_bytes 2 (len e) ++ e) (state_map c))
  /\ (state_map c = [] -> frame (wire_list (state_map c)) = [x00; x02; x00; x00]).
Proof.
  split; [|split; [|split]].
  - intros Hv. split; [|split].
    + intros sm. unfold Contract_bytes, with_state_map.
      cbn [language_code language_version trigger descriptor state_variable
           state_map textual].
      rewrite pack_4_1. cbn [bind]. rewrite Hv, bytes_eqb_refl. reflexivity.
    + intros out H. unfold Contract_bytes in H. rewrite pack_4_1 in H. cbn [bind] in H.
      rewrite Hv, bytes_eqb_refl in H. rewrite <- Hv in H.
      destruct (section_frame (trigger c)) as [t|] eqn:Et; cbn [bind] in H; [|discriminate].
      destruct (section_frame (descriptor c)) as [d|] eqn:Ed; cbn [bind] in H; [|discriminate].
      destruct (section_frame (state_variable c)) as [sv|] eqn:Esv; cbn [bind] in H;
        [|discriminate].
      destruct (Deser.serialize_arrays (textual c)) as [tx|] eqn:Etx; cbn [bind] in H;
        [|discriminate].
      apply section_frame_inv in Et, Ed, Esv. apply serialize_arrays_inv in Etx.
      destruct Et as [_ ->], Ed as [_ ->], Esv as [_ ->], Etx as [_ ->].
      apply Return_inj in H. symmetry. exact H.
    + intros HT HD HSV HTX. unfold Contract_bytes. rewrite pack_4_1. cbn [bind].
      rewrite Hv, bytes_eqb_refl.
      rewrite !section_frame_ok by assumption.
      rewrite serialize_arrays_ok by assumption. cbn [bind]. eexists. reflexivity.
  - intros Hv.
    assert (E : (language_version c == be_bytes 4 1) = false).
    { destruct (language_version c == be_bytes 4 1) eqn:E; [|reflexivity].
      apply bytes_eqb_eq in E. contradiction. }
    split.
    + intros out H. unfold Contract_bytes in H. rewrite pack_4_1 in H. cbn [bind] in H.
      rewrite E in H.
      destruct (section_frame (trigger c)) as [t|] eqn:Et; cbn [bind] in H; [|discriminate].
      destruct (section_frame (descriptor c)) as [d|] eqn:Ed; cbn [bind] in H; [|discriminate].
      destruct (section_frame (state_variable c)) as [sv|] eqn:Esv; cbn [bind] in H;
        [|discriminate].
      destruct (section_frame (state_map c)) as [sm|] eqn:Esm; cbn [bind] in H;
        [|discriminate].
      destruct (Deser.serialize_arrays (textual c)) as [tx|] eqn:Etx; cbn [bind] in H;
        [|discriminate].
      apply section_frame_inv in Et, Ed, Esv, Esm. apply serialize_arrays_inv in Etx.
      destruct Et as [_ ->], Ed as [_ ->], Esv as [_ ->], Esm as [_ ->], Etx as [_ ->].
      apply Return_inj in H. symmetry. exact H.
    + intros HT HD HSV HSM HTX. unfold Contract_bytes. rewrite pack_4_1. cbn [bind].
      rewrite E.
      rewrite !section_frame_ok by assumption.
      rewrite serialize_arrays_ok by assumption. cbn [bind]. eexists. reflexivity.
  - unfold frame at 1. unfold wire_list at 1. rewrite len_framed.
    unfold wire_list, frame. reflexivity.
  - intros ->. reflexivity.
Qed.







(** ** The opcode frame *)

Lemma len_be_bytes w n : len (be_bytes w n) = Z.of_nat w.
Proof. unfold len. rewrite length_be_bytes. reflexivity. Qed.

Lemma opc_sum_claimed ids idx : opc_sum ids idx + 2 = claimed_length ids idx.
Proof.
  unfold opc_sum, claimed_length. f_equal.
  induction (combine ids idx) as [|x l IH]; [reflexivity|].
  cbn [map fold_right]. rewrite IH, len_app. lia.
Qed.

Lemma sequence_instructions (l : list (pybytes * pybytes)) (r : list pybytes) :
  sequence (map (fun x => h <- pack 2 (len (fst x ++ snd x)) ;;
                          Return (h ++ fst x ++ snd x)) l) = Return r ->
  r = map instruction l.
Proof.
  revert r. induction l as [|x l IH]; intros r H; cbn [map sequence] in H.
  - ret_inj H. reflexivity.
  - bind_inv H. bind_inv E. apply pack_Return in E0. destruct E0 as [_ ->].
    ret_inj E. bind_inv H. ret_inj H. cbn [map]. unfold instruction at 1.
    rewrite <- (IH a eq_refl). reflexivity.
Qed.

Lemma len_instructions (l : list (pybytes * pybytes)) :
  len (concat (map instruction l))
  = fold_right Z.add 0 (map (fun x => len (fst x ++ snd x) + 2) l).
Proof.
  induction l as [|x l IH]; [reflexivity|].
  cbn [map concat fold_right]. rewrite len_app, IH. unfold instruction.
  rewrite (len_app (be_bytes _ _)), len_be_bytes.
  change (Z.of_nat 2) with 2. rewrite (Z.add_comm 2). reflexivity.
Qed.

Lemma list_opc_gen_Return ids idx f :
  list_opc_gen ids idx = Return f ->
  0 <= opc_sum ids idx + 2 < 65536
  /\ f = be_bytes 2 (opc_sum ids idx + 2) ++ be_bytes 2 (len ids)
         ++ concat (map instruction (combine ids idx)).
Proof.
  unfold list_opc_gen. intros H.
  bind_inv H. apply pack_Return in E. destruct E as [Hn ->].
  bind_inv H. apply pack_Return in E. destruct E as [_ ->].
  bind_inv H. apply sequence_instructions in E. subst. ret_inj H.
  split; [exact Hn | reflexivity].
Qed.

(** The frame returned by [list_opc_gen] declares the claimed length. *)
Lemma list_opc_gen_declares ids idx f :
  list_opc_gen ids idx = Return f -> frame_declares f ids idx.
Proof.
  intros H. apply list_opc_gen_Return in H. destruct H as [Hn ->].
  exists (opc_sum ids idx + 2). repeat split.
  - rewrite (slice_prefix (be_bytes 2 _) _ 2) by (rewrite length_be_bytes; reflexivity).
    apply unpack_be_bytes. exact Hn.
  - apply opc_sum_claimed.
  - rewrite (skipn_decomp _ (be_bytes 2 (opc_sum ids idx + 2)) _ 2)
      by (reflexivity || (rewrite length_be_bytes; reflexivity)).
    rewrite len_app, len_instructions, len_be_bytes.
    unfold opc_sum. lia.
Qed.

(** The common body of the [*_fun_gen] functions. *)
Lemma fun_gen_descriptor (idr : result pybytes) (ft : option pybytes)
    (ret para : proto_arg) (ids idx : list pybytes) (d : pybytes) :
  (fun_idx <- idr ;;
   proto_type <- proto_type_gen ret para ;;
   list_opc <- list_opc_gen ids idx ;;
   func_gen fun_idx ft proto_type list_opc) = Return d ->
  (forall x, idr = Return x -> length x = 2%nat) ->
  generated_descriptor d.
Proof.
  intros H Hid. bind_inv H. bind_inv H. bind_inv H.
  unfold func_gen in H. destruct ft as [t|]; [|discriminate]. ret_inj H.
  exists a, t, a0, ids, idx, a1. repeat split.
  - apply Hid. reflexivity.
  - exact E1.
  - apply list_opc_gen_declares. exact E1.
Qed.

Lemma pack_2_length n x : pack 2 n = Return x -> length x = 2%nat.
Proof. intros H. apply pack_Return in H. destruct H as [_ ->]. apply length_be_bytes. Qed.

Lemma sequence_Forall {A : Type} (P : A -> Prop) (l : list (result A)) (r : list A) :
  sequence l = Return r ->
  (forall m a, In m l -> m = Return a -> P a) ->
  Forall P r.
Proof.
  revert r. induction l as [|m l IH]; intros r H HP; cbn [sequence] in H.
  - ret_inj H. constructor.
  - bind_inv H. bind_inv H. ret_inj H. constructor.
    + eapply HP; [left; reflexivity | reflexivity].
    + apply IH; [reflexivity|]. intros m' a' Hin. apply HP. right. exact Hin.
Qed.

Ltac descriptor_case H :=
  eapply fun_gen_descriptor; [exact H | intros x; apply pack_2_length].

(** C6.  Every function descriptor generated into the trigger list and
    into the two descriptor lists of [ContractDefaults] ends with an opcode
    frame whose first two bytes declare the sum over the instructions of
    2 + len(opcode) + len(operand indexes), plus 2, which is the number of
    bytes that follow them. *)
Theorem catalog_opcode_frames (M : ContractMeta.t) (ds : list pybytes) :
  ContractDefaults.trigger M = Return ds
  \/ ContractDefaults.descriptor_without_split M = Return ds
  \/ ContractDefaults.descriptor_with_split M = Return ds ->
  Forall generated_descriptor ds.
Proof.
  intros [H | [H | H]];
    (eapply sequence_Forall; [exact H|]);
    intros m d Hin Hm; cbn [In] in Hin;
    repeat (destruct Hin as [<- | Hin]; [descriptor_case Hm|]);
    contradiction.
Qed.

Lemma catalog_opcode_frames_witness :
  exists ds,
    ContractDefaults.descriptor_with_split sample_meta = Return ds
    /\ Forall generated_descriptor ds.
Proof.
  eexists. split.
  - vm_compute. reflexivity.
  - apply (catalog_opcode_frames sample_meta). right. right.
    vm_compute. reflexivity.
Defined.

(** ** The theorems at the sample data *)

Lemma init_valid {base58 : Base58} (d : pyval) (t : pybytes) (e : DataEntry) :
  DataEntry_init d t = Return e -> wire_invariant e = true -> valid_entry e.
Proof. intros Hi Hw. split; [exists d, t; exact Hi | exact Hw]. Qed.

Lemma sample_entries_valid : Forall (@valid_entry Base58Bitcoin.codec) sample_entries.
Proof.
  repeat apply Forall_cons; try apply Forall_nil.
  - apply (@init_valid Base58Bitcoin.codec (PInt 100) Type_.amount);
      vm_compute; reflexivity.
  - apply (@init_valid Base58Bitcoin.codec (PStr [104%N; 105%N]) Type_.short_text);
      vm_compute; reflexivity.
  - apply (@init_valid Base58Bitcoin.codec (data sample_address) Type_.address);
      vm_compute; reflexivity.
  - apply (@init_valid Base58Bitcoin.codec (data sample_token_id) Type_.token_id);
      vm_compute; reflexivity.
Defined.






Lemma short_text_boundary_witness :
  encode_latin1 text140 = Return (repeat x61 140)
  /\ (exists e,
        @DataEntry_init Base58Bitcoin.codec (PStr text140) Type_.short_text = Return e
        /\ data e = PStr text140
        /\ bytes e = Type_.short_text ++ be_bytes 2 140 ++ repeat x61 140
        /\ @data_entry_from_bytes Base58Bitcoin.codec (bytes e) = Return (Some e)
        /\ (exists b, serialize_data (OneEntry e) = Return b
                      /\ @data_entries_from_bytes Base58Bitcoin.codec b
                         = Return [Some e])).
Proof.
  split; [vm_compute; reflexivity|].
  apply (@short_text_boundary Base58Bitcoin.codec text140 (repeat x61 140));
    [vm_compute; reflexivity | reflexivity].
Defined.

Lemma section_ok_check (l : list pybytes) :
  (len l <? 65536) && forallb (fun e => len e <? 65536) l
  && (framed_size l <? 65536) = true ->
  section_ok l.
Proof.
  intros H. apply andb_true_iff in H. destruct H as [H H3].
  apply andb_true_iff in H. destruct H as [H1 H2].
  apply Z.ltb_lt in H1, H3. rewrite forallb_forall in H2.
  repeat split; try assumption.
  apply Forall_forall. intros e He. apply Z.ltb_lt. apply H2. exact He.
Qed.

Lemma sample_contract_v1_valid : valid_contract sample_contract_v1.
Proof.
  unfold valid_contract.
  split; [reflexivity|]. split; [exists 1; reflexivity|].
  do 4 (split; [apply section_ok_check; reflexivity|]).
  split; [apply (section_ok_check (textual _)); reflexivity|].
  intros _. reflexivity.
Defined.

Lemma sample_contract_v2_valid : valid_contract sample_contract_v2.
Proof.
  unfold valid_contract.
  split; [reflexivity|]. split; [exists 2; reflexivity|].
  do 4 (split; [apply section_ok_check; reflexivity|]).
  split; [apply (section_ok_check (textual _)); reflexivity|].
  intros H. vm_compute in H. discriminate H.
Defined.

Lemma contract_roundtrip_witness :
  valid_contract sample_contract_v1
  /\ valid_contract sample_contract_v2
  /\ (exists b, Contract_bytes sample_contract_v1 = Return b
                /\ from_bytes b = Return sample_contract_v1)
  /\ (exists b, Contract_bytes sample_contract_v2 = Return b
                /\ from_bytes b = Return sample_contract_v2).
Proof.
  split; [exact sample_contract_v1_valid|].
  split; [exact sample_contract_v2_valid|].
  split.
  - exact (contract_roundtrip sample_contract_v1 sample_contract_v1_valid).
  - exact (contract_roundtrip sample_contract_v2 sample_contract_v2_valid).
Defined.

Lemma state_map_frame_gating_witness :
  language_version sample_contract_v1 = be_bytes 4 1
  /\ (forall sm, Contract_bytes (with_state_map sample_contract_v1 sm)
                 = Contract_bytes sample_contract_v1)
  /\ language_version sample_contract_v2 <> be_bytes 4 1
  /\ (exists out,
        Contract_bytes sample_contract_v2 = Return out
        /\ out = language_code sample_contract_v2 ++ language_version sample_contract_v2
                 ++ frame (wire_list (trigger sample_contract_v2))
                 ++ frame (wire_list (descriptor sample_contract_v2))
                 ++ frame (wire_list (state_variable sample_contract_v2))
                 ++ [x00; x06; x00; x01; x00; x02; x07; x08]
                 ++ wire_list (textual sample_contract_v2)).
Proof.
  assert (H2 : language_version sample_contract_v2 <> be_bytes 4 1)
    by (intros H; vm_compute in H; discriminate H).
  split; [reflexivity|].
  split; [exact (proj1 (proj1 (state_map_frame_gating sample_contract_v1) eq_refl))|].
  split; [exact H2|].
  destruct (Contract_bytes sample_contract_v2) as [out|e] eqn:E;
    [|vm_compute in E; discriminate E].
  exists out. split; [reflexivity|].
  exact (proj1 (proj1 (proj2 (state_map_frame_gating sample_contract_v2)) H2) out E).
Defined.


(** ** Runs of the model *)

(** The two scenarios of the specification: the amount 100, and the text
    "hi" as a list of one. *)
Example amount_100_bytes :
  @DataEntry_init Base58Bitcoin.codec (PInt 100) Type_.amount = Return sample_amount
  /\ bytes sample_amount = [x03; x00; x00; x00; x00; x00; x00; x00; x64]
  /\ @data_entry_from_bytes Base58Bitcoin.codec (bytes sample_amount)
     = Return (Some sample_amount).
Proof. repeat split; vm_compute; reflexivity. Qed.

Example text_hi_bytes :
  serialize_data (OneEntry sample_text) = Return [x00; x01; x05; x00; x02; x68; x69].
Proof. vm_compute. reflexivity. Qed.

(** A body of 141 bytes, run. *)
Example text141_refused :
  @DataEntry_init Base58Bitcoin.codec (PStr text141) Type_.short_text = Raise ValueError.
Proof. vm_compute. reflexivity. Qed.

(** On a list, [serialize_array] joins the elements as they are; a list
    written that way is not what [parse_arrays] reads element by element. *)
Example joined_list_is_not_framed :
  Deser.serialize_array (AList [[x00; x01; x07]]) = Return [x00; x01; x00; x01; x07]
  /\ Deser.parse_arrays [x00; x01; x00; x01; x07] = Return [[x07]]
  /\ Deser.serialize_arrays [[x00; x01; x07]] = Return [x00; x01; x00; x03; x00; x01; x07]
  /\ Deser.parse_arrays [x00; x01; x00; x03; x00; x01; x07] = Return [[x00; x01; x07]].
Proof. repeat split; vm_compute; reflexivity. Qed.

(** The sample contracts on the wire: the version-2 bytes carry the framed
    state map, the version-1 bytes do not. *)
Example sample_contract_bytes :
  Contract_bytes sample_contract_v1
  = Return ([x76; x64; x64; x73; x00; x00; x00; x01]
            ++ [x00; x07; x00; x01; x00; x03; x01; x02; x03]
            ++ [x00; x0b; x00; x03; x00; x01; x04; x00; x00; x00; x02; x05; x06]
            ++ [x00; x0a; x00; x02; x00; x02; x00; x02; x00; x02; x01; x02]
            ++ [x00; x03; x00; x01; x61; x00; x02; x62; x63; x00; x00])
  /\ Contract_bytes sample_contract_v2
     = Return ([x76; x64; x64; x73; x00; x00; x00; x02]
               ++ [x00; x07; x00; x01; x00; x03; x01; x02; x03]
               ++ [x00; x0b; x00; x03; x00; x01; x04; x00; x00; x00; x02; x05; x06]
               ++ [x00; x0a; x00; x02; x00; x02; x00; x02; x00; x02; x01; x02]
               ++ [x00; x06; x00; x01; x00; x02; x07; x08]
               ++ [x00; x04; x00; x01; x61; x00; x02; x62; x63; x00; x00; x00; x01; x64]).
Proof. split; vm_compute; reflexivity. Qed.

(** * Further properties *)

(** ** The constructor, tag by tag *)

Section ConstructorCases.
Context {base58 : Base58}.

Lemma shape_int32_inv d name b :
  shape d Type_.int32 name b ->
  exists n, d = PInt n /\ 0 < n < 2 ^ 32 /\ name = "int32"%string /\ b = be_bytes 4 n.
Proof. intros Hs. inversion Hs; subst. eauto. Qed.

Lemma shape_timestamp_inv d name b :
  shape d Type_.timestamp name b ->
  exists n, d = PInt n /\ 0 <= n < 2 ^ 64 /\ name = "timestamp"%string
            /\ b = be_bytes 8 n.
Proof. intros Hs. inversion Hs; subst. eauto. Qed.

(** X1.  An Int32 entry is constructed exactly from the integers 1 to
    2^32-1; its payload is the value as four big-endian bytes; 0 is refused
    with [ValueError]. *)
Theorem int32_range :
  DataEntry_init (PInt 0) Type_.int32 = Raise ValueError
  /\ (forall d, (exists e, DataEntry_init d Type_.int32 = Return e)
                <-> (exists n, d = PInt n /\ 1 <= n <= 2 ^ 32 - 1))
  /\ (forall n e, DataEntry_init (PInt n) Type_.int32 = Return e ->
                  e = entry (PInt n) Type_.int32 "int32" (be_bytes 4 n)
                  /\ length (data_bytes e) = 4%nat
                  /\ be_int (data_bytes e) = n).
Proof.
  repeat apply conj.
  - reflexivity.
  - intros d. split.
    + intros [e He]. apply DataEntry_init_inv in He.
      destruct He as (name & b & Hs & _).
      apply shape_int32_inv in Hs. destruct Hs as (n & -> & Hn & _).
      exists n. split; [reflexivity | lia].
    + intros (n & -> & Hn). eexists. apply shape_init.
      apply shape_int32; [reflexivity | lia].
  - intros n e He. apply DataEntry_init_inv in He.
    destruct He as (name & b & Hs & ->).
    apply shape_int32_inv in Hs. destruct Hs as (n' & Hd & Hn & -> & ->).
    apply (f_equal (fun v => match v with PInt k => k | PStr _ => 0 end)) in Hd.
    subst n'. cbn [entry data_bytes].
    rewrite length_be_bytes, be_int_be_bytes
      by (change (256 ^ Z.of_nat 4) with (2 ^ 32); lia).
    repeat split.
Qed.

(** X2.  A Timestamp entry is constructed exactly from the integers 0 to
    2^64-1: unlike an Amount, the value 0 is accepted, since the type check
    has no branch for the tag. *)
Theorem timestamp_range :
  DataEntry_init (PInt 0) Type_.timestamp
  = Return (entry (PInt 0) Type_.timestamp "timestamp" (be_bytes 8 0))
  /\ (forall d, (exists e, DataEntry_init d Type_.timestamp = Return e)
                <-> (exists n, d = PInt n /\ 0 <= n <= 2 ^ 64 - 1))
  /\ (forall n e, DataEntry_init (PInt n) Type_.timestamp = Return e ->
                  e = entry (PInt n) Type_.timestamp "timestamp" (be_bytes 8 n)
                  /\ be_int (data_bytes e) = n).
Proof.
  repeat apply conj.
  - reflexivity.
  - intros d. split.
    + intros [e He]. apply DataEntry_init_inv in He.
      destruct He as (name & b & Hs & _).
      apply shape_timestamp_inv in Hs. destruct Hs as (n & -> & Hn & _).
      exists n. split; [reflexivity | lia].
    + intros (n & -> & Hn). eexists. apply shape_init.
      apply shape_timestamp; [reflexivity | lia].
  - intros n e He. apply DataEntry_init_inv in He.
    destruct He as (name & b & Hs & ->).
    apply shape_timestamp_inv in Hs. destruct Hs as (n' & Hd & Hn & -> & ->).
    apply (f_equal (fun v => match v with PInt k => k | PStr _ => 0 end)) in Hd.
    subst n'. cbn [entry data_bytes].
    rewrite be_int_be_bytes by (change (256 ^ Z.of_nat 8) with (2 ^ 64); lia).
    split; reflexivity.
Qed.

Lemma pack_out_of_range (w : nat) (n : Z) :
  ~ (0 <= n < 256 ^ Z.of_nat w) -> pack w n = Raise StructError.
Proof.
  intros H. unfold pack.
  destruct (Z.leb_spec 0 n), (Z.ltb_spec n (256 ^ Z.of_nat w)); simpl;
    try reflexivity; lia.
Qed.

(** X3.  For the three numeric tags a value that [struct.pack] cannot
    encode (a negative integer, one past the width, or a [str]) makes the
    constructor raise [struct.error], not the [ValueError] of a refused
    value. *)
Theorem numeric_unpackable_raises_struct_error :
  (forall n, ~ (0 <= n < 2 ^ 64) ->
             DataEntry_init (PInt n) Type_.amount = Raise StructError
             /\ DataEntry_init (PInt n) Type_.timestamp = Raise StructError)
  /\ (forall n, ~ (0 <= n < 2 ^ 32) ->
                DataEntry_init (PInt n) Type_.int32 = Raise StructError)
  /\ (forall s, DataEntry_init (PStr s) Type_.amount = Raise StructError
                /\ DataEntry_init (PStr s) Type_.int32 = Raise StructError
                /\ DataEntry_init (PStr s) Type_.timestamp = Raise StructError).
Proof.
  repeat apply conj.
  - intros n Hn. unfold DataEntry_init, check_data_type.
    split; run_tags; cbv iota; cbn [pack_val bind negb];
      rewrite pack_out_of_range by exact Hn; reflexivity.
  - intros n Hn. unfold DataEntry_init, check_data_type.
    run_tags; cbv iota; cbn [pack_val bind negb].
    rewrite pack_out_of_range by exact Hn. reflexivity.
  - intros s. repeat split; reflexivity.
Qed.

Lemma serialize_array_too_long (b : pybytes) :
  65536 <= len b -> Deser.serialize_array (ABytes b) = Raise StructError.
Proof.
  intros H. unfold Deser.serialize_array.
  rewrite pack_out_of_range by (change (256 ^ Z.of_nat 2) with 65536; lia).
  reflexivity.
Qed.

Lemma short_text_check (body : pybytes) :
  len body < 65536 ->
  (h <- unpack 2 (slice (be_bytes 2 (len body) ++ body) 0 2) ;;
   Return ((h + 2 =? len (be_bytes 2 (len body) ++ body))
           && (length (be_bytes 2 (len body) ++ body)
               <=? Type_.max_short_text_size + 2)%nat))
  = Return (length body <=? 140)%nat.
Proof.
  intros Hb.
  rewrite (slice_prefix (be_bytes 2 (len body)) body 2)
    by (rewrite length_be_bytes; reflexivity).
  rewrite unpack_be_bytes by (apply small_range; exact Hb). cbn [bind].
  f_equal.
  replace (len body + 2 =? len (be_bytes 2 (len body) ++ body)) with true
    by (symmetry; apply Z.eqb_eq; unfold len; rewrite length_app, length_be_bytes; lia).
  rewrite length_app, length_be_bytes. unfold Type_.max_short_text_size.
  cbn [andb]. destruct (Nat.leb_spec (length body) 140), (Nat.leb_spec (2 + length body) (140 + 2));
    try reflexivity; lia.
Qed.

(** X4.  The constructor on a ShortText, by the length of the encoded body:
    up to 140 bytes it returns the entry whose payload is the two-byte
    length and the body; from 141 to 65535 bytes it raises [ValueError];
    from 65536 bytes on the length prefix cannot be packed and the
    [struct.error] escapes. *)
Theorem short_text_by_length (s : pystr) (body : pybytes) :
  encode_latin1 s = Return body ->
  ((length body <= 140)%nat ->
   DataEntry_init (PStr s) Type_.short_text
   = Return (entry (PStr s) Type_.short_text "short_text"
               (be_bytes 2 (len body) ++ body)))
  /\ ((140 < length body)%nat -> len body < 65536 ->
      DataEntry_init (PStr s) Type_.short_text = Raise ValueError)
  /\ (65536 <= len body ->
      DataEntry_init (PStr s) Type_.short_text = Raise StructError).
Proof.
  intros Hs. repeat apply conj.
  - intros Hl. apply shape_init. eapply shape_short_text; [reflexivity | exact Hs | exact Hl].
  - intros Hl Hb. unfold DataEntry_init, check_data_type. run_tags. cbv iota.
    cbn [str2bytes]. rewrite Hs. cbn [bind].
    rewrite serialize_array_bytes by exact Hb. cbn [bind]. unfold frame.
    rewrite short_text_check by exact Hb. cbn [bind].
    destruct (Nat.leb_spec (length body) 140); [lia | reflexivity].
  - intros Hb. unfold DataEntry_init, check_data_type. run_tags. cbv iota.
    cbn [str2bytes]. rewrite Hs. cbn [bind].
    rewrite serialize_array_too_long by exact Hb. reflexivity.
Qed.

(** X5.  What cannot be encoded as Latin-1 is not a ShortText: a text with a
    code point above 255 makes the constructor raise [UnicodeEncodeError],
    and an integer, which has no [encode], [AttributeError]. *)
Theorem short_text_unencodable (d : pyval) (e : exn) :
  str2bytes d = Raise e ->
  DataEntry_init d Type_.short_text = Raise e
  /\ (e = UnicodeEncodeError \/ e = AttributeError).
Proof.
  intros H. split.
  - unfold DataEntry_init, check_data_type. run_tags. cbv iota. rewrite H. reflexivity.
  - destruct d as [n|s]; cbn [str2bytes] in H.
    + right. congruence.
    + left. revert e H. induction s as [|c s IH]; intros e H; cbn [encode_latin1] in H.
      * discriminate.
      * destruct (Byte.of_N c); [|congruence].
        destruct (encode_latin1 s) as [r|e']; cbn [bind] in H; [discriminate|].
        injection H as <-. apply IH. reflexivity.
Qed.

(** X6.  A PublicKey (an Address) is constructed exactly when the codec
    decodes the data to 32 (26) bytes; a decoding of another length is
    refused with [ValueError], and an exception of the codec leaves the
    constructor unchanged. *)
Theorem key_and_address_by_decoding (d : pyval) :
  (forall b, b58decode d = Return b ->
     (length b = 32%nat ->
      DataEntry_init d Type_.public_key
      = Return (entry d Type_.public_key "public_key" b))
     /\ (length b <> 32%nat -> DataEntry_init d Type_.public_key = Raise ValueError)
     /\ (length b = 26%nat ->
         DataEntry_init d Type_.address = Return (entry d Type_.address "address" b))
     /\ (length b <> 26%nat -> DataEntry_init d Type_.address = Raise ValueError))
  /\ (forall e, b58decode d = Raise e ->
        DataEntry_init d Type_.public_key = Raise e
        /\ DataEntry_init d Type_.address = Raise e).
Proof.
  split.
  - intros b Hb. repeat apply conj.
    + intros Hl. apply shape_init. apply shape_public_key; assumption.
    + intros Hl. unfold DataEntry_init, check_data_type. run_tags. cbv iota.
      rewrite Hb. cbn [bind]. unfold Type_.key_length.
      destruct (Nat.eqb_spec (length b) 32); [contradiction | reflexivity].
    + intros Hl. apply shape_init. apply shape_address; assumption.
    + intros Hl. unfold DataEntry_init, check_data_type. run_tags. cbv iota.
      rewrite Hb. cbn [bind]. unfold Type_.address_length.
      destruct (Nat.eqb_spec (length b) 26); [contradiction | reflexivity].
  - intros e He. unfold DataEntry_init, check_data_type.
    split; run_tags; cbv iota; rewrite He; reflexivity.
Qed.

(** X7.  The type check has no branch for ContractAccount and TokenId: the
    constructor accepts whatever the codec decodes, of any length, and the
    payload is the decoded bytes. *)
Theorem account_and_token_unchecked (d : pyval) :
  (forall b, b58decode d = Return b ->
     DataEntry_init d Type_.contract_account
     = Return (entry d Type_.contract_account "contract_account" b)
     /\ DataEntry_init d Type_.token_id
        = Return (entry d Type_.token_id "token_id" b))
  /\ (forall e, b58decode d = Raise e ->
        DataEntry_init d Type_.contract_account = Raise e
        /\ DataEntry_init d Type_.token_id = Raise e).
Proof.
  split.
  - intros b Hb. split; apply shape_init; constructor; exact Hb.
  - intros e He. unfold DataEntry_init, check_data_type.
    split; run_tags; cbv iota; cbn [bind negb]; rewrite He; reflexivity.
Qed.

Lemma shape_handled d t name b : shape d t name b -> handled_tag t = true.
Proof. destruct 1; reflexivity. Qed.

(** X8.  What every constructed entry satisfies: its bytes are one tag
    byte, which is one the decoder dispatches on, followed by the payload. *)
Theorem constructed_entry_layout (e : DataEntry) :
  constructed e ->
  handled_tag (slice (bytes e) 0 1) = true
  /\ bytes e = slice (bytes e) 0 1 ++ data_bytes e
  /\ skipn 1 (bytes e) = data_bytes e
  /\ length (bytes e) = S (length (data_bytes e)).
Proof.
  intros (d & t & Hi). apply DataEntry_init_inv in Hi.
  destruct Hi as (name & b & Hs & ->). cbn [entry bytes data_bytes].
  pose proof (tag_length _ _ _ _ Hs) as Ht.
  rewrite (slice_prefix t b 1) by (symmetry; exact Ht).
  rewrite (skipn_decomp (t ++ b) t b 1) by auto.
  rewrite length_app, Ht. repeat split. eapply shape_handled; eassumption.
Qed.

End ConstructorCases.

(** ** The decoders *)

Section Decoders.
Context {base58 : Base58}.

(** X9.  [data_entry_from_bytes] inverts the constructor on one valid
    entry: the bytes of the entry decode to the entry. *)
Theorem data_entry_from_bytes_roundtrip (e : DataEntry) :
  valid_entry e -> data_entry_from_bytes (bytes e) = Return (Some e).
Proof.
  intros Hv.
  destruct (valid_entry_shape e Hv) as (d & t & name & b & Hs & Hi & He & _ & Hc).
  subst e. cbn [bytes entry]. eapply data_entry_from_bytes_entry; eauto.
Qed.

(** X10.  The edges of [data_entry_from_bytes]: the empty input raises
    [ValueError]; a non-empty input whose first byte is not one of the eight
    tags raises nothing and returns [None]. *)
Theorem data_entry_from_bytes_edges :
  data_entry_from_bytes [] = Raise ValueError
  /\ (forall b, b <> [] -> handled_tag (slice b 0 1) = false ->
                data_entry_from_bytes b = Return None).
Proof.
  split; [reflexivity|].
  intros b Hb H. unfold data_entry_from_bytes.
  destruct b as [|x b]; [contradiction|]. cbn [length Nat.eqb].
  unfold handled_tag in H.
  repeat (apply orb_false_iff in H; destruct H as [H ?]).
  repeat match goal with E : (_ == _) = false |- _ => rewrite E; clear E end.
  reflexivity.
Qed.

Lemma data_entry_from_bytes_Some (x : pybytes) (o : option DataEntry) :
  data_entry_from_bytes x = Return o ->
  handled_tag (slice x 0 1) = true ->
  exists e, o = Some e /\ constructed e.
Proof.
  unfold data_entry_from_bytes, handled_tag. intros H Hh.
  destruct (length x =? 0)%nat; [discriminate|].
  repeat match type of H with
    | (if ?c then _ else _) = _ =>
        destruct c eqn:?;
        [ repeat bind_inv H; ret_inj H; eexists; split; [reflexivity|];
          do 2 eexists; eassumption
        | ]
    end.
  repeat match goal with E : (_ == _) = false |- _ => rewrite E in Hh; clear E end.
  discriminate.
Qed.

Lemma slice_slice_head {A : Type} (b : list A) (p k : nat) :
  slice (slice b p (p + S k)) 0 1 = slice b p (p + 1).
Proof.
  unfold slice. rewrite Nat.sub_0_r. cbn [skipn].
  replace (p + S k - p)%nat with (S k) by lia.
  replace (p + 1 - p)%nat with 1%nat by lia.
  rewrite firstn_firstn. reflexivity.
Qed.

Lemma parse_data_entry_array_size_Some (b : pybytes) (pos : nat) o p :
  parse_data_entry_array_size b pos = Return (Some (o, p)) ->
  exists e, o = Some e /\ constructed e.
Proof.
  unfold parse_data_entry_array_size, fixed_branch. intros H.
  assert (Hh : forall k, handled_tag (slice b pos (pos + 1)) = true ->
                         handled_tag (slice (slice b pos (pos + S k)) 0 1) = true).
  { intros k Hk. rewrite slice_slice_head. exact Hk. }
  repeat match type of H with
    | (if ?c then _ else _) = _ =>
        destruct c eqn:?;
        [ repeat bind_inv H; apply Return_inj in H; injection H as <- <-;
          match goal with
          | E : data_entry_from_bytes (slice _ _ _) = Return _ |- _ =>
              eapply (data_entry_from_bytes_Some _ _ E)
          end
        | ]
    end; try discriminate.
  all: try match goal with
    | |- handled_tag (slice (slice _ ?p (?p + ?n + 1)) 0 1) = true =>
        replace (p + n + 1)%nat with (p + S n)%nat by lia
    | |- handled_tag (slice (slice _ ?p (?p + ?n + 3)) 0 1) = true =>
        replace (p + n + 3)%nat with (p + S (n + 2))%nat by lia
    end.
  all: apply Hh; unfold handled_tag;
    repeat match goal with E : (_ == _) = _ |- _ => rewrite E; clear E end;
    reflexivity.
Qed.

Lemma data_entries_loop_result (n : nat) (b : pybytes) (pos : nat) l :
  data_entries_loop n b pos = Return l ->
  length l = n /\ Forall (fun o => exists e, o = Some e /\ constructed e) l.
Proof.
  revert pos l. induction n as [|n IH]; intros pos l H; cbn [data_entries_loop] in H.
  - ret_inj H. split; [reflexivity | constructor].
  - bind_inv H. destruct a as [[o p]|]; [|discriminate].
    bind_inv H. ret_inj H.
    destruct (IH _ _ E0) as [Hl Hf]. split; [cbn [length]; congruence|].
    constructor; [|exact Hf]. eapply parse_data_entry_array_size_Some; eassumption.
Qed.

(** X11.  Whatever [data_entries_from_bytes] returns has as many elements as
    the first two bytes declare, and every element is an entry that the
    constructor returned: no [None] gets into the list. *)
Theorem data_entries_from_bytes_result (b : pybytes) (l : list (option DataEntry)) :
  data_entries_from_bytes b = Return l ->
  exists n, unpack 2 (slice b 0 2) = Return n
            /\ length l = Z.to_nat n
            /\ Forall (fun o => exists e, o = Some e /\ constructed e) l.
Proof.
  unfold data_entries_from_bytes. intros H. bind_inv H.
  exists a. split; [reflexivity|]. eapply data_entries_loop_result; eassumption.
Qed.

(** X12.  Short and empty lists: an input of fewer than two bytes raises
    [struct.error]; a declared count of zero returns the empty list whatever
    follows the count. *)
Theorem data_entries_from_bytes_short_and_empty :
  (forall b, (length b < 2)%nat -> data_entries_from_bytes b = Raise StructError)
  /\ (forall t, data_entries_from_bytes (be_bytes 2 0 ++ t) = Return []).
Proof.
  split.
  - intros b Hb. unfold data_entries_from_bytes, unpack, slice.
    cbn [skipn]. rewrite length_firstn.
    destruct (Nat.eqb_spec (Nat.min (2 - 0) (length b)) 2); [lia | reflexivity].
  - intros t. reflexivity.
Qed.

Lemma data_entries_loop_exhausted xs :
  Forall valid_entry xs ->
  forall pre k,
    data_entries_loop (length xs + S k) (pre ++ concat (map bytes xs)) (length pre)
    = Raise TypeError.
Proof.
  induction 1 as [|x xs Hx _ IH]; intros pre k.
  - cbn [length map concat Nat.add data_entries_loop]. rewrite app_nil_r.
    rewrite parse_unhandled; [reflexivity|].
    unfold slice. rewrite skipn_all, firstn_nil. reflexivity.
  - cbn [length map concat Nat.add data_entries_loop].
    pose proof (valid_entry_parse pre (concat (map bytes xs)) x Hx) as Hp.
    rewrite Hp. cbn [bind].
    rewrite app_assoc, <- length_app. rewrite IH. reflexivity.
Qed.

(** X13.  A count that declares more entries than the buffer holds: after
    the valid entries the dispatcher finds no tag, returns [None], and the
    decode raises [TypeError]; none of the entries read so far is
    returned. *)
Theorem data_entries_from_bytes_overdeclared (xs : list DataEntry) (n : Z) :
  Forall valid_entry xs ->
  len xs < n < 65536 ->
  data_entries_from_bytes (be_bytes 2 n ++ concat (map bytes xs)) = Raise TypeError.
Proof.
  intros Hv Hn. unfold data_entries_from_bytes.
  rewrite (slice_prefix (be_bytes 2 n) _ 2) by (rewrite length_be_bytes; reflexivity).
  rewrite unpack_be_bytes by (unfold len in *; change (256 ^ Z.of_nat 2) with 65536; lia).
  cbn [bind].
  replace (Z.to_nat n) with (length xs + S (Z.to_nat n - length xs - 1))%nat
    by (unfold len in *; lia).
  rewrite <- (length_be_bytes 2 n) at 2.
  apply data_entries_loop_exhausted. exact Hv.
Qed.

Lemma map_Some_inj {A : Type} (xs ys : list A) : map Some xs = map Some ys -> xs = ys.
Proof.
  revert ys. induction xs as [|x xs IH]; intros [|y ys] H; try discriminate.
  - reflexivity.
  - cbn [map] in H. injection H as -> H. f_equal. apply IH. exact H.
Qed.

(** X14.  [serialize_data] is injective on valid lists: two lists of valid
    entries with the same serialization are the same list. *)
Theorem serialize_data_injective (xs ys : list DataEntry) (b : pybytes) :
  Forall valid_entry xs -> Forall valid_entry ys ->
  serialize_data (EntryList xs) = Return b ->
  serialize_data (EntryList ys) = Return b ->
  xs = ys.
Proof.
  intros Hx Hy Ex Ey.
  apply serialize_data_Return in Ex, Ey.
  destruct Ex as [Hnx ->], Ey as [Hny Hb].
  pose proof (decode_serialized xs [] Hx Hnx) as Dx.
  pose proof (decode_serialized ys [] Hy Hny) as Dy.
  rewrite Hb, Dy in Dx. apply map_Some_inj. congruence.
Qed.

(** X15.  [data_entry_from_base58_str] after printing: when the codec
    decodes the text it printed for the serialization of valid entries back
    to those bytes, [data_entry_from_base58_str] returns the entries. *)
Theorem data_entry_from_base58_str_roundtrip (xs : list DataEntry) (b : pybytes) :
  Forall valid_entry xs ->
  serialize_data (EntryList xs) = Return b ->
  b58decode (PStr (bytes2str (b58encode b))) = Return b ->
  data_entry_from_base58_str (PStr (bytes2str (b58encode b))) = Return (map Some xs).
Proof.
  intros Hv Hb Hc. unfold data_entry_from_base58_str. rewrite Hc. cbn [bind].
  apply serialize_data_Return in Hb. destruct Hb as [Hn ->].
  rewrite <- (app_nil_r (_ ++ _)). apply decode_serialized; assumption.
Qed.

End Decoders.

(** ** The opcode frame, for any lists *)

(** X16.  The layout of what [list_opc_gen] returns, for any two lists: the
    declared length, the count [len(ids)], then the instructions of
    [zip(ids, index_input)]; the declared length is the claimed sum and the
    number of bytes that follow it. *)
Theorem list_opc_gen_layout (ids index_input : list pybytes) (f : pybytes) :
  list_opc_gen ids index_input = Return f ->
  f = be_bytes 2 (claimed_length ids index_input) ++ be_bytes 2 (len ids)
      ++ concat (map instruction (combine ids index_input))
  /\ claimed_length ids index_input = len (skipn 2 f)
  /\ 0 <= claimed_length ids index_input < 65536.
Proof.
  intros H. pose proof (list_opc_gen_declares _ _ _ H) as (L & _ & HL & HL').
  apply list_opc_gen_Return in H. destruct H as [Hn ->].
  split; [rewrite <- opc_sum_claimed; reflexivity|].
  split; [rewrite <- HL; exact HL'|].
  rewrite <- opc_sum_claimed. exact Hn.
Qed.

(** X17.  The count field is [len(ids)] whatever [index_input] is: when
    [index_input] is the shorter list, [zip] drops the opcodes without an
    index and the frame declares more instructions than it holds. *)
Theorem list_opc_gen_count_mismatch (ids index_input : list pybytes) (f : pybytes) :
  list_opc_gen ids index_input = Return f ->
  (length index_input < length ids)%nat ->
  unpack 2 (slice f 2 4) = Return (len ids)
  /\ skipn 4 f = concat (map instruction (combine ids index_input))
  /\ length (combine ids index_input) = length index_input
  /\ (length (combine ids index_input) < length ids)%nat.
Proof.
  intros H Hl. unfold list_opc_gen in H.
  bind_inv H. apply pack_Return in E. destruct E as [Hs ->].
  bind_inv H. apply pack_Return in E. destruct E as [Hc ->].
  bind_inv H. apply sequence_instructions in E. subst. ret_inj H.
  split; [|split; [|split]].
  - rewrite (slice_decomp _ (be_bytes 2 (opc_sum ids index_input + 2))
               (be_bytes 2 (len ids)) _ 2 4)
      by (reflexivity || (rewrite length_be_bytes; reflexivity)).
    apply unpack_be_bytes. exact Hc.
  - rewrite app_assoc. apply skipn_app_exact.
    rewrite length_app, !length_be_bytes. reflexivity.
  - rewrite length_combine. lia.
  - rewrite length_combine. lia.
Qed.

Lemma len_nonneg {A : Type} (l : list A) : 0 <= len l.
Proof. unfold len. lia. Qed.

Lemma opc_terms_cons (x : pybytes * pybytes) (l : list (pybytes * pybytes)) :
  opc_terms (x :: l) = len (fst x ++ snd x) + 2 + opc_terms l.
Proof. reflexivity. Qed.

Lemma opc_terms_nonneg (l : list (pybytes * pybytes)) : 0 <= opc_terms l.
Proof.
  induction l as [|x l IH]; [unfold opc_terms; simpl; lia|].
  rewrite opc_terms_cons. pose proof (len_nonneg (fst x ++ snd x)). lia.
Qed.

Lemma opc_terms_In (x : pybytes * pybytes) (l : list (pybytes * pybytes)) :
  In x l -> len (fst x ++ snd x) + 2 <= opc_terms l.
Proof.
  induction l as [|y l IH]; intros Hin; [contradiction|].
  rewrite opc_terms_cons. pose proof (opc_terms_nonneg l).
  pose proof (len_nonneg (fst y ++ snd y)).
  destruct Hin as [-> | Hin]; [lia | specialize (IH Hin); lia].
Qed.

Lemma sequence_instructions_ok (l : list (pybytes * pybytes)) :
  opc_terms l < 65536 ->
  sequence (map (fun x => h <- pack 2 (len (fst x ++ snd x)) ;;
                          Return (h ++ fst x ++ snd x)) l)
  = Return (map instruction l).
Proof.
  induction l as [|x l IH]; intros H; [reflexivity|].
  rewrite opc_terms_cons in H.
  pose proof (opc_terms_nonneg l) as Hs.
  pose proof (len_nonneg (fst x ++ snd x)) as Hx.
  assert (Hr : 0 <= len (fst x ++ snd x) < 256 ^ Z.of_nat 2)
    by (change (256 ^ Z.of_nat 2) with 65536; lia).
  cbn [map sequence].
  rewrite pack_ok by exact Hr.
  cbn [bind]. rewrite IH by lia. reflexivity.
Qed.

Lemma list_opc_gen_ok (ids index_input : list pybytes) :
  opc_sum ids index_input + 2 < 65536 -> len ids < 65536 ->
  list_opc_gen ids index_input
  = Return (be_bytes 2 (opc_sum ids index_input + 2) ++ be_bytes 2 (len ids)
            ++ concat (map instruction (combine ids index_input))).
Proof.
  intros Hs Hc. unfold list_opc_gen.
  change (opc_sum ids index_input) with (opc_terms (combine ids index_input)) in *.
  pose proof (opc_terms_nonneg (combine ids index_input)) as H0.
  rewrite pack_ok by (change (256 ^ Z.of_nat 2) with 65536; lia). cbn [bind].
  rewrite pack_ok by (apply small_range; exact Hc). cbn [bind].
  rewrite sequence_instructions_ok by lia.
  reflexivity.
Qed.

(** X18.  When [list_opc_gen] returns: exactly when the declared length and
    the count fit two bytes, that is, the sum over the instructions plus 2
    is below 65536 and so is [len(ids)]; otherwise it raises
    [struct.error]. *)
Theorem list_opc_gen_bounds (ids index_input : list pybytes) :
  ((exists f, list_opc_gen ids index_input = Return f)
   <-> claimed_length ids index_input < 65536 /\ len ids < 65536)
  /\ (~ (claimed_length ids index_input < 65536 /\ len ids < 65536) ->
      list_opc_gen ids index_input = Raise StructError).
Proof.
  rewrite <- opc_sum_claimed. split; [split|].
  - intros [f H]. unfold list_opc_gen in H.
    bind_inv H. apply pack_Return in E. destruct E as [Hs _].
    bind_inv H. apply pack_Return in E. destruct E as [Hc _].
    change (256 ^ Z.of_nat 2) with 65536 in *. lia.
  - intros [Hs Hc]. eexists. apply list_opc_gen_ok; assumption.
  - intros Hn. unfold list_opc_gen.
    destruct (Z.lt_ge_cases (opc_sum ids index_input + 2) 65536) as [Hs|Hs].
    + assert (H0 : 0 <= opc_sum ids index_input)
        by apply (opc_terms_nonneg (combine ids index_input)).
      rewrite pack_ok by (change (256 ^ Z.of_nat 2) with 65536; lia). cbn [bind].
      rewrite pack_out_of_range by (change (256 ^ Z.of_nat 2) with 65536; lia).
      reflexivity.
    + rewrite pack_out_of_range by (change (256 ^ Z.of_nat 2) with 65536; lia).
      reflexivity.
Qed.

Lemma joined_wire (ids idx : list pybytes) :
  concat (map frame (joined ids idx)) = concat (map instruction (combine ids idx)).
Proof. unfold joined. rewrite map_map. reflexivity. Qed.

Lemma joined_size (ids idx : list pybytes) :
  framed_size (joined ids idx) = opc_sum ids idx + 2.
Proof.
  unfold framed_size, joined.
  change (opc_sum ids idx) with (opc_terms (combine ids idx)).
  rewrite (Z.add_comm (opc_terms _)). f_equal.
  induction (combine ids idx) as [|x l IH]; [reflexivity|].
  rewrite opc_terms_cons. cbn [map fold_right]. rewrite IH.
  rewrite (Z.add_comm 2 (len _)). reflexivity.
Qed.

Lemma bytes_builder_section (l : list pybytes) :
  bytes_builder_from_list (AList l) = (r <- section_frame l ;; Return (Some r, [])).
Proof.
  unfold bytes_builder_from_list, section_frame.
  destruct (Deser.serialize_arrays l); reflexivity.
Qed.

(** X19.  With lists of equal length the opcode frame is an ordinary framed
    section: [list_opc_gen] returns a frame exactly when
    [bytes_builder_from_list] returns it for the list of the joined pairs
    [x[0] + x[1]]. *)
Theorem list_opc_gen_is_section (ids index_input : list pybytes) (f : pybytes) :
  length ids = length index_input ->
  (list_opc_gen ids index_input = Return f
   <-> bytes_builder_from_list (AList (joined ids index_input)) = Return (Some f, [])).
Proof.
  intros Hl.
  assert (Hlen : len (joined ids index_input) = len ids).
  { unfold len, joined. rewrite length_map, length_combine. lia. }
  assert (Hfwd : forall f', list_opc_gen ids index_input = Return f' ->
                            section_frame (joined ids index_input) = Return f').
  { intros f' H. unfold list_opc_gen in H.
    bind_inv H. apply pack_Return in E. destruct E as [Hs ->].
    bind_inv H. apply pack_Return in E. destruct E as [Hc ->].
    bind_inv H. apply sequence_instructions in E. subst. ret_inj H.
    change (256 ^ Z.of_nat 2) with 65536 in *.
    rewrite section_frame_ok.
    - unfold frame. rewrite len_framed, joined_size, Hlen, joined_wire. reflexivity.
    - split; [split|].
      + lia.
      + unfold joined. apply Forall_forall. intros e He.
        apply in_map_iff in He. destruct He as (x & <- & Hx).
        pose proof (opc_terms_In x (combine ids index_input) Hx) as Hb.
        change (opc_sum ids index_input) with (opc_terms (combine ids index_input)) in Hs.
        assert (Hg : forall v, v + 2 <= opc_terms (combine ids index_input) -> v < 65536)
          by (intros v Hv; lia).
        exact (Hg _ Hb).
      + rewrite joined_size. lia. }
  rewrite bytes_builder_section.
  split.
  - intros H. rewrite (Hfwd _ H). reflexivity.
  - intros H. destruct (section_frame (joined ids index_input)) as [r|e] eqn:E;
      cbn [bind] in H; [|discriminate].
    apply Return_inj in H. injection H as ->.
    apply section_frame_inv in E. destruct E as [[[Hc _] Hs] ->].
    rewrite joined_size in Hs. rewrite Hlen in Hc.
    pose proof (list_opc_gen_ok ids index_input Hs Hc) as Hok.
    pose proof (Hfwd _ Hok) as Hsec.
    rewrite Hok. symmetry. exact Hsec.
Qed.

(** ** The generated functions of [ContractDefaults] *)

(** The parts of a generated function: all four arguments of [func_gen]
    were computed, and the descriptor is their concatenation. *)
Lemma fun_gen_parts (idr : result pybytes) (ft : option pybytes)
    (ret para : proto_arg) (ids idx : list pybytes) (d : pybytes) :
  (fun_idx <- idr ;;
   proto_type <- proto_type_gen ret para ;;
   list_opc <- list_opc_gen ids idx ;;
   func_gen fun_idx ft proto_type list_opc) = Return d ->
  exists a t p l,
    idr = Return a /\ ft = Some t /\ proto_type_gen ret para = Return p
    /\ list_opc_gen ids idx = Return l /\ d = a ++ t ++ p ++ l.
Proof.
  intros H. bind_inv H. bind_inv H. bind_inv H.
  unfold func_gen in H. destruct ft as [t|]; [|discriminate]. ret_inj H.
  exists a, t, a0, a1. repeat split; reflexivity.
Qed.

Lemma sequence_Forall2 {A : Type} (l : list (result A)) (r : list A) :
  sequence l = Return r -> Forall2 (fun m a => m = Return a) l r.
Proof.
  revert r. induction l as [|m l IH]; intros r H; cbn [sequence] in H.
  - ret_inj H. constructor.
  - destruct m as [a|e]; cbn [bind] in H; [|discriminate].
    destruct (sequence l) as [r'|e]; cbn [bind] in H; [|discriminate].
    ret_inj H. constructor; [reflexivity | apply IH; reflexivity].
Qed.

(** The id of a generated function is the integer that was packed. *)
Lemma fun_gen_id (n : Z) (ft : option pybytes) (ret para : proto_arg)
    (ids idx : list pybytes) (d : pybytes) :
  (fun_idx <- pack 2 n ;;
   proto_type <- proto_type_gen ret para ;;
   list_opc <- list_opc_gen ids idx ;;
   func_gen fun_idx ft proto_type list_opc) = Return d ->
  descriptor_id d = n /\ 0 <= n < 65536.
Proof.
  intros H. apply fun_gen_parts in H.
  destruct H as (a & t & p & l & Ha & _ & _ & _ & ->).
  apply pack_Return in Ha. destruct Ha as [Hn ->].
  unfold descriptor_id.
  rewrite firstn_app, length_be_bytes, Nat.sub_diag, firstn_all2
    by (rewrite length_be_bytes; lia).
  cbn [firstn]. rewrite app_nil_r. split; [apply be_int_be_bytes; exact Hn | exact Hn].
Qed.

Ltac invert_sequence H :=
  apply sequence_Forall2 in H;
  repeat match type of H with
    | Forall2 _ (_ :: _) _ =>
        let d := fresh "d" in let Hd := fresh "Hd" in let Hr := fresh "Hr" in
        inversion H as [|? d ? ? Hd Hr]; subst; clear H; rename Hr into H
    | Forall2 _ [] _ => inversion H; subst; clear H
    end.

(** X20.  The generated lists carry the function ids of [ContractMeta] in
    the order of the source: twelve descriptors with [split], eleven
    without, one trigger; the first two bytes of each are its id, which is
    below 65536. *)
Theorem catalog_function_ids (M : ContractMeta.t) :
  (forall ds, ContractDefaults.descriptor_with_split M = Return ds ->
              map descriptor_id ds = ids_with_split M
              /\ Forall (fun n => 0 <= n < 65536) (ids_with_split M))
  /\ (forall ds, ContractDefaults.descriptor_without_split M = Return ds ->
                 map descriptor_id ds = ids_without_split M
                 /\ Forall (fun n => 0 <= n < 65536) (ids_without_split M))
  /\ (forall ds, ContractDefaults.trigger M = Return ds ->
                 map descriptor_id ds = [ContractMeta.init M]).
Proof.
  repeat apply conj; intros ds H; unfold ContractDefaults.descriptor_with_split,
    ContractDefaults.descriptor_without_split, ContractDefaults.trigger in H;
    invert_sequence H;
    repeat match goal with
      | Hd : _ = Return _ |- _ => apply fun_gen_id in Hd; destruct Hd as [? ?]
      end;
    cbn [map]; unfold ids_with_split, ids_without_split;
    repeat split; repeat (constructor; try assumption); congruence.
Qed.

(** Two generated functions that differ in the id only have the same bytes
    after the id. *)
Lemma fun_gen_tail (n n' : Z) (ft : option pybytes) (ret para : proto_arg)
    (ids idx : list pybytes) (d d' : pybytes) :
  (fun_idx <- pack 2 n ;;
   proto_type <- proto_type_gen ret para ;;
   list_opc <- list_opc_gen ids idx ;;
   func_gen fun_idx ft proto_type list_opc) = Return d ->
  (fun_idx <- pack 2 n' ;;
   proto_type <- proto_type_gen ret para ;;
   list_opc <- list_opc_gen ids idx ;;
   func_gen fun_idx ft proto_type list_opc) = Return d' ->
  skipn 2 d' = skipn 2 d.
Proof.
  intros H H'. apply fun_gen_parts in H, H'.
  destruct H as (a & t & p & l & Ha & Ht & Hp & Hl & ->).
  destruct H' as (a' & t' & p' & l' & Ha' & Ht' & Hp' & Hl' & ->).
  apply pack_2_length in Ha, Ha'.
  rewrite (skipn_app_exact a _ 2), (skipn_app_exact a' _ 2) by (symmetry; assumption).
  congruence.
Qed.

(** X21.  The two families agree: each function of
    [descriptor_without_split] has, after its two-byte id, the bytes of the
    function of the same name in [descriptor_with_split], which has [split]
    as its fourth element besides. *)
Theorem without_split_matches_with_split (M : ContractMeta.t)
    (ds ds' : list pybytes) :
  ContractDefaults.descriptor_with_split M = Return ds ->
  ContractDefaults.descriptor_without_split M = Return ds' ->
  length ds = 12%nat /\ length ds' = 11%nat
  /\ map (skipn 2) ds' = map (skipn 2) (firstn 3 ds ++ skipn 4 ds).
Proof.
  intros H H'. unfold ContractDefaults.descriptor_with_split in H.
  unfold ContractDefaults.descriptor_without_split in H'.
  invert_sequence H. invert_sequence H'.
  split; [reflexivity|]. split; [reflexivity|].
  set (tail := skipn 2). cbn [firstn skipn app map]. subst tail.
  repeat match goal with
    | |- _ :: _ = _ :: _ => f_equal
    end; try reflexivity.
  all: match goal with
    | |- skipn 2 ?x = skipn 2 ?y =>
        match goal with
        | Hx : _ = Return x, Hy : _ = Return y |- _ =>
            eapply fun_gen_tail; [exact Hy | exact Hx]
        end
    end.
Qed.

Lemma all_bytes_None (l : list (option pybytes)) (r : list pybytes) :
  all_bytes l = Return r -> ~ In None l.
Proof.
  revert r. induction l as [|o l IH]; intros r H Hin; [contradiction|].
  destruct o as [b|]; cbn [all_bytes] in H; [|discriminate].
  destruct (all_bytes l) as [r'|] eqn:E; cbn [bind] in H; [|discriminate].
  destruct Hin as [Hin | Hin]; [discriminate | exact (IH _ eq_refl Hin)].
Qed.

Lemma proto_type_gen_None (ret : proto_arg) (l : list (option pybytes)) (p : pybytes) :
  proto_type_gen ret (PList l) = Return p -> ~ In None l.
Proof.
  unfold proto_type_gen. intros H. bind_inv H. bind_inv H. bind_inv E0.
  cbn [to_array_arg] in E1. bind_inv E1. eapply all_bytes_None; eassumption.
Qed.

(** X22.  A missing key stops the generation: [dict.get] returns [None],
    and neither a function type that is [None] nor a parameter type that is
    [None] can be joined.  Without the key "public" of [function_type_map],
    or without the key "Amount" of [data_type_list], neither descriptor list
    is generated; without "onInit" or "Amount" the trigger is not. *)
Theorem missing_key_stops_generation (M : ContractMeta.t) :
  (ContractMeta.function_type_map M "public" = None \/
   ContractMeta.data_type_list M "Amount" = None ->
   forall ds, ContractDefaults.descriptor_with_split M <> Return ds
              /\ ContractDefaults.descriptor_without_split M <> Return ds)
  /\ (ContractMeta.function_type_map M "onInit" = None \/
      ContractMeta.data_type_list M "Amount" = None ->
      forall ds, ContractDefaults.trigger M <> Return ds).
Proof.
  split.
  - intros Hk ds. split; intros H;
      unfold ContractDefaults.descriptor_with_split,
        ContractDefaults.descriptor_without_split in H;
      invert_sequence H;
      destruct Hk as [Hk | Hk].
    + apply fun_gen_parts in Hd. destruct Hd as (a & t & p & l & _ & Ht & _).
      congruence.
    + apply fun_gen_parts in Hd0. destruct Hd0 as (a & t & p & l & _ & _ & Hp & _).
      apply proto_type_gen_None in Hp. apply Hp. rewrite Hk. left. reflexivity.
    + apply fun_gen_parts in Hd. destruct Hd as (a & t & p & l & _ & Ht & _).
      congruence.
    + apply fun_gen_parts in Hd0. destruct Hd0 as (a & t & p & l & _ & _ & Hp & _).
      apply proto_type_gen_None in Hp. apply Hp. rewrite Hk. left. reflexivity.
  - intros Hk ds H. unfold ContractDefaults.trigger in H. invert_sequence H.
    apply fun_gen_parts in Hd. destruct Hd as (a & t & p & l & _ & Ht & Hp & _).
    destruct Hk as [Hk | Hk]; [congruence|].
    apply proto_type_gen_None in Hp. apply Hp. rewrite Hk. left. reflexivity.
Qed.

(** ** More on the contract envelope *)

(** The parse of a serialized valid contract, with anything after it. *)
Lemma from_bytes_serialized (c : Contract) (t : pybytes) :
  valid_contract c ->
  exists b, Contract_bytes c = Return b /\ from_bytes (b ++ t) = Return c.
Proof.
  destruct c as [code ver T D SV SM TX].
  unfold valid_contract. cbn [language_code language_version trigger descriptor
                              state_variable state_map textual].
  intros (Hcode & (v & Hver) & HT & HD & HSV & HSM & HTX & Hone).
  apply pack_Return in Hver. destruct Hver as [_ Hver].
  assert (Hvl : length ver = 4%nat) by (rewrite Hver; apply length_be_bytes).
  unfold ContractMeta.language_code_byte_length in Hcode.
  pose proof (section_ok_wire _ HT) as HT'.
  pose proof (section_ok_wire _ HD) as HD'.
  pose proof (section_ok_wire _ HSV) as HSV'.
  pose proof (section_ok_wire _ HSM) as HSM'.
  unfold Contract_bytes, from_bytes, try_except.
  cbn [language_code language_version trigger descriptor state_variable state_map textual].
  rewrite pack_4_1. cbn [bind].
  rewrite !section_frame_ok by assumption.
  rewrite (serialize_arrays_ok TX) by assumption.
  fold (wire_list T) (wire_list D) (wire_list SV) (wire_list SM) (wire_list TX) in *.
  unfold ContractMeta.language_code_byte_length, ContractMeta.language_version_byte_length.
  destruct (ver == be_bytes 4 1) eqn:Ev.
  - apply bytes_eqb_eq in Ev. specialize (Hone Ev). subst SM.
    cbn [bind]. eexists. split; [reflexivity|].
    repeat rewrite <- app_assoc.
    rewrite (slice_prefix code _ 4) by (symmetry; exact Hcode).
    rewrite (slice_decomp _ code ver _ 4 (4 + 4)) by (reflexivity || lia).
    rewrite (parse_array_size_frame _ (code ++ ver) (wire_list T)
               (frame (wire_list D) ++ frame (wire_list SV) ++ wire_list TX ++ t))
      by (lists || lens || assumption).
    cbn [bind]. unfold wire_list at 1. rewrite parse_arrays_framed_exact by apply HT.
    cbn [bind].
    rewrite (parse_array_size_frame _ (code ++ ver ++ frame (wire_list T)) (wire_list D)
               (frame (wire_list SV) ++ wire_list TX ++ t))
      by (lists || (unfold frame; lens) || assumption).
    cbn [bind]. unfold wire_list at 1. rewrite parse_arrays_framed_exact by apply HD.
    cbn [bind].
    rewrite (parse_array_size_frame _
               (code ++ ver ++ frame (wire_list T) ++ frame (wire_list D))
               (wire_list SV) (wire_list TX ++ t))
      by (lists || (unfold frame; lens) || assumption).
    cbn [bind]. unfold wire_list at 1. rewrite parse_arrays_framed_exact by apply HSV.
    cbn [bind]. rewrite Ev. rewrite bytes_eqb_refl. cbn [bind].
    rewrite (skipn_slice_end _
               (code ++ be_bytes 4 1 ++ frame (wire_list T) ++ frame (wire_list D)
                ++ frame (wire_list SV)) (wire_list TX ++ t))
      by (lists || (unfold frame; lens)).
    change (pack 2 0) with (Return (be_bytes 2 0)). cbn [bind].
    rewrite parse_arrays_empty. cbn [bind].
    unfold wire_list at 1. rewrite parse_arrays_framed by apply HTX.
    reflexivity.
  - cbn [bind]. eexists. split; [reflexivity|].
    repeat rewrite <- app_assoc.
    rewrite (slice_prefix code _ 4) by (symmetry; exact Hcode).
    rewrite (slice_decomp _ code ver _ 4 (4 + 4)) by (reflexivity || lia).
    rewrite Ev.
    rewrite (parse_array_size_frame _ (code ++ ver) (wire_list T)
               (frame (wire_list D) ++ frame (wire_list SV) ++ frame (wire_list SM)
                ++ wire_list TX ++ t))
      by (lists || lens || assumption).
    cbn [bind]. unfold wire_list at 1. rewrite parse_arrays_framed_exact by apply HT.
    cbn [bind].
    rewrite (parse_array_size_frame _ (code ++ ver ++ frame (wire_list T)) (wire_list D)
               (frame (wire_list SV) ++ frame (wire_list SM) ++ wire_list TX ++ t))
      by (lists || (unfold frame; lens) || assumption).
    cbn [bind]. unfold wire_list at 1. rewrite parse_arrays_framed_exact by apply HD.
    cbn [bind].
    rewrite (parse_array_size_frame _
               (code ++ ver ++ frame (wire_list T) ++ frame (wire_list D))
               (wire_list SV) (frame (wire_list SM) ++ wire_list TX ++ t))
      by (lists || (unfold frame; lens) || assumption).
    cbn [bind]. unfold wire_list at 1. rewrite parse_arrays_framed_exact by apply HSV.
    cbn [bind].
    rewrite (parse_array_size_frame _
               (code ++ ver ++ frame (wire_list T) ++ frame (wire_list D)
                ++ frame (wire_list SV))
               (wire_list SM) (wire_list TX ++ t))
      by (lists || (unfold frame; lens) || assumption).
    cbn [bind]. unfold wire_list at 1. rewrite parse_arrays_framed_exact by apply HSM.
    cbn [bind].
    rewrite (skipn_slice_end _
               (code ++ ver ++ frame (wire_list T) ++ frame (wire_list D)
                ++ frame (wire_list SV) ++ frame (wire_list SM)) (wire_list TX ++ t))
      by (lists || (unfold frame; lens)).
    unfold wire_list at 1. rewrite parse_arrays_framed by apply HTX.
    reflexivity.
Qed.

(** X23.  [from_bytes] does not look past the textual list: after the
    serialization of a valid contract any suffix is ignored, and the
    contract is recovered. *)
Theorem from_bytes_ignores_suffix (c : Contract) (b t : pybytes) :
  valid_contract c ->
  Contract_bytes c = Return b ->
  from_bytes (b ++ t) = Return c.
Proof.
  intros Hv Hb. destruct (from_bytes_serialized c t Hv) as (b' & Hb' & Hf).
  congruence.
Qed.

Lemma Contract_bytes_version_1 (c : Contract) (sm : list pybytes) :
  language_version c = be_bytes 4 1 ->
  Contract_bytes (with_state_map c sm) = Contract_bytes c.
Proof.
  intros Hv. unfold Contract_bytes, with_state_map.
  cbn [language_code language_version trigger descriptor state_variable
       state_map textual].
  rewrite pack_4_1. cbn [bind]. rewrite Hv, bytes_eqb_refl. reflexivity.
Qed.

(** X24.  A state map does not survive version 1: whatever the state map of
    a version-1 contract is, its bytes are those of the contract without
    it, and [from_bytes] returns the contract with the empty state map. *)
Theorem version_1_drops_state_map (c : Contract) :
  language_version c = be_bytes 4 1 ->
  valid_contract (with_state_map c []) ->
  exists b, Contract_bytes c = Return b
            /\ from_bytes b = Return (with_state_map c []).
Proof.
  intros Hv Hc.
  destruct (from_bytes_serialized _ [] Hc) as (b & Hb & Hf).
  rewrite app_nil_r in Hf. rewrite Contract_bytes_version_1 in Hb by exact Hv.
  exists b. split; assumption.
Qed.




Section ContractStrings.
Context {base58 : Base58}.

(** X26.  The text form of a contract: when the codec decodes the text it
    printed for the bytes of a valid contract back to those bytes,
    [from_base58_string] of [base58_string] recovers the contract. *)
Theorem base58_string_roundtrip (c : Contract) (b : pybytes) :
  valid_contract c ->
  Contract_bytes c = Return b ->
  b58decode (PStr (bytes2str (b58encode b))) = Return b ->
  exists s, Contract_base58_string c = Return s
            /\ from_base58_string (PStr s) = Return c.
Proof.
  intros Hv Hb Hc. exists (bytes2str (b58encode b)).
  unfold Contract_base58_string, from_base58_string. rewrite Hb, Hc. cbn [bind].
  split; [reflexivity|].
  destruct (from_bytes_serialized c [] Hv) as (b' & Hb' & Hf).
  rewrite app_nil_r in Hf. congruence.
Qed.

End ContractStrings.

(** X27.  [language_version_builder] never raises: for an integer from 0 to
    2^32-1 it returns the four big-endian bytes and prints nothing; for any
    other integer and for a [str] the bare [except] swallows the
    [struct.error], a line is printed and the result is [None]. *)
Theorem language_version_builder_total :
  (forall n, 0 <= n < 2 ^ 32 ->
             language_version_builder (PInt n) = (Some (be_bytes 4 n), []))
  /\ (forall n, ~ (0 <= n < 2 ^ 32) ->
                language_version_builder (PInt n)
                = (None, [Print "Wrong language version length"]))
  /\ (forall s, language_version_builder (PStr s)
                = (None, [Print "Wrong language version length"]))
  /\ (forall v b out, language_version_builder v = (Some b, out) ->
                      exists n, v = PInt n /\ 0 <= n < 2 ^ 32 /\ length b = 4%nat
                                /\ be_int b = n /\ out = []).
Proof.
  assert (Hin : forall n, 0 <= n < 2 ^ 32 ->
                  language_version_builder (PInt n) = (Some (be_bytes 4 n), [])).
  { intros n Hn. unfold language_version_builder. cbn [pack_val].
    rewrite pack_ok by (change (256 ^ Z.of_nat 4) with (2 ^ 32); exact Hn).
    rewrite length_be_bytes. reflexivity. }
  assert (Hout : forall n, ~ (0 <= n < 2 ^ 32) ->
                  language_version_builder (PInt n)
                  = (None, [Print "Wrong language version length"])).
  { intros n Hn. unfold language_version_builder. cbn [pack_val].
    rewrite pack_out_of_range by (change (256 ^ Z.of_nat 4) with (2 ^ 32); exact Hn).
    reflexivity. }
  repeat apply conj; try assumption.
  - intros s. reflexivity.
  - intros v b out H. destruct v as [n|s]; [|discriminate].
    destruct (Z.le_gt_cases 0 n) as [H0|H0];
      [destruct (Z.lt_ge_cases n (2 ^ 32)) as [H1|H1]|].
    + rewrite Hin in H by lia.
      assert (Hb : b = be_bytes 4 n) by congruence.
      assert (Ho : out = []) by congruence. subst b out.
      exists n. rewrite length_be_bytes, be_int_be_bytes
        by (change (256 ^ Z.of_nat 4) with (2 ^ 32); lia).
      repeat split; lia.
    + rewrite Hout in H by lia. discriminate.
    + rewrite Hout in H by lia. discriminate.
Qed.

(** ** The older module [src/contract.py] *)

Section LegacyCodec.
Context {base58 : Base58}.

Lemma bytes_eqb_neq (a b : pybytes) : a <> b -> (a == b) = false.
Proof.
  intros H. destruct (a == b) eqn:E; [|reflexivity].
  apply bytes_eqb_eq in E. contradiction.
Qed.

(** X28.  In the older module the Int32 branch of the type check compares
    the four packed bytes with the width of an Amount, so it never holds: no
    Int32 entry can be constructed, and the bytes of an Int32 entry, which
    the decoder of [vsyspy/contract.py] reads, make the older decoder raise
    [ValueError]. *)
Theorem legacy_int32_never_constructed :
  (forall d e, Legacy.DataEntry_init d Type_.int32 <> Return e)
  /\ (forall n, 0 <= n < 2 ^ 32 ->
                Legacy.DataEntry_init (PInt n) Type_.int32 = Raise ValueError)
  /\ (forall n, 0 < n < 2 ^ 32 ->
                data_entry_from_bytes (Type_.int32 ++ be_bytes 4 n)
                = Return (Some (entry (PInt n) Type_.int32 "int32" (be_bytes 4 n)))
                /\ Legacy.data_entry_from_bytes (Type_.int32 ++ be_bytes 4 n)
                   = Raise ValueError).
Proof.
  assert (Hr : forall n, 0 <= n < 2 ^ 32 ->
                 Legacy.DataEntry_init (PInt n) Type_.int32 = Raise ValueError).
  { intros n Hn. unfold Legacy.DataEntry_init, Legacy.check_data_type.
    run_tags. cbv iota. cbn [pack_val].
    rewrite pack_ok by (change (256 ^ Z.of_nat 4) with (2 ^ 32); exact Hn).
    cbn [bind]. rewrite length_be_bytes. reflexivity. }
  repeat apply conj.
  - intros d e H. destruct d as [n|s].
    + destruct (Z.le_gt_cases 0 n) as [H0|H0];
        [destruct (Z.lt_ge_cases n (2 ^ 32)) as [H1|H1]|].
      * rewrite Hr in H by lia. discriminate.
      * unfold Legacy.DataEntry_init, Legacy.check_data_type in H.
        revert H. run_tags. cbv iota. cbn [pack_val].
        rewrite pack_out_of_range by (change (256 ^ Z.of_nat 4) with (2 ^ 32); lia).
        discriminate.
      * unfold Legacy.DataEntry_init, Legacy.check_data_type in H.
        revert H. run_tags. cbv iota. cbn [pack_val].
        rewrite pack_out_of_range by (change (256 ^ Z.of_nat 4) with (2 ^ 32); lia).
        discriminate.
    + discriminate.
  - exact Hr.
  - intros n Hn. split.
    + assert (Hs : shape (PInt n) Type_.int32 "int32" (be_bytes 4 n))
        by (apply shape_int32; [reflexivity | exact Hn]).
      apply (data_entry_from_bytes_entry _ _ _ _ _ Hs (shape_init _ _ _ _ Hs)).
      discriminate.
    + unfold Legacy.data_entry_from_bytes.
      rewrite length_app, length_be_bytes.
      change (length Type_.int32 + 4 =? 0)%nat with false. cbv iota.
      rewrite (slice_prefix Type_.int32 _ 1) by reflexivity.
      run_tags. cbv iota.
      rewrite (skipn_app_exact Type_.int32 _ 1) by reflexivity.
      rewrite unpack_be_bytes by (change (256 ^ Z.of_nat 4) with (2 ^ 32); lia).
      cbn [bind]. rewrite Hr by lia. reflexivity.
Qed.

(** X29.  Elsewhere the two constructors agree: for every data value and
    every tag other than Int32, TokenId and Timestamp the constructor of the
    older module returns or raises exactly what the one of
    [vsyspy/contract.py] does. *)
Theorem legacy_constructor_agrees (d : pyval) (t : pybytes) :
  t <> Type_.int32 -> t <> Type_.token_id -> t <> Type_.timestamp ->
  Legacy.DataEntry_init d t = DataEntry_init d t.
Proof.
  intros H4 H8 H9.
  apply bytes_eqb_neq in H4, H8, H9.
  unfold Legacy.DataEntry_init, Legacy.check_data_type, DataEntry_init, check_data_type.
  rewrite H4, H8, H9. reflexivity.
Qed.

End LegacyCodec.

(** ** A last entry that is cut short *)

Section Truncation.
Context {base58 : Base58}.

Lemma slice_clamped {A : Type} (pre x : list A) (i j : nat) :
  i = length pre -> (length pre + length x <= j)%nat ->
  slice (pre ++ x) i j = x.
Proof.
  intros -> H. unfold slice. rewrite skipn_app, skipn_all, Nat.sub_diag. simpl.
  apply firstn_all2. lia.
Qed.

(** X30.  A list whose only entry is cut short.  The slices are clamped at
    the end of the buffer, so a TokenId with fewer than thirty bytes of
    payload is decoded as it stands, with no error; an Amount with fewer
    than eight bytes of payload makes [struct.unpack] raise
    [struct.error]. *)
Theorem truncated_last_entry (p : pybytes) :
  ((length p <= 30)%nat ->
   forall p', b58decode (PStr (bytes2str (b58encode p))) = Return p' ->
     data_entries_from_bytes (be_bytes 2 1 ++ Type_.token_id ++ p)
     = Return [Some (entry (PStr (bytes2str (b58encode p))) Type_.token_id
                       "token_id" p')])
  /\ ((length p < 8)%nat ->
      data_entries_from_bytes (be_bytes 2 1 ++ Type_.amount ++ p)
      = Raise StructError).
Proof.
  split.
  - intros Hl p' Hp. unfold data_entries_from_bytes.
    rewrite (slice_prefix (be_bytes 2 1) _ 2) by reflexivity.
    change (unpack 2 (be_bytes 2 1)) with (Return 1). cbn [bind].
    change (Z.to_nat 1) with 1%nat. cbn [data_entries_loop].
    unfold parse_data_entry_array_size.
    rewrite (slice_decomp _ (be_bytes 2 1) Type_.token_id p 2 (2 + 1))
      by reflexivity.
    run_tags. cbv iota. unfold fixed_branch.
    rewrite (slice_clamped (be_bytes 2 1) (Type_.token_id ++ p))
      by (reflexivity
          || (rewrite length_app; unfold Type_.token_address_length; simpl; lia)).
    unfold data_entry_from_bytes.
    rewrite (slice_prefix Type_.token_id p 1) by reflexivity.
    rewrite (skipn_app_exact Type_.token_id p 1) by reflexivity.
    rewrite length_app. change (length Type_.token_id + length p =? 0)%nat with false.
    run_tags. cbv iota.
    rewrite (shape_init _ _ _ _ (shape_token_id _ _ Hp)). reflexivity.
  - intros Hl. unfold data_entries_from_bytes.
    rewrite (slice_prefix (be_bytes 2 1) _ 2) by reflexivity.
    change (unpack 2 (be_bytes 2 1)) with (Return 1). cbn [bind].
    change (Z.to_nat 1) with 1%nat. cbn [data_entries_loop].
    unfold parse_data_entry_array_size.
    rewrite (slice_decomp _ (be_bytes 2 1) Type_.amount p 2 (2 + 1))
      by reflexivity.
    run_tags. cbv iota. unfold fixed_branch.
    rewrite (slice_clamped (be_bytes 2 1) (Type_.amount ++ p))
      by (reflexivity
          || (rewrite length_app; unfold Type_.amount_length; simpl; lia)).
    unfold data_entry_from_bytes.
    rewrite (slice_prefix Type_.amount p 1) by reflexivity.
    rewrite (skipn_app_exact Type_.amount p 1) by reflexivity.
    rewrite length_app. change (length Type_.amount + length p =? 0)%nat with false.
    run_tags. cbv iota. unfold unpack.
    destruct (Nat.eqb_spec (length p) 8); [lia | reflexivity].
Qed.

End Truncation.

(** ** The further properties at the sample data *)

Lemma short_text_by_length_witness :
  encode_latin1 text141 = Return (repeat x61 141)
  /\ @DataEntry_init Base58Bitcoin.codec (PStr text141) Type_.short_text
     = Raise ValueError.
Proof.
  split; [vm_compute; reflexivity|].
  apply (proj1 (proj2 (@short_text_by_length Base58Bitcoin.codec text141
                         (repeat x61 141) eq_refl)));
    [vm_compute; lia | vm_compute; reflexivity].
Defined.

Lemma short_text_unencodable_witness :
  str2bytes (PStr [104%N; 8364%N]) = Raise UnicodeEncodeError
  /\ @DataEntry_init Base58Bitcoin.codec (PStr [104%N; 8364%N]) Type_.short_text
     = Raise UnicodeEncodeError.
Proof.
  split; [reflexivity|].
  exact (proj1 (@short_text_unencodable Base58Bitcoin.codec (PStr [104%N; 8364%N])
                  UnicodeEncodeError eq_refl)).
Defined.

Lemma sample_address_valid : @valid_entry Base58Bitcoin.codec sample_address.
Proof.
  apply (@init_valid Base58Bitcoin.codec (data sample_address) Type_.address);
    vm_compute; reflexivity.
Defined.

Lemma constructed_entry_layout_witness :
  @constructed Base58Bitcoin.codec sample_address
  /\ handled_tag (slice (bytes sample_address) 0 1) = true
  /\ length (bytes sample_address) = S (length (data_bytes sample_address)).
Proof.
  split; [exact (proj1 sample_address_valid)|].
  destruct (@constructed_entry_layout Base58Bitcoin.codec sample_address
              (proj1 sample_address_valid)) as (H1 & _ & _ & H2).
  split; [exact H1 | exact H2].
Defined.

Lemma data_entry_from_bytes_roundtrip_witness :
  @valid_entry Base58Bitcoin.codec sample_address
  /\ @data_entry_from_bytes Base58Bitcoin.codec (bytes sample_address)
     = Return (Some sample_address).
Proof.
  split; [exact sample_address_valid|].
  exact (@data_entry_from_bytes_roundtrip Base58Bitcoin.codec sample_address
           sample_address_valid).
Defined.

Lemma data_entries_from_bytes_result_witness :
  @data_entries_from_bytes Base58Bitcoin.codec
    ([x00; x02] ++ bytes sample_amount ++ bytes sample_text)
  = Return [Some sample_amount; Some sample_text]
  /\ exists n, unpack 2 (slice ([x00; x02] ++ bytes sample_amount ++ bytes sample_text) 0 2)
               = Return n
               /\ length [Some sample_amount; Some sample_text] = Z.to_nat n
               /\ Forall (fun o => exists e, o = Some e
                                             /\ @constructed Base58Bitcoin.codec e)
                    [Some sample_amount; Some sample_text].
Proof.
  assert (H : @data_entries_from_bytes Base58Bitcoin.codec
                ([x00; x02] ++ bytes sample_amount ++ bytes sample_text)
              = Return [Some sample_amount; Some sample_text])
    by (vm_compute; reflexivity).
  split; [exact H|].
  exact (@data_entries_from_bytes_result Base58Bitcoin.codec _ _ H).
Defined.

Lemma data_entries_from_bytes_overdeclared_witness :
  Forall (@valid_entry Base58Bitcoin.codec) sample_entries
  /\ len sample_entries < 5 < 65536
  /\ @data_entries_from_bytes Base58Bitcoin.codec
       (be_bytes 2 5 ++ concat (map bytes sample_entries)) = Raise TypeError.
Proof.
  split; [exact sample_entries_valid|].
  assert (H : len sample_entries < 5 < 65536) by (vm_compute; split; reflexivity).
  split; [exact H|].
  exact (@data_entries_from_bytes_overdeclared Base58Bitcoin.codec sample_entries 5
           sample_entries_valid H).
Defined.

Lemma serialize_data_injective_witness :
  exists b,
    serialize_data (EntryList sample_entries) = Return b
    /\ serialize_data (EntryList (rev (rev sample_entries))) = Return b
    /\ sample_entries = rev (rev sample_entries).
Proof.
  eexists. split; [vm_compute; reflexivity|]. split; [vm_compute; reflexivity|].
  eapply (@serialize_data_injective Base58Bitcoin.codec sample_entries
            (rev (rev sample_entries)));
    [exact sample_entries_valid | exact sample_entries_valid
     | vm_compute; reflexivity | vm_compute; reflexivity].
Defined.

Lemma data_entry_from_base58_str_roundtrip_witness :
  exists b,
    serialize_data (EntryList sample_entries) = Return b
    /\ @data_entry_from_base58_str Base58Bitcoin.codec
         (PStr (bytes2str (Base58Bitcoin.encode b)))
       = Return (map Some sample_entries).
Proof.
  eexists. split; [vm_compute; reflexivity|].
  apply (@data_entry_from_base58_str_roundtrip Base58Bitcoin.codec sample_entries);
    [exact sample_entries_valid | vm_compute; reflexivity | vm_compute; reflexivity].
Defined.

Lemma list_opc_gen_layout_witness :
  list_opc_gen [[x01; x02]; [x03]] [[x04]; []]
  = Return [x00; x0a; x00; x02; x00; x03; x01; x02; x04; x00; x01; x03]
  /\ claimed_length [[x01; x02]; [x03]] [[x04]; []] = 10
  /\ claimed_length [[x01; x02]; [x03]] [[x04]; []]
     = len (skipn 2 [x00; x0a; x00; x02; x00; x03; x01; x02; x04; x00; x01; x03]).
Proof.
  assert (H : list_opc_gen [[x01; x02]; [x03]] [[x04]; []]
              = Return [x00; x0a; x00; x02; x00; x03; x01; x02; x04; x00; x01; x03])
    by (vm_compute; reflexivity).
  split; [exact H|]. split; [reflexivity|].
  exact (proj1 (proj2 (list_opc_gen_layout _ _ _ H))).
Defined.

Lemma list_opc_gen_count_mismatch_witness :
  list_opc_gen [[x01]; [x02]; [x03]] [[x04]]
  = Return [x00; x06; x00; x03; x00; x02; x01; x04]
  /\ unpack 2 (slice [x00; x06; x00; x03; x00; x02; x01; x04] 2 4) = Return 3
  /\ length (combine [[x01]; [x02]; [x03]] [[x04]]) = 1%nat.
Proof.
  assert (H : list_opc_gen [[x01]; [x02]; [x03]] [[x04]]
              = Return [x00; x06; x00; x03; x00; x02; x01; x04])
    by (vm_compute; reflexivity).
  assert (Hl : (length [[x04]] < length [[x01]; [x02]; [x03]])%nat)
    by (vm_compute; lia).
  destruct (list_opc_gen_count_mismatch _ _ _ H Hl) as (H1 & _ & H2 & _).
  split; [exact H|]. split; [exact H1 | exact H2].
Defined.

Lemma list_opc_gen_is_section_witness :
  list_opc_gen [[x01; x02]; [x03]] [[x04]; []]
  = Return [x00; x0a; x00; x02; x00; x03; x01; x02; x04; x00; x01; x03]
  /\ bytes_builder_from_list (AList [[x01; x02; x04]; [x03]])
     = Return (Some [x00; x0a; x00; x02; x00; x03; x01; x02; x04; x00; x01; x03], []).
Proof.
  assert (H : list_opc_gen [[x01; x02]; [x03]] [[x04]; []]
              = Return [x00; x0a; x00; x02; x00; x03; x01; x02; x04; x00; x01; x03])
    by (vm_compute; reflexivity).
  split; [exact H|].
  exact (proj1 (list_opc_gen_is_section [[x01; x02]; [x03]] [[x04]; []] _ eq_refl) H).
Defined.

Lemma without_split_matches_with_split_witness :
  exists ds ds',
    ContractDefaults.descriptor_with_split sample_meta = Return ds
    /\ ContractDefaults.descriptor_without_split sample_meta = Return ds'
    /\ length ds = 12%nat /\ length ds' = 11%nat
    /\ map (skipn 2) ds' = map (skipn 2) (firstn 3 ds ++ skipn 4 ds).
Proof.
  do 2 eexists. split; [vm_compute; reflexivity|]. split; [vm_compute; reflexivity|].
  apply (without_split_matches_with_split sample_meta); vm_compute; reflexivity.
Defined.

Lemma from_bytes_ignores_suffix_witness :
  exists b,
    Contract_bytes sample_contract_v2 = Return b
    /\ from_bytes (b ++ [xff; x00; x01]) = Return sample_contract_v2.
Proof.
  eexists. split; [vm_compute; reflexivity|].
  apply (from_bytes_ignores_suffix sample_contract_v2 _ [xff; x00; x01]
           sample_contract_v2_valid).
  vm_compute. reflexivity.
Defined.

Lemma version_1_drops_state_map_witness :
  exists b,
    Contract_bytes (with_state_map sample_contract_v1 [[x09]]) = Return b
    /\ from_bytes b = Return sample_contract_v1.
Proof.
  exact (version_1_drops_state_map (with_state_map sample_contract_v1 [[x09]])
           eq_refl sample_contract_v1_valid).
Defined.


Lemma base58_string_roundtrip_witness :
  exists s, @Contract_base58_string Base58Bitcoin.codec sample_contract_v2 = Return s
            /\ @from_base58_string Base58Bitcoin.codec (PStr s)
               = Return sample_contract_v2.
Proof.
  destruct (Contract_bytes sample_contract_v2) as [b|e] eqn:E;
    [|vm_compute in E; discriminate E].
  apply (@base58_string_roundtrip Base58Bitcoin.codec sample_contract_v2 b
           sample_contract_v2_valid E).
  vm_compute in E. apply Return_inj in E. rewrite <- E. vm_compute. reflexivity.
Defined.

Lemma legacy_constructor_agrees_witness :
  @Legacy.DataEntry_init Base58Bitcoin.codec (PInt 100) Type_.amount
  = Return sample_amount
  /\ @Legacy.DataEntry_init Base58Bitcoin.codec (PInt 100) Type_.amount
     = @DataEntry_init Base58Bitcoin.codec (PInt 100) Type_.amount.
Proof.
  split; [vm_compute; reflexivity|].
  apply (@legacy_constructor_agrees Base58Bitcoin.codec (PInt 100) Type_.amount);
    intros H; vm_compute in H; discriminate H.
Defined.
